(** * Calchas weather dashboard: data acquisition and offline layer

    A shallow embedding of the provider clients
    ([VisualCrossingAPI], [MeteostatAPI], [SunriseSunsetAPI],
    [BigDataCloudAPI]) and of the service worker (network-first fetch
    handler, background retry of failed requests), followed by the
    properties of the specification that concern them.

    Conventions of the embedding:
    - a JavaScript value is a [JsVal]; numbers are exact rationals
      (rounding of IEEE doubles is not modelled), [JNaN] is the number NaN;
    - strings are byte strings (UTF-8); every pattern the code searches
      for is ASCII, so matching on bytes and on UTF-16 units agree;
    - a thrown value is an [Error] object, with a name and a message, or
      one of [null] and [undefined], on which reading [.message] throws;
    - an [async] function is a function to a [Completion]: [Normal v] is a
      promise resolved with [v], [Throw e] a promise rejected with [e];
    - the network and the clock are oracles of the environment, and every
      effect of interest (a network attempt, a back-off wait) is logged in
      a trace. *)

From Stdlib Require Import String Ascii ZArith QArith Qabs Bool List Lia Lqa.
From stdpp Require Import base option list gmap strings sorting pretty.

Set Warnings "-register-all".

Local Open Scope string_scope.
Local Open Scope Z_scope.
Local Open Scope list_scope.

(** ** JavaScript values *)

Module JS.

Inductive JsVal : Type :=
  | JUndefined
  | JNull
  | JBool (b : bool)
  | JNum (q : Q)
  | JNaN
  | JStr (s : string)
  | JArr (items : list JsVal)
  | JObj (fields : list (string * JsVal)).   (* each key listed once *)

(** An [Error] object: [err.name] and [err.message]. *)
Record JsError : Type := mkError { err_name : string; err_message : string }.

Definition Error (msg : string) : JsError := mkError "Error" msg.

(** What a [throw] statement throws and a rejected promise carries: an
    [Error] object, or one of the two values that have no properties. (The
    code itself throws [Error] objects only; [safeApiFetch], which is not
    part of the sources, may reject with anything.) *)
Inductive Thrown : Type :=
  | ErrorObject (e : JsError)
  | ThrownNull
  | ThrownUndefined.

Coercion ErrorObject : JsError >-> Thrown.

(** The result of evaluating code that may throw. *)
Inductive Completion (A : Type) : Type :=
  | Normal (a : A)
  | Throw (e : Thrown).
Arguments Normal {A} a.
Arguments Throw {A} e.

#[global] Instance Completion_ret : MRet Completion := fun _ a => Normal a.
#[global] Instance Completion_bind : MBind Completion := fun _ _ f m =>
  match m with
  | Normal a => f a
  | Throw e => Throw e
  end.

(** [try { body } catch (e) { handler e }] *)
Definition try_catch {A} (body : Completion A) (handler : Thrown -> Completion A)
  : Completion A :=
  match body with
  | Normal a => Normal a
  | Throw e => handler e
  end.

(** What the host (engine, browser) supplies. *)
Record Platform : Type := mkPlatform {
  (** [Number.prototype.toString] on a finite number *)
  Number_toString : Q -> string;
  (** the conversion of a string to a number; [None] is NaN *)
  StringToNumber : string -> option Q;
  (** [Date.parse]: milliseconds since the epoch; [None] is an invalid date *)
  Date_parse : string -> option Z;
  (** message of the TypeError raised by reading or calling property [k]
      of [v] *)
  TypeError_message : JsVal -> string -> string;
  (** [Number.prototype.toFixed] on a finite number *)
  Number_toFixed : Q -> nat -> string;
  (** [URLSearchParams.prototype.toString] *)
  URLSearchParams_toString : list (string * string) -> string;
  (** [JSON.stringify] *)
  JSON_stringify : JsVal -> string;
  (** [String.prototype.trim], [toLowerCase] and [toUpperCase] *)
  String_trim : string -> string;
  String_toLowerCase : string -> string;
  String_toUpperCase : string -> string;
  (** the UTF-16 code units of a string ([s.length] is their number) *)
  String_codeUnits : string -> list Z;
}.

Definition Qis_zero (q : Q) : bool := Qeq_bool q 0.

(** ToBoolean *)
Definition truthy (v : JsVal) : bool :=
  match v with
  | JUndefined | JNull | JNaN => false
  | JBool b => b
  | JNum q => negb (Qis_zero q)
  | JStr s => negb (String.eqb s EmptyString)
  | JArr _ | JObj _ => true
  end.

(** [a || b] *)
Definition js_or (a b : JsVal) : JsVal := if truthy a then a else b.

Definition isArray (v : JsVal) : bool :=
  match v with JArr _ => true | _ => false end.

Fixpoint assoc (k : string) (fields : list (string * JsVal)) : JsVal :=
  match fields with
  | [] => JUndefined
  | (k', v) :: rest => if String.eqb k k' then v else assoc k rest
  end.

(** [v.k] for a value that is neither [null] nor [undefined]; the code
    reads only named data properties and the [length] of arrays. *)
Definition prop (v : JsVal) (k : string) : JsVal :=
  match v with
  | JObj fields => assoc k fields
  | JArr items =>
      if String.eqb k "length" then JNum (inject_Z (Z.of_nat (length items)))
      else JUndefined
  | _ => JUndefined
  end.

(** [v.k], which throws a TypeError when [v] is [null] or [undefined]. *)
Definition get (pf : Platform) (v : JsVal) (k : string) : Completion JsVal :=
  match v with
  | JUndefined | JNull => Throw (mkError "TypeError" (TypeError_message pf v k))
  | _ => Normal (prop v k)
  end.

(** [v?.k] *)
Definition get_opt (v : JsVal) (k : string) : JsVal :=
  match v with
  | JUndefined | JNull => JUndefined
  | _ => prop v k
  end.

(** ToString, as used by template literals and [String(v)]. *)
Fixpoint to_string (pf : Platform) (v : JsVal) : string :=
  match v with
  | JUndefined => "undefined"
  | JNull => "null"
  | JBool true => "true"
  | JBool false => "false"
  | JNum q => Number_toString pf q
  | JNaN => "NaN"
  | JStr s => s
  | JArr items =>
      let elem x :=
        match x with
        | JUndefined | JNull => EmptyString
        | _ => to_string pf x
        end in
      (fix join (l : list JsVal) : string :=
         match l with
         | [] => EmptyString
         | [x] => elem x
         | x :: rest => String.append (elem x) (String.append "," (join rest))
         end) items
  | JObj _ => "[object Object]"
  end.

(** ToNumber; [None] is NaN. *)
Definition to_number (pf : Platform) (v : JsVal) : option Q :=
  match v with
  | JUndefined | JNaN => None
  | JNull => Some 0%Q
  | JBool b => Some (if b then 1%Q else 0%Q)
  | JNum q => Some q
  | JStr s => StringToNumber pf s
  | JArr _ | JObj _ => StringToNumber pf (to_string pf v)
  end.

Definition of_number (n : option Q) : JsVal :=
  match n with Some q => JNum q | None => JNaN end.

(** [a * b] and [a / b] for a non-zero constant [b] *)
Definition js_mul (pf : Platform) (a : JsVal) (b : Q) : JsVal :=
  of_number (q ← to_number pf a; Some (q * b)%Q).
Definition js_div (pf : Platform) (a : JsVal) (b : Q) : JsVal :=
  of_number (q ← to_number pf a; Some (q / b)%Q).

(** [v !== null] *)
Definition not_null (v : JsVal) : bool :=
  match v with JNull => false | _ => true end.

(** [v === undefined] *)
Definition is_undefined (v : JsVal) : bool :=
  match v with JUndefined => true | _ => false end.

(** [String(error)], i.e. [Error.prototype.toString] *)
Definition Error_toString (e : JsError) : string :=
  if String.eqb (err_name e) EmptyString then err_message e
  else if String.eqb (err_message e) EmptyString then err_name e
  else String.append (err_name e) (String.append ": " (err_message e)).

(** [error.message || String(error)] for an [Error] object *)
Definition message_or_string (e : JsError) : string :=
  if String.eqb (err_message e) EmptyString then Error_toString e
  else err_message e.

(** [err && err.message ? err.message : ''] *)
Definition guarded_message (err : Thrown) : string :=
  match err with
  | ErrorObject e => err_message e
  | ThrownNull | ThrownUndefined => EmptyString
  end.

(** The TypeError of reading property [k] of [null] or [undefined]. *)
Definition no_property (pf : Platform) (v : JsVal) (k : string) : JsError :=
  mkError "TypeError" (TypeError_message pf v k).

(** [error.message], unguarded: it throws when [error] is [null] or
    [undefined]. *)
Definition read_message (pf : Platform) (error : Thrown) : Completion string :=
  match error with
  | ErrorObject e => Normal (err_message e)
  | ThrownNull => Throw (no_property pf JNull "message")
  | ThrownUndefined => Throw (no_property pf JUndefined "message")
  end.

(** [error.message || String(error)], which reads [error.message] first *)
Definition read_message_or_string (pf : Platform) (error : Thrown)
  : Completion string :=
  match error with
  | ErrorObject e => Normal (message_or_string e)
  | ThrownNull => Throw (no_property pf JNull "message")
  | ThrownUndefined => Throw (no_property pf JUndefined "message")
  end.

(** [new Date(v).getTime()]; [None] is an invalid date. A number is
    truncated and clipped to the range of time values. *)
Definition TimeClip (q : Q) : option Z :=
  if Qle_bool (Qabs q) (inject_Z 8640000000000000)
  then Some (Z.quot (Qnum q) (Zpos (Qden q)))
  else None.

Definition Date_new (pf : Platform) (v : JsVal) : option Z :=
  match v with
  | JUndefined | JNaN => None
  | JStr s => Date_parse pf s
  | JArr _ | JObj _ => Date_parse pf (to_string pf v)
  | _ => q ← to_number pf v; TimeClip q
  end.

(** [v.toFixed(digits)] *)
Definition toFixed (pf : Platform) (v : JsVal) (digits : nat) : Completion string :=
  match v with
  | JNum q => Normal (Number_toFixed pf q digits)
  | JNaN => Normal "NaN"
  | _ => Throw (mkError "TypeError" (TypeError_message pf v "toFixed"))
  end.

(** [Number(v).toFixed(digits)] *)
Definition Number_then_toFixed (pf : Platform) (v : JsVal) (digits : nat) : string :=
  match to_number pf v with
  | Some q => Number_toFixed pf q digits
  | None => "NaN"
  end.

(** [v && typeof v === "string" && v.trim().length > 0] *)
Definition is_nonblank_string (pf : Platform) (v : JsVal) : bool :=
  truthy v &&
  match v with
  | JStr s => negb (String.eqb (String_trim pf s) EmptyString)
  | _ => false
  end.

(** [a < b] and [a === b] against a numeric constant [b] *)
Definition js_lt (pf : Platform) (a : JsVal) (b : Q) : bool :=
  match to_number pf a with
  | Some q => negb (Qle_bool b q)
  | None => false
  end.
Definition strict_eq_num (a : JsVal) (b : Q) : bool :=
  match a with JNum q => Qeq_bool q b | _ => false end.

(** [a === s] and [typeof v === "object"] for a truthy [v] *)
Definition strict_eq_str (a : JsVal) (s : string) : bool :=
  match a with JStr s' => String.eqb s' s | _ => false end.
Definition is_object (v : JsVal) : bool :=
  match v with JArr _ | JObj _ | JNull => true | _ => false end.

(** [v.trim()] *)
Definition trim (pf : Platform) (v : JsVal) : Completion string :=
  match v with
  | JStr s => Normal (String_trim pf s)
  | _ => Throw (mkError "TypeError" (TypeError_message pf v "trim"))
  end.

(** Filtering and mapping with a callback that may throw. *)
Fixpoint filterM {A} (f : A -> Completion bool) (l : list A) : Completion (list A) :=
  match l with
  | [] => Normal []
  | x :: rest =>
      b ← f x;
      rest' ← filterM f rest;
      Normal (if b : bool then x :: rest' else rest')
  end.

Fixpoint mapC {A B} (f : A -> Completion B) (l : list A) : Completion (list B) :=
  match l with
  | [] => Normal []
  | x :: rest =>
      y ← f x;
      rest' ← mapC f rest;
      Normal (y :: rest')
  end.

End JS.

(** ** Regular expressions

    The fragment the code uses: literals, [\d], sequence and
    alternation, tested either anywhere in the subject ([/r/]) or
    against the whole subject ([/^r$/]). *)

Module Regex.

Inductive regex : Type :=
  | REps
  | RChar (c : ascii)
  | RDigit
  | RSeq (r1 r2 : regex)
  | RAlt (r1 r2 : regex).

Definition is_digit (c : ascii) : bool :=
  let n := nat_of_ascii c in ((48 <=? n) && (n <=? 57))%nat.

Fixpoint RLit (s : string) : regex :=
  match s with
  | EmptyString => REps
  | String c rest => RSeq (RChar c) (RLit rest)
  end.

(** [r|r1|...|rn] *)
Fixpoint RAlts (r : regex) (rs : list regex) : regex :=
  match rs with
  | [] => r
  | r' :: rest => RAlt r (RAlts r' rest)
  end.

Fixpoint RRepeat (n : nat) (r : regex) : regex :=
  match n with
  | O => REps
  | S n' => RSeq r (RRepeat n' r)
  end.

(** [rmatch r s k]: some prefix of [s] matches [r] and the rest of [s]
    satisfies [k]. *)
Fixpoint rmatch (r : regex) (s : string) (k : string -> bool) : bool :=
  match r with
  | REps => k s
  | RChar c =>
      match s with
      | String c' rest => if Ascii.eqb c c' then k rest else false
      | EmptyString => false
      end
  | RDigit =>
      match s with
      | String c' rest => if is_digit c' then k rest else false
      | EmptyString => false
      end
  | RSeq r1 r2 => rmatch r1 s (fun rest => rmatch r2 rest k)
  | RAlt r1 r2 => rmatch r1 s k || rmatch r2 s k
  end.

(** [/r/.test(s)]: a match starting at some position of [s] *)
Fixpoint test (r : regex) (s : string) : bool :=
  rmatch r s (fun _ => true) ||
  match s with
  | EmptyString => false
  | String _ rest => test r rest
  end.

(** [/^r$/.test(s)]: a match of the whole of [s] *)
Definition test_whole (r : regex) (s : string) : bool :=
  rmatch r s (fun rest => String.eqb rest EmptyString).

(** [s.includes(p)] *)
Definition includes (s p : string) : bool := test (RLit p) s.

End Regex.

(** ** Effects of an asynchronous call

    A provider client talks to the network through [safeApiFetch] (fetch
    with a timeout), which is left abstract: its replies are an oracle of
    the environment, indexed by the number of the call. A trace records
    the calls and the back-off waits in the order they happen. *)

Module Effects.
Import JS.

(** The arguments of [safeApiFetch(url, options, timeout)]. *)
Record Request : Type := mkRequest {
  req_url : string;
  req_method : option string;
  req_headers : list (string * string);
  req_body : option string;
  req_timeout : Z;
}.

Definition GET (url : string) (timeout : Z) : Request :=
  mkRequest url None [] None timeout.

Inductive Event : Type :=
  | EvFetch (req : Request)     (* one call of [safeApiFetch] *)
  | EvWait (ms : Z).            (* [await new Promise(r => setTimeout(r, ms))] *)

(** What one call [await safeApiFetch(...)] followed by
    [await response.json()] yields. *)
Inductive Reply : Type :=
  | NetError (e : Thrown)       (* [safeApiFetch] rejects *)
  | BodyError (e : Thrown)      (* [response.json()] rejects *)
  | Body (data : JsVal).        (* the parsed payload *)

(** [{ valid, error }] as the validators return it; [None] is [null]. *)
Record Validation : Type := mkValidation { valid : bool; error : option string }.

Record Env : Type := mkEnv {
  platform : Platform;
  (** [validateCoordinates] of the validation utilities *)
  validateCoordinates : JsVal -> JsVal -> Validation;
  (** the reply to the call of [safeApiFetch] with the given number *)
  safeApiFetch : nat -> Reply;
  (** the value of the n-th reading of the clock ([Date.now()], [new Date()]) *)
  Date_now : nat -> Z;
}.

(** A computation with a trace. *)
Definition Eff (A : Type) : Type := list Event * Completion A.

#[global] Instance Eff_ret : MRet Eff := fun _ a => ([], Normal a).
#[global] Instance Eff_bind : MBind Eff := fun _ _ f m =>
  match m with
  | (t, Normal a) => let '(t', c) := f a in (t ++ t', c)
  | (t, Throw e) => (t, Throw e)
  end.

Definition lift {A} (c : Completion A) : Eff A := ([], c).
Definition emit (ev : Event) : Eff unit := ([ev], Normal tt).
Definition throw {A} (e : Thrown) : Eff A := ([], Throw e).

(** [try { body } catch (e) { handler e }] with effects *)
Definition try_catch_eff {A} (body : Eff A) (handler : Thrown -> Eff A) : Eff A :=
  match body with
  | (t, Normal a) => (t, Normal a)
  | (t, Throw e) => let '(t', c) := handler e in (t ++ t', c)
  end.

Definition trace {A} (m : Eff A) : list Event := fst m.
Definition result {A} (m : Eff A) : Completion A := snd m.

(** The network attempts and the waits of a trace. *)
Fixpoint attempts (t : list Event) : nat :=
  match t with
  | [] => O
  | EvFetch _ :: rest => S (attempts rest)
  | EvWait _ :: rest => attempts rest
  end.
Fixpoint waits (t : list Event) : list Z :=
  match t with
  | [] => []
  | EvWait ms :: rest => ms :: waits rest
  | EvFetch _ :: rest => waits rest
  end.

(** What a provider client resolves to: the data of the provider, or
    [{ error, source }]. *)
Record Failure : Type := mkFailure { f_error : string; f_source : string }.

Inductive Outcome (S : Type) : Type :=
  | Success (s : S)
  | Failed (f : Failure).
Arguments Success {S} s.
Arguments Failed {S} f.

(** [return { error: message, source }] in a [catch] block, where
    [message] is read off the value caught and reading it may throw. *)
Definition failure {S} (message : Completion string) (source : string)
  : Completion (Outcome S) :=
  msg ← message;
  Normal (Failed (mkFailure msg source)).

Definition failure_of {S} (message : Completion string) (source : string)
  : Eff (Outcome S) :=
  lift (failure message source).

(** [new Error(validation.error)] *)
Definition Error_of (msg : option string) : JsError :=
  Error (match msg with Some m => m | None => "null" end).

(** [const maxAttempts = 3] *)
Definition maxAttempts : nat := 3.

(** The body of the [try] of one attempt: fetch, parse, validate. *)
Definition attempt_body (validate : JsVal -> Validation) (r : Reply)
  : Completion JsVal :=
  match r with
  | NetError e => Throw e
  | BodyError e => Throw e
  | Body data =>
      let validation := validate data in
      if negb (valid validation) then Throw (Error_of (error validation))
      else Normal data
  end.

(** [200 * Math.pow(2, attempt - 1)] *)
Definition waitMs (attempt : nat) : Z := 200 * 2 ^ (Z.of_nat attempt - 1).

(** [while (attempt < maxAttempts) { try { ... break; } catch (err) { ... } }]
    with [remaining = maxAttempts - attempt]; the value is [data] when the
    loop is left. [fetchWeather] and [fetchHistorical] each write this loop
    out; the two copies differ in the request, the validator and the
    pattern of client errors, which are the parameters here. The call
    [safeApiFetch] of attempt [n + 1] is call number [n], since [attempt]
    counts the failures so far. *)
Fixpoint retry_from (env : Env) (url : Request)
    (validate : JsVal -> Validation) (isClientError : string -> bool)
    (remaining : nat) : Eff JsVal :=
  match remaining with
  | O => mret JNull
  | S remaining' =>
      let attempt := (maxAttempts - remaining)%nat in
      try_catch_eff
        (emit (EvFetch url) ;;
         lift (attempt_body validate (safeApiFetch env attempt)))
        (fun err =>
           let attempt := (attempt + 1)%nat in
           let isLast := (maxAttempts <=? attempt)%nat in
           let msg := guarded_message err in
           if isClientError msg || isLast then throw err
           else
             emit (EvWait (waitMs attempt)) ;;
             retry_from env url validate isClientError remaining')
  end.

Definition retry_loop (env : Env) (url : Request)
    (validate : JsVal -> Validation) (isClientError : string -> bool)
  : Eff JsVal :=
  retry_from env url validate isClientError maxAttempts.

End Effects.

(** ** Visual Crossing client ([src/api/visualcrossing.js]) *)

Module VisualCrossing.
Import JS Regex Effects.

Definition baseUrl : string :=
  "https://weather.visualcrossing.com/VisualCrossingWebServices/rest/services/timeline".
Definition timeout : Z := 5000.
Definition name : string := "Visual Crossing".
Definition source : string := "visualcrossing".

Record Current : Type := mkCurrent {
  temp : JsVal;
  humidity : JsVal;
  wind_speed : JsVal;
  pressure : JsVal;
  clouds : JsVal;
  weather_code : Z;
  description : JsVal;
  timestamp : JsVal;
}.

Record Day : Type := mkDay {
  date : JsVal;
  temp_min : JsVal;
  temp_max : JsVal;
  temp_avg : JsVal;
  precipitation : JsVal;
  day_wind_speed : JsVal;
  day_weather_code : Z;
  day_description : JsVal;
}.

Record Formatted : Type := mkFormatted {
  fmt_current : Current;
  fmt_historical : list Day;
  fmt_forecast : list Day;
}.

Record Weather : Type := mkWeather {
  current : Current;
  historical : list Day;
  forecast : list Day;
  fromCache : bool;
  duration : Z;
  w_source : string;
}.

Definition _validateResponse (pf : Platform) (data : JsVal) : Validation :=
  if negb (truthy data) then
    mkValidation false (Some "Keine Daten von Visual Crossing erhalten")
  else if truthy (prop data "errorCode") then
    let errorMsg :=
      if truthy (prop data "message") then to_string pf (prop data "message")
      else String.append "Error code: " (to_string pf (prop data "errorCode")) in
    mkValidation false (Some (String.append "Visual Crossing: " errorMsg))
  else if negb (truthy (prop data "currentConditions")) then
    mkValidation false
      (Some "Ungültige Visual Crossing Antwort: Keine aktuellen Bedingungen")
  else if negb (isArray (prop data "days")) then
    mkValidation false (Some "Ungültige Visual Crossing Antwort: Keine Tagesdaten")
  else mkValidation true None.

(** [/HTTP Fehler 4\d\d|401|403|404|429|API key|Invalid API|unauthorized/] *)
Definition clientErrorPattern : regex :=
  RAlts (RSeq (RLit "HTTP Fehler 4") (RSeq RDigit RDigit))
    [RLit "401"; RLit "403"; RLit "404"; RLit "429";
     RLit "API key"; RLit "Invalid API"; RLit "unauthorized"].

Definition isClientError (msg : string) : bool := test clientErrorPattern msg.

Definition _mapWeatherCondition (pf : Platform) (conditions : JsVal) : Completion Z :=
  if negb (truthy conditions) then Normal 3
  else
    match conditions with
    | JStr s =>
        let cond := String_toLowerCase pf s in
        if includes cond "clear" || includes cond "sunny" then Normal 0
        else if includes cond "partly cloudy" || includes cond "mostly clear"
        then Normal 2
        else if includes cond "cloudy" || includes cond "overcast" then Normal 3
        else if includes cond "drizzle" || includes cond "light rain" then Normal 51
        else if includes cond "rain" then Normal 63
        else if includes cond "heavy rain" || includes cond "intense rain"
        then Normal 65
        else if includes cond "snow" then Normal 71
        else if includes cond "thunderstorm" || includes cond "severe"
                || includes cond "tornado" then Normal 95
        else if includes cond "fog" || includes cond "mist" then Normal 45
        else if includes cond "wind" then Normal 3
        else Normal 3
    | _ => Throw (mkError "TypeError" (TypeError_message pf conditions "toLowerCase"))
    end.

Definition msPerDay : Z := 1000 * 60 * 60 * 24.

(** The callback of [data.days.filter]: today and the six days before. *)
Definition recent_day (pf : Platform) (today : Z) (day : JsVal) : Completion bool :=
  datetime ← get pf day "datetime";
  Normal
    match Date_new pf datetime with
    | Some dayDate =>
        let dayCount := (today - dayDate) / msPerDay in
        (0 <=? dayCount) && (dayCount <=? 6)
    | None => false
    end.

(** The callback of the two [map]s over the days. *)
Definition format_day (pf : Platform) (day : JsVal) : Completion Day :=
  datetime ← get pf day "datetime";
  code ← _mapWeatherCondition pf (prop day "conditions");
  Normal {|
    date := datetime;
    temp_min := prop day "tempmin";
    temp_max := prop day "tempmax";
    temp_avg := prop day "temp";
    precipitation := js_or (prop day "precip") (JNum 0);
    day_wind_speed := prop day "windspeed";
    day_weather_code := code;
    day_description := js_or (prop day "conditions") (JStr "Unbekannt");
  |}.

(** [arr.slice(1, 8)] *)
Definition slice_1_8 {A} (l : list A) : list A := take 7 (drop 1 l).

(** [today] is the reading of the clock by [new Date()]. *)
Definition _formatWeatherData (pf : Platform) (today : Z) (data : JsVal)
  : Completion Formatted :=
  resolvedUnit ← get pf data "resolvedUnit";
  let unitGroup := js_or resolvedUnit (JStr "metric") in
  let cc := prop data "currentConditions" in
  _ ← get pf cc "temp";
  code ← _mapWeatherCondition pf (prop cc "conditions");
  let current := {|
    temp := prop cc "temp";
    humidity := prop cc "humidity";
    wind_speed := prop cc "windspeed";
    pressure := prop cc "pressure";
    clouds := js_or (prop cc "cloudcover") (JNum 0);
    weather_code := code;
    description := js_or (prop cc "conditions") (JStr "Unbekannt");
    timestamp := js_mul pf (prop cc "datetimeEpoch") 1000;
  |} in
  days ← match prop data "days" with
         | JArr items => Normal items
         | v => Throw (mkError "TypeError" (TypeError_message pf v "filter"))
         end;
  recent ← filterM (recent_day pf today) days;
  historical ← mapC (format_day pf) (rev recent);
  forecast ← mapC (format_day pf) (slice_1_8 days);
  Normal (mkFormatted current historical forecast).

(** The request URL. *)
Definition build_url (pf : Platform) (latitude longitude apiKey : JsVal)
    (units : string) : Completion string :=
  lat ← toFixed pf latitude 4;
  lon ← toFixed pf longitude 4;
  let location := String.append lat (String.append "," lon) in
  key ← trim pf apiKey;
  let params := URLSearchParams_toString pf
    [("unitGroup", if String.eqb units "metric" then "metric" else "us");
     ("include", "current,days,alerts");
     ("contentType", "json");
     ("key", key)] in
  Normal (String.append baseUrl
            (String.append "/" (String.append location (String.append "?" params)))).

(** [units] after the default of the parameter and the check against
    [['metric', 'us']]. *)
Definition effective_units (units : JsVal) : string :=
  match units with
  | JStr s => if String.eqb s "us" then "us" else "metric"
  | _ => "metric"
  end.

(** The body of the outer [try] of [fetchWeather]. *)
Definition fetchWeather_body (env : Env) (latitude longitude apiKey units : JsVal)
  : Eff (Outcome Weather) :=
  let pf := platform env in
  if negb (is_nonblank_string pf apiKey) then
    mret (Failed (mkFailure "Visual Crossing API key erforderlich" source))
  else
    let coordCheck := validateCoordinates env latitude longitude in
    if negb (valid coordCheck) then throw (Error_of (error coordCheck))
    else
      let units := effective_units units in
      url ← lift (build_url pf latitude longitude apiKey units);
      let startTime := Date_now env 0 in
      data ← retry_loop env (GET url timeout) (_validateResponse pf) isClientError;
      let duration := Date_now env 1 - startTime in
      formatted ← lift (_formatWeatherData pf (Date_now env 2) data);
      mret (Success {|
        current := fmt_current formatted;
        historical := fmt_historical formatted;
        forecast := fmt_forecast formatted;
        fromCache := false;
        duration := duration;
        w_source := source;
      |}).

Definition fetchWeather (env : Env) (latitude longitude apiKey units : JsVal)
  : Eff (Outcome Weather) :=
  try_catch_eff (fetchWeather_body env latitude longitude apiKey units)
    (fun error => failure_of (read_message (platform env) error) source).

End VisualCrossing.

(** ** Meteostat client ([MeteostatAPI]) *)

Module Meteostat.
Import JS Regex Effects.

Definition baseUrl : string := "https://api.meteostat.net/v2/daily".
Definition timeout : Z := 5000.
Definition name : string := "Meteostat".
Definition source : string := "meteostat".

Record Day : Type := mkDay {
  date : JsVal;
  temp_min : JsVal;
  temp_max : JsVal;
  temp_avg : JsVal;
  precipitation : JsVal;
  wind_speed : JsVal;
  wind_direction : JsVal;
  pressure : JsVal;
  weather_code : Z;
}.

Record Formatted : Type := mkFormatted { fmt_daily : list Day }.

Record Historical : Type := mkHistorical {
  daily : list Day;
  fromCache : bool;
  duration : Z;
  h_source : string;
}.

(** [/^\d{4}-\d{2}-\d{2}$/] *)
Definition dateRegex : regex :=
  RSeq (RRepeat 4 RDigit)
    (RSeq (RChar "-") (RSeq (RRepeat 2 RDigit)
       (RSeq (RChar "-") (RRepeat 2 RDigit)))).

Definition msPerDay : Z := 1000 * 60 * 60 * 24.

(** [Math.ceil(a / b)] for integers [a] and [b > 0] *)
Definition ceil_div (a b : Z) : Z := - ((- a) / b).

(** [!v || typeof v !== "string"] *)
Definition missing_string (v : JsVal) : bool :=
  negb (truthy v) || match v with JStr _ => false | _ => true end.

Definition _validateDates (pf : Platform) (startDate endDate : JsVal) : Validation :=
  if missing_string startDate then
    mkValidation false (Some "Startdatum erforderlich (Format: YYYY-MM-DD)")
  else if missing_string endDate then
    mkValidation false (Some "Enddatum erforderlich (Format: YYYY-MM-DD)")
  else
    let s := to_string pf startDate in
    let e := to_string pf endDate in
    if negb (test_whole dateRegex s) || negb (test_whole dateRegex e) then
      mkValidation false (Some "Ungültiges Datumformat (erwartet: YYYY-MM-DD)")
    else
      match Date_new pf startDate, Date_new pf endDate with
      | Some start, Some end_ =>
          if end_ <? start then
            mkValidation false (Some "Startdatum muss vor Enddatum liegen")
          else
            let diffTime := Z.abs (end_ - start) in
            let diffDays := ceil_div diffTime msPerDay in
            if 365 <? diffDays then
              mkValidation false (Some "Zeitraum darf 365 Tage nicht überschreiten")
            else mkValidation true None
      | _, _ => mkValidation false (Some "Ungültige Datumswerte")
      end.

Definition _validateResponse (pf : Platform) (data : JsVal) : Validation :=
  if negb (truthy data) then
    mkValidation false (Some "Keine Daten von Meteostat erhalten")
  else if truthy (prop data "error") then
    mkValidation false
      (Some (String.append "Meteostat: " (to_string pf (prop data "error"))))
  else
    match prop data "data" with
    | JArr items =>
        if (length items =? 0)%nat then
          mkValidation false
            (Some "Meteostat: Keine Daten für den angegebenen Zeitraum")
        else mkValidation true None
    | _ => mkValidation false (Some "Ungültige Meteostat Antwort: Keine Datenarray")
    end.

(** [/HTTP Fehler 4\d\d|401|403|404|429|API key|Invalid/] *)
Definition clientErrorPattern : regex :=
  RAlts (RSeq (RLit "HTTP Fehler 4") (RSeq RDigit RDigit))
    [RLit "401"; RLit "403"; RLit "404"; RLit "429";
     RLit "API key"; RLit "Invalid"].

Definition isClientError (msg : string) : bool := test clientErrorPattern msg.

Definition _mapPrecipitationToCode (pf : Platform) (precipitation : JsVal) : Z :=
  if negb (not_null precipitation) || is_undefined precipitation
     || strict_eq_num precipitation 0
  then 0
  else if js_lt pf precipitation 2 then 61
  else if js_lt pf precipitation 5 then 63
  else 65.

(** [v !== null ? v : null] *)
Definition keep (v : JsVal) : JsVal := if not_null v then v else JNull.

(** The callback of the [map] over [data.data]. *)
Definition format_day (pf : Platform) (day : JsVal) : Completion Day :=
  d ← get pf day "date";
  Normal {|
    date := js_or d (JStr EmptyString);
    temp_min := keep (prop day "tmin");
    temp_max := keep (prop day "tmax");
    temp_avg := keep (prop day "tavg");
    precipitation := if not_null (prop day "prcp") then prop day "prcp" else JNum 0;
    wind_speed :=
      if not_null (prop day "wspd") then js_div pf (prop day "wspd") (36 # 10)
      else JNull;
    wind_direction := keep (prop day "wdir");
    pressure := keep (prop day "pres");
    weather_code := _mapPrecipitationToCode pf (prop day "prcp");
  |}.

Definition _formatHistoricalData (pf : Platform) (data : JsVal) : Completion Formatted :=
  rows ← get pf data "data";
  items ← match js_or rows (JArr []) with
          | JArr items => Normal items
          | v => Throw (mkError "TypeError" (TypeError_message pf v "map"))
          end;
  daily ← mapC (format_day pf) items;
  Normal (mkFormatted daily).

(** The options of the POST request. *)
Definition build_request (pf : Platform)
    (latitude longitude startDate endDate apiKey : JsVal) : Completion Request :=
  let requestBody := JObj
    [("start", startDate); ("end", endDate); ("lon", longitude);
     ("lat", latitude); ("unit", JStr "metric")] in
  let headers :=
    [("Content-Type", "application/json"); ("User-Agent", "Calchas/1.0")] in
  headers ←
    (if is_nonblank_string pf apiKey then
       key ← trim pf apiKey; Normal (headers ++ [("API-Key", key)])
     else Normal headers);
  Normal (mkRequest baseUrl (Some "POST") headers
            (Some (JSON_stringify pf requestBody)) timeout).

(** The body of the outer [try] of [fetchHistorical]. *)
Definition fetchHistorical_body (env : Env)
    (latitude longitude startDate endDate apiKey : JsVal)
  : Eff (Outcome Historical) :=
  let pf := platform env in
  let coordCheck := validateCoordinates env latitude longitude in
  if negb (valid coordCheck) then throw (Error_of (error coordCheck))
  else
    let dateCheck := _validateDates pf startDate endDate in
    if negb (valid dateCheck) then throw (Error_of (error dateCheck))
    else
      req ← lift (build_request pf latitude longitude startDate endDate apiKey);
      let startTime := Date_now env 0 in
      data ← retry_loop env req (_validateResponse pf) isClientError;
      let duration := Date_now env 1 - startTime in
      formatted ← lift (_formatHistoricalData pf data);
      mret (Success {|
        daily := fmt_daily formatted;
        fromCache := false;
        duration := duration;
        h_source := source;
      |}).

Definition fetchHistorical (env : Env)
    (latitude longitude startDate endDate apiKey : JsVal)
  : Eff (Outcome Historical) :=
  try_catch_eff
    (fetchHistorical_body env latitude longitude startDate endDate apiKey)
    (fun error => failure_of (read_message (platform env) error) source).

End Meteostat.

(** The entries of [API_ENDPOINTS] (of the constants of the application)
    that a client reads. *)
Record Endpoint : Type := mkEndpoint { BASE : string; TIMEOUT : Z }.

(** ** Sunrise-Sunset client ([SunriseSunsetAPI]) *)

Module SunriseSunset.
Import JS Regex Effects.

Definition name : string := "SunriseSunset".
Definition source : string := "sunrisesunset".

Record Twilight : Type := mkTwilight { dawn : JsVal; dusk : JsVal }.

Record SunEvents : Type := mkSunEvents {
  sunrise : JsVal;
  sunset : JsVal;
  solarNoon : JsVal;
  dayLengthSeconds : JsVal;
  civil : Twilight;
  nautical : Twilight;
  astronomical : Twilight;
}.

Record SunResult : Type := mkSunResult {
  data : SunEvents;
  duration : Z;
  s_source : string;
}.

Definition _normalize (pf : Platform) (results : JsVal) : SunEvents :=
  let dayLengthSeconds := js_or (of_number (to_number pf (prop results "day_length"))) JNull in
  {| sunrise := prop results "sunrise";
     sunset := prop results "sunset";
     solarNoon := prop results "solar_noon";
     dayLengthSeconds := dayLengthSeconds;
     civil := mkTwilight (prop results "civil_twilight_begin")
                         (prop results "civil_twilight_end");
     nautical := mkTwilight (prop results "nautical_twilight_begin")
                            (prop results "nautical_twilight_end");
     astronomical := mkTwilight (prop results "astronomical_twilight_begin")
                                (prop results "astronomical_twilight_end") |}.

Definition build_url (pf : Platform) (ep : Endpoint)
    (latitude longitude apiKey : JsVal) : Completion string :=
  let params :=
    [("lat", Number_then_toFixed pf latitude 4);
     ("lng", Number_then_toFixed pf longitude 4);
     ("formatted", "0")] in
  params ←
    (if truthy apiKey then key ← trim pf apiKey; Normal (params ++ [("key", key)])
     else Normal params);
  Normal (String.append (BASE ep)
            (String.append "?" (URLSearchParams_toString pf params))).

Definition fetchSunEvents_body (env : Env) (ep : Endpoint)
    (latitude longitude apiKey : JsVal) : Eff (Outcome SunResult) :=
  let pf := platform env in
  let coordCheck := validateCoordinates env latitude longitude in
  if negb (valid coordCheck) then throw (Error_of (error coordCheck))
  else
    url ← lift (build_url pf ep latitude longitude apiKey);
    let start := Date_now env 0 in
    emit (EvFetch (GET url (TIMEOUT ep))) ;;
    match safeApiFetch env 0 with
    | NetError e => throw e
    | BodyError e => throw e
    | Body payload =>
        if negb (truthy payload) || negb (strict_eq_str (prop payload "status") "OK")
        then
          throw (Error (to_string pf
            (js_or (get_opt payload "status")
               (js_or (get_opt payload "error") (JStr "SunriseSunset API Fehler")))))
        else
          let results := js_or (prop payload "results") (JObj []) in
          let normalized := _normalize pf results in
          mret (Success {|
            data := normalized;
            duration := Date_now env 1 - start;
            s_source := source;
          |})
    end.

Definition fetchSunEvents (env : Env) (ep : Endpoint)
    (latitude longitude apiKey : JsVal) : Eff (Outcome SunResult) :=
  try_catch_eff (fetchSunEvents_body env ep latitude longitude apiKey)
    (fun error => failure_of (read_message_or_string (platform env) error) source).

End SunriseSunset.

(** ** BigDataCloud client ([src/api/bigdatacloud.js]) *)

Module BigDataCloud.
Import JS Regex Effects.

Definition name : string := "BigDataCloud".
Definition source : string := "bigdatacloud".

Record Location : Type := mkLocation {
  city : JsVal;
  locality : JsVal;
  region : JsVal;
  continent : JsVal;
  country : JsVal;
  countryCode : JsVal;
  countryFlag : option (list Z);     (* code points; [None] is [null] *)
  plusCode : JsVal;
  postcode : JsVal;
  timezone : JsVal;
  confidence : JsVal;
  subdivisions : list JsVal;
  latitude : JsVal;
  longitude : JsVal;
}.

Record LocationResult : Type := mkLocationResult {
  data : Location;
  duration : Z;
  l_source : string;
}.

Definition _countryFlag (pf : Platform) (code : JsVal) : option (list Z) :=
  match code with
  | JStr s =>
      if negb (truthy code) || negb (length (String_codeUnits pf s) =? 2)%nat
      then None
      else
        let base := 0x1f1e6 in
        let chars := String_codeUnits pf (String_toUpperCase pf s) in
        Some (map (fun char => base + char - 65) chars)
  | _ => None
  end.

Definition _normalize (pf : Platform) (payload : JsVal) : Completion Location :=
  let administrative := get_opt (get_opt payload "localityInfo") "administrative" in
  let adminEntries :=
    match administrative with JArr items => items | _ => [] end in
  let adminTop := js_or (nth 0 adminEntries JUndefined) (JObj []) in
  names ← mapC (fun entry => get pf entry "name") adminEntries;
  let subdivisions := take 3 (filter (fun v => truthy v = true) names) in
  _ ← get pf payload "city";
  Normal {|
    city := js_or (prop payload "city")
              (js_or (prop payload "locality")
                 (js_or (prop adminTop "name") (prop payload "principalSubdivision")));
    locality := prop payload "locality";
    region := js_or (prop payload "principalSubdivision") (prop adminTop "name");
    continent := prop payload "continent";
    country := prop payload "countryName";
    countryCode := prop payload "countryCode";
    countryFlag := _countryFlag pf (prop payload "countryCode");
    plusCode := prop payload "plusCode";
    postcode := prop payload "postcode";
    timezone := js_or (get_opt (prop payload "timezone") "ianaTimezone")
                  (get_opt (prop payload "timezone") "name");
    confidence := prop payload "confidence";
    subdivisions := subdivisions;
    latitude := prop payload "latitude";
    longitude := prop payload "longitude";
  |}.

Definition build_url (pf : Platform) (ep : Endpoint)
    (latitude longitude apiKey language : JsVal) : Completion string :=
  let language := match language with JUndefined => JStr "de" | v => v end in
  let params :=
    [("latitude", Number_then_toFixed pf latitude 6);
     ("longitude", Number_then_toFixed pf longitude 6);
     ("localityLanguage", to_string pf (js_or language (JStr "en")))] in
  params ←
    (if truthy apiKey then key ← trim pf apiKey; Normal (params ++ [("key", key)])
     else Normal params);
  Normal (String.append (BASE ep)
            (String.append "?" (URLSearchParams_toString pf params))).

Definition fetchLocationDetails_body (env : Env) (ep : Endpoint)
    (latitude longitude apiKey language : JsVal) : Eff (Outcome LocationResult) :=
  let pf := platform env in
  let coordCheck := validateCoordinates env latitude longitude in
  if negb (valid coordCheck) then throw (Error_of (error coordCheck))
  else
    url ← lift (build_url pf ep latitude longitude apiKey language);
    let start := Date_now env 0 in
    emit (EvFetch (GET url (TIMEOUT ep))) ;;
    match safeApiFetch env 0 with
    | NetError e => throw e
    | BodyError e => throw e
    | Body payload =>
        if negb (truthy payload) || negb (is_object payload)
           || is_undefined (prop payload "latitude")
        then throw (Error "Ungültige BigDataCloud Antwort")
        else
          normalized ← lift (_normalize pf payload);
          mret (Success {|
            data := normalized;
            duration := Date_now env 1 - start;
            l_source := source;
          |})
    end.

Definition fetchLocationDetails (env : Env) (ep : Endpoint)
    (latitude longitude apiKey language : JsVal) : Eff (Outcome LocationResult) :=
  try_catch_eff (fetchLocationDetails_body env ep latitude longitude apiKey language)
    (fun error => failure_of (read_message_or_string (platform env) error) source).

End BigDataCloud.

(** ** Service worker ([src/service-worker.js]) *)

Module ServiceWorker.
Import JS Regex.

Definition CACHE_NAME : string := "calchas-v1".

Record Response : Type := mkResponse {
  status : Z;
  statusText : string;
  type : string;
  body : string;
}.

(** [response.ok] *)
Definition ok (r : Response) : bool := (200 <=? status r) && (status r <=? 299).

(** The settlement of the browser's [fetch(...)], which rejects with an
    error object (a TypeError or a DOMException). *)
Inductive NetResult : Type :=
  | Responded (r : Response)
  | Rejected (e : JsError).

(** The intercepted request: [request.url] and [request.method]. *)
Record FetchRequest : Type := mkFetchRequest { r_url : string; r_method : string }.

(** [CacheStorage]: the named caches in the order of their creation, each
    a map from the URL of a GET request to the stored response (responses
    carry no [Vary] header here). *)
Abbreviation Cache := (gmap string Response).
Abbreviation CacheStorage := (list (string * Cache)).

Fixpoint match_url (caches : CacheStorage) (url : string) : option Response :=
  match caches with
  | [] => None
  | (_, cache) :: rest =>
      match cache !! url with
      | Some r => Some r
      | None => match_url rest url
      end
  end.

(** [caches.match(request)]: the entry of the first cache that has one
    for the request; only a GET request matches. *)
Definition caches_match (caches : CacheStorage) (request : FetchRequest)
  : option Response :=
  if String.eqb (r_method request) "GET" then match_url caches (r_url request)
  else None.

(** [caches.open(name)] followed by [cache.put(url, r)] *)
Fixpoint caches_put (caches : CacheStorage) (name url : string) (r : Response)
  : CacheStorage :=
  match caches with
  | [] => [(name, {[url := r]})]
  | (n, cache) :: rest =>
      if String.eqb n name then (n, <[url := r]> cache) :: rest
      else (n, cache) :: caches_put rest name url r
  end.

(** [new URL(s)] *)
Record URL : Type := mkURL { protocol : string; origin : string; href : string }.

Record Worker : Type := mkWorker {
  (** [new URL(s)]; [None] when the constructor throws *)
  URL_new : string -> option URL;
  (** [self.location.origin] *)
  location_origin : string;
  (** whether [cache.put(url, r)] succeeds *)
  cache_put_ok : string -> Response -> bool;
  (** the reason [caches.match(request)] is rejected with, when the cache
      storage fails; [None] when it resolves *)
  caches_match_rejects : FetchRequest -> option JsError;
}.

(** The requests the handler leaves to the browser. *)
Definition is_api_request (url : string) : bool :=
  includes url "api.open-meteo.com"
  || includes url "api.brightsky.dev"
  || includes url "nominatim.openstreetmap.org"
  || includes url "geocoding-api.open-meteo.com".

Definition offline_response : Response :=
  mkResponse 503 "Service Unavailable" "default"
    "Offline - Diese Seite ist im Offline-Modus nicht verfügbar".

(** The [then] callback: store a good same-origin response, return it. *)
Definition on_response (w : Worker) (caches : CacheStorage) (url : string)
    (response : Response) : CacheStorage :=
  if (status response =? 200) && negb (String.eqb (type response) "error") then
    match URL_new w url with
    | Some reqUrl =>
        if (String.eqb (protocol reqUrl) "http:" || String.eqb (protocol reqUrl) "https:")
           && String.eqb (origin reqUrl) (location_origin w)
           && cache_put_ok w (href reqUrl) response
        then caches_put caches CACHE_NAME (href reqUrl) response
        else caches
    | None => caches
    end
  else caches.

(** What the [fetch] listener does with an event: nothing (the browser
    handles the request), or [event.respondWith(promise)]. *)
Inductive Handling : Type :=
  | NotHandled
  | RespondWith (promise : Completion Response).

(** The promise [caches.match(request)]. *)
Definition match_request (w : Worker) (caches : CacheStorage)
    (request : FetchRequest) : Completion (option Response) :=
  match caches_match_rejects w request with
  | Some reason => Throw reason
  | None => Normal (caches_match caches request)
  end.

(** The [catch] callback:
    [caches.match(request).then((response) => response || new Response(...))],
    a chain without a rejection handler. *)
Definition on_network_failure (w : Worker) (caches : CacheStorage)
    (request : FetchRequest) : Completion Response :=
  cached ← match_request w caches request;
  Normal match cached with
         | Some response => response
         | None => offline_response
         end.

(** The [fetch] listener, for a request whose network fetch settles as
    [net]; the value is the handling and the caches afterwards. *)
Definition on_fetch (w : Worker) (caches : CacheStorage) (request : FetchRequest)
    (net : NetResult) : Handling * CacheStorage :=
  if is_api_request (r_url request) then (NotHandled, caches)
  else
    match net with
    | Responded response =>
        (RespondWith (Normal response),
         on_response w caches (r_url request) response)
    | Rejected error =>
        (RespondWith (on_network_failure w caches request), caches)
    end.

(** *** The store of failed requests and its drain *)

(** An object of the store [failedRequests] (key path [id]): the worker
    reads [id], [url] and [options]; [others] are its remaining
    properties. *)
Record QueuedRequest : Type := mkQueued {
  id : Z;
  url : string;
  options : JsVal;
  others : list (string * JsVal);
}.

Abbreviation FailedRequests := (gmap Z QueuedRequest).

Definition key_le (a b : Z * QueuedRequest) : Prop := a.1 ≤ b.1.
#[global] Instance key_le_dec a b : Decision (key_le a b) := Z_le_dec a.1 b.1.

(** [store.getAll()]: the objects in ascending order of their keys *)
Definition getAll (store : FailedRequests) : list QueuedRequest :=
  (merge_sort key_le (map_to_list store)).*2.

(** [store.delete(id)] *)
Definition store_delete (key : Z) (store : FailedRequests) : FailedRequests :=
  delete key store.

(** The environment of one drain. *)
Record DrainEnv : Type := mkDrainEnv {
  (** whether [openIndexedDB()] and [getFailedRequests(db)] resolve *)
  open_ok : bool;
  getAll_ok : bool;
  (** the settlement of [fetch(req.url, req.options)] *)
  replay : QueuedRequest -> NetResult;
  (** whether [removeFailedRequest(db, id)] resolves *)
  delete_ok : Z -> bool;
}.

(** One iteration of the [for] loop: the store afterwards. *)
Definition retry_one (env : DrainEnv) (store : FailedRequests) (req : QueuedRequest)
  : FailedRequests :=
  match replay env req with
  | Responded response =>
      if ok response && delete_ok env (id req) then store_delete (id req) store
      else store
  | Rejected err => store
  end.

(** The [for] loop over the snapshot [failedRequests]: the requests
    replayed, in order, and the store afterwards. *)
Fixpoint retry_all (env : DrainEnv) (store : FailedRequests)
    (failedRequests : list QueuedRequest) : list QueuedRequest * FailedRequests :=
  match failedRequests with
  | [] => ([], store)
  | req :: rest =>
      let '(calls, store') := retry_all env (retry_one env store req) rest in
      (req :: calls, store')
  end.

(** [retryFailedRequests()]: the network calls made and the store
    afterwards; the promise it returns always resolves. *)
Definition retryFailedRequests (env : DrainEnv) (store : FailedRequests)
  : list QueuedRequest * FailedRequests :=
  if open_ok env && getAll_ok env then retry_all env store (getAll store)
  else ([], store).

(** *** Drains as interleaved tasks

    A drain is suspended at each [await]; the events of the worker are
    the dispatch of a [sync] event and the settlement of the promise a
    suspended drain waits for. *)

Inductive Task : Type :=
  | AwaitOpen
  | AwaitGetAll
  | AwaitFetch (req : QueuedRequest) (rest : list QueuedRequest)
  | AwaitRemove (req : QueuedRequest) (rest : list QueuedRequest)
  | Finished.

Record State : Type := mkState {
  store : FailedRequests;
  tasks : list Task;
  calls : list QueuedRequest;     (* the network calls so far *)
}.

Inductive WorkerEvent : Type :=
  | Sync (tag : string)
  | DbDone (task : nat) (success : bool)
  | FetchDone (task : nat) (net : NetResult).

(** The next iteration of the [for] loop of a drain. *)
Definition next_request (rest : list QueuedRequest) (calls : list QueuedRequest)
  : Task * list QueuedRequest :=
  match rest with
  | [] => (Finished, calls)
  | req :: rest' => (AwaitFetch req rest', calls ++ [req])
  end.

Definition set_task (i : nat) (t : Task) (st : State) (store' : FailedRequests)
    (calls' : list QueuedRequest) : State :=
  mkState store' (<[i := t]> (tasks st)) calls'.

Definition step (ev : WorkerEvent) (st : State) : State :=
  match ev with
  | Sync tag =>
      if String.eqb tag "retry-failed-requests"
      then (* [event.waitUntil(retryFailedRequests())] *)
        mkState (store st) (tasks st ++ [AwaitOpen]) (calls st)
      else st
  | DbDone i success =>
      match tasks st !! i with
      | Some AwaitOpen =>
          set_task i (if success then AwaitGetAll else Finished) st (store st) (calls st)
      | Some AwaitGetAll =>
          if success then
            let '(t, calls') := next_request (getAll (store st)) (calls st) in
            set_task i t st (store st) calls'
          else set_task i Finished st (store st) (calls st)
      | Some (AwaitRemove req rest) =>
          let store' := if success then store_delete (id req) (store st) else store st in
          let '(t, calls') := next_request rest (calls st) in
          set_task i t st store' calls'
      | _ => st
      end
  | FetchDone i net =>
      match tasks st !! i with
      | Some (AwaitFetch req rest) =>
          match net with
          | Responded response =>
              if ok response then set_task i (AwaitRemove req rest) st (store st) (calls st)
              else
                let '(t, calls') := next_request rest (calls st) in
                set_task i t st (store st) calls'
          | Rejected err =>
              let '(t, calls') := next_request rest (calls st) in
              set_task i t st (store st) calls'
          end
      | _ => st
      end
  end.

Definition run (evs : list WorkerEvent) (st : State) : State :=
  foldl (fun st ev => step ev st) st evs.

Definition running (t : Task) : bool :=
  match t with Finished => false | _ => true end.

(** The drains in progress, and those with a fetch of entry [key] in flight. *)
Definition drains_in_progress (st : State) : nat :=
  length (filter (fun t => running t = true) (tasks st)).

Definition fetching (key : Z) (t : Task) : bool :=
  match t with AwaitFetch req _ => Z.eqb (id req) key | _ => false end.

Definition in_flight (key : Z) (st : State) : nat :=
  length (filter (fun t => fetching key t = true) (tasks st)).

(** The settlement of what drain [i] waits for, in the environment [env]
    of a drain. *)
Definition settle (env : DrainEnv) (i : nat) (t : Task) : option WorkerEvent :=
  match t with
  | AwaitOpen => Some (DbDone i (open_ok env))
  | AwaitGetAll => Some (DbDone i (getAll_ok env))
  | AwaitFetch req _ => Some (FetchDone i (replay env req))
  | AwaitRemove req _ => Some (DbDone i (delete_ok env (id req)))
  | Finished => None
  end.

(** Drain [0] running on its own, for at most [fuel] settlements. *)
Fixpoint drive (env : DrainEnv) (fuel : nat) (st : State) : State :=
  match fuel with
  | O => st
  | S fuel' =>
      match tasks st !! 0%nat with
      | Some t =>
          match settle env 0 t with
          | Some ev => drive env fuel' (step ev st)
          | None => st
          end
      | None => st
      end
  end.

Definition retry_tag : string := "retry-failed-requests".

(** The state of a lone drain that goes on to the requests [rest]. *)
Definition proceed (store : FailedRequests) (rest log : list QueuedRequest) : State :=
  mkState store [(next_request rest log).1] (next_request rest log).2.

End ServiceWorker.

(** ** A sample host

    A concrete [Platform] and environment on which the clients can be
    run: plain decimal numbers, ASCII case mapping and white space, and
    [Date.parse] on the date-only form [YYYY-MM-DD] (midnight UTC). *)

Module Sample.
Import JS Regex Effects.

Fixpoint digits_val (s : string) (acc : Z) : option Z :=
  match s with
  | EmptyString => Some acc
  | String c rest =>
      if is_digit c then digits_val rest (10 * acc + Z.of_nat (nat_of_ascii c) - 48)
      else None
  end.

Definition parse_int (s : string) : option Q :=
  match s with
  | EmptyString => Some 0%Q
  | String "-" (String c rest) => z ← digits_val (String c rest) 0; Some (inject_Z (- z))
  | _ => z ← digits_val s 0; Some (inject_Z z)
  end.

Fixpoint zeros (n : nat) : string :=
  match n with O => EmptyString | S n' => String "0" (zeros n') end.

Definition toFixed_dec (q : Q) (digits : nat) : string :=
  let p := 10 ^ Z.of_nat digits in
  let den := Zpos (Qden q) in
  let scaled := (2 * Z.abs (Qnum q) * p + den) / (2 * den) in
  let int := pretty (scaled / p) in
  let frac := pretty (scaled mod p) in
  let sign := if (Qnum q <? 0) && (0 <? scaled) then "-" else EmptyString in
  String.append sign
    (if (digits =? 0)%nat then int
     else String.append int
            (String.append "."
               (String.append (zeros (digits - String.length frac)) frac))).

Definition show_number (q : Q) : string :=
  if (Zpos (Qden q) =? 1) then pretty (Qnum q) else toFixed_dec q 6.

Definition is_leap (y : Z) : bool :=
  ((y mod 4 =? 0) && negb (y mod 100 =? 0)) || (y mod 400 =? 0).

Definition days_in_month (y m : Z) : Z :=
  if m =? 2 then (if is_leap y then 29 else 28)
  else if (m =? 4) || (m =? 6) || (m =? 9) || (m =? 11) then 30
  else 31.

(** Days from 1970-01-01 to the given civil date. *)
Definition days_from_civil (y m d : Z) : Z :=
  let y' := if m <=? 2 then y - 1 else y in
  let era := y' / 400 in
  let yoe := y' - era * 400 in
  let doy := (153 * (m + (if 2 <? m then -3 else 9)) + 2) / 5 + d - 1 in
  let doe := yoe * 365 + yoe / 4 - yoe / 100 + doy in
  era * 146097 + doe - 719468.

Definition parse_date (s : string) : option Z :=
  if test_whole Meteostat.dateRegex s then
    y ← digits_val (substring 0 4 s) 0;
    m ← digits_val (substring 5 2 s) 0;
    d ← digits_val (substring 8 2 s) 0;
    if (1 <=? m) && (m <=? 12) && (1 <=? d) && (d <=? days_in_month y m)
    then Some (days_from_civil y m d * Meteostat.msPerDay)
    else None
  else None.

Fixpoint drop_space (s : string) : string :=
  match s with
  | String c rest =>
      let n := nat_of_ascii c in
      if ((n =? 32) || ((9 <=? n) && (n <=? 13)))%nat then drop_space rest else s
  | EmptyString => EmptyString
  end.

Definition trim_ascii (s : string) : string :=
  String.rev (drop_space (String.rev (drop_space s))).

Definition lower_ascii (c : ascii) : ascii :=
  let n := nat_of_ascii c in
  if ((65 <=? n) && (n <=? 90))%nat then ascii_of_nat (n + 32) else c.
Definition upper_ascii (c : ascii) : ascii :=
  let n := nat_of_ascii c in
  if ((97 <=? n) && (n <=? 122))%nat then ascii_of_nat (n - 32) else c.

Fixpoint string_map (f : ascii -> ascii) (s : string) : string :=
  match s with
  | EmptyString => EmptyString
  | String c rest => String (f c) (string_map f rest)
  end.

Fixpoint bytes (s : string) : list Z :=
  match s with
  | EmptyString => []
  | String c rest => Z.of_nat (nat_of_ascii c) :: bytes rest
  end.

(** The serialisation of [application/x-www-form-urlencoded]: letters,
    digits and [*-._] stay, a space becomes [+], any other byte is
    percent-encoded. *)
Definition form_safe (c : ascii) : bool :=
  let n := nat_of_ascii c in
  (((48 <=? n) && (n <=? 57)) || ((65 <=? n) && (n <=? 90))
   || ((97 <=? n) && (n <=? 122))
   || (n =? 42) || (n =? 45) || (n =? 46) || (n =? 95))%nat.

Definition hex_digit (n : nat) : ascii :=
  ascii_of_nat (if (n <? 10)%nat then 48 + n else 55 + n).

Fixpoint form_encode (s : string) : string :=
  match s with
  | EmptyString => EmptyString
  | String c rest =>
      let n := nat_of_ascii c in
      if form_safe c then String c (form_encode rest)
      else if (n =? 32)%nat then String "+" (form_encode rest)
      else String "%" (String (hex_digit (n / 16))
                         (String (hex_digit (n mod 16)) (form_encode rest)))
  end.

Fixpoint query (params : list (string * string)) : string :=
  match params with
  | [] => EmptyString
  | [(k, v)] => String.append (form_encode k) (String.append "=" (form_encode v))
  | (k, v) :: rest =>
      String.append (form_encode k)
        (String.append "=" (String.append (form_encode v)
                              (String.append "&" (query rest))))
  end.

Definition platform : Platform := {|
  Number_toString := show_number;
  StringToNumber := parse_int;
  Date_parse := parse_date;
  TypeError_message := fun _ k =>
    String.append "Cannot read properties (reading '" (String.append k "')");
  Number_toFixed := toFixed_dec;
  URLSearchParams_toString := query;
  JSON_stringify := fun _ => "{}";
  String_trim := trim_ascii;
  String_toLowerCase := string_map lower_ascii;
  String_toUpperCase := string_map upper_ascii;
  String_codeUnits := bytes;
|}.

(** Coordinates are accepted when both are numbers in range. *)
Definition coordinates_in_range (latitude longitude : JsVal) : Validation :=
  match latitude, longitude with
  | JNum lat, JNum lon =>
      if Qle_bool (-90) lat && Qle_bool lat 90
         && Qle_bool (-180) lon && Qle_bool lon 180
      then mkValidation true None
      else mkValidation false (Some "Koordinaten außerhalb des gültigen Bereichs")
  | _, _ => mkValidation false (Some "Ungültige Koordinaten")
  end.

(** An environment whose network replies are [replies] (and a network
    error once they are used up) and whose clock advances by one second
    per reading. *)
Definition env (replies : list Reply) : Env := {|
  Effects.platform := platform;
  validateCoordinates := coordinates_in_range;
  safeApiFetch := fun n => nth n replies (NetError (mkError "TypeError" "Failed to fetch"));
  Date_now := fun n => 1700000000000 + 1000 * Z.of_nat n;
|}.

Definition berlin_lat : JsVal := JNum (5252 # 100).
Definition berlin_lon : JsVal := JNum (13405 # 1000).

End Sample.


(** ** Notions the properties are stated with *)

Module Notions.
Import JS Regex Effects.

(** The status codes the comment of the retry loop names. *)
Definition clientStatusCodes : list string := ["401"; "403"; "404"; "429"].

(** An attempt fails with error [e]: the fetch rejects, the body cannot
    be parsed, or the payload is rejected by the validator. *)
Definition attempt_fails (validate : JsVal -> Validation) (r : Reply) (e : JsError)
  : Prop :=
  attempt_body validate r = Throw e.

(** An attempt fails with an error the loop retries. *)
Definition fails_transiently (validate : JsVal -> Validation)
    (isClientError : string -> bool) (r : Reply) : Prop :=
  ∃ e, attempt_fails validate r e ∧ isClientError (err_message e) = false.

(** The request a call sends, when its arguments pass the checks made
    before the network is used; [None] when they do not. *)
Definition VisualCrossing_request (env : Env) (latitude longitude apiKey units : JsVal)
  : option Request :=
  let pf := platform env in
  if is_nonblank_string pf apiKey && valid (validateCoordinates env latitude longitude)
  then
    match
      VisualCrossing.build_url pf latitude longitude apiKey
        (VisualCrossing.effective_units units)
    with
    | Normal url => Some (GET url VisualCrossing.timeout)
    | Throw _ => None
    end
  else None.

Definition Meteostat_request (env : Env)
    (latitude longitude startDate endDate apiKey : JsVal) : option Request :=
  let pf := platform env in
  if valid (validateCoordinates env latitude longitude)
     && valid (Meteostat._validateDates pf startDate endDate)
  then
    match Meteostat.build_request pf latitude longitude startDate endDate apiKey with
    | Normal req => Some req
    | Throw _ => None
    end
  else None.

(** The trace of three attempts separated by waits of 200 and 400 ms. *)
Definition three_attempts (req : Request) : list Event :=
  [EvFetch req; EvWait 200; EvFetch req; EvWait 400; EvFetch req].

(** A call resolves to the failure [{ error: msg, source: src }]. *)
Definition resolves_to_failure {S} (m : Eff (Outcome S)) (msg src : string) : Prop :=
  result m = Normal (Failed (mkFailure msg src)).

(** The error an attempt fails with when its payload is rejected by the
    validator. *)
Definition validation_error (validate : JsVal -> Validation) (data : JsVal) : JsError :=
  Error_of (error (validate data)).

(** What the outer [catch] of a client makes of its body. An outcome of
    the body is the outcome of the call. An [Error] thrown by the body
    comes back as the failure [{ error: describe e, source: src }]. When
    the body throws [null] or [undefined], the [catch] block throws in turn
    (it reads [error.message]), and the promise of the call is rejected
    with that TypeError. Every failure the call resolves to names the
    provider [src]. *)
Definition caught_unless_nullish {S} (pf : Platform) (body call : Eff (Outcome S))
    (src : string) (describe : JsError -> string) : Prop :=
  match result body with
  | Normal o => result call = Normal o
  | Throw (ErrorObject e) =>
      result call = Normal (Failed (mkFailure (describe e) src))
  | Throw ThrownNull => result call = Throw (no_property pf JNull "message")
  | Throw ThrownUndefined =>
      result call = Throw (no_property pf JUndefined "message")
  end
  ∧ ∀ f, result call = Normal (Failed f) → f_source f = src.

(** The promise of a call is rejected. *)
Definition rejected {A} (call : Eff A) : Prop := ∃ e, result call = Throw e.

(** Degrees Celsius of a temperature in degrees Fahrenheit, metres per
    second of a speed in miles per hour, millimetres of a depth in inches. *)
Definition celsius_of_fahrenheit (f : Q) : Q := ((f - 32) * 5 / 9)%Q.
Definition ms_of_mph (v : Q) : Q := (v * (44704 # 100000))%Q.
Definition mm_of_inch (d : Q) : Q := (d * (254 # 10))%Q.

(** Every object of the store is filed under its own [id] (the key path
    of the store). *)
Definition well_keyed (store : ServiceWorker.FailedRequests) : Prop :=
  ∀ k r, store !! k = Some r → ServiceWorker.id r = k.

(** The attempt counter of a queued request, if it has one. *)
Definition attempts_of (r : ServiceWorker.QueuedRequest) : JsVal :=
  assoc "attempts" (ServiceWorker.others r).

(** The drain can open the database and read the store. *)
Definition store_readable (env : ServiceWorker.DrainEnv) : Prop :=
  ServiceWorker.open_ok env = true ∧ ServiceWorker.getAll_ok env = true.

(** IndexedDB works for the whole drain. *)
Definition store_works (env : ServiceWorker.DrainEnv) : Prop :=
  ServiceWorker.open_ok env = true ∧ ServiceWorker.getAll_ok env = true ∧
  ∀ k, ServiceWorker.delete_ok env k = true.

(** The request is removed from the store by its iteration of the loop. *)
Definition removed (env : ServiceWorker.DrainEnv) (req : ServiceWorker.QueuedRequest)
  : bool :=
  match ServiceWorker.replay env req with
  | ServiceWorker.Responded response =>
      ServiceWorker.ok response && ServiceWorker.delete_ok env (ServiceWorker.id req)
  | ServiceWorker.Rejected _ => false
  end.

(** The replay of a request gets a response with [response.ok]. *)
Definition replay_succeeds (env : ServiceWorker.DrainEnv)
    (r : ServiceWorker.QueuedRequest) : Prop :=
  ∃ response, ServiceWorker.replay env r = ServiceWorker.Responded response ∧
              ServiceWorker.ok response = true.

(** The replay is rejected, or gets a response without [response.ok]. *)
Definition replay_fails (env : ServiceWorker.DrainEnv)
    (r : ServiceWorker.QueuedRequest) : Prop :=
  match ServiceWorker.replay env r with
  | ServiceWorker.Responded response => ServiceWorker.ok response = false
  | ServiceWorker.Rejected _ => True
  end.

(** A string of the form [YYYY-MM-DD]: four digits, two digits and two
    digits, separated by hyphens. *)
Definition date_shaped (s : string) : Prop :=
  ∃ y1 y2 y3 y4 m1 m2 d1 d2 : ascii,
    s = String y1 (String y2 (String y3 (String y4 (String "-"
          (String m1 (String m2 (String "-"
             (String d1 (String d2 EmptyString))))))))) ∧
    Forall (λ c, is_digit c = true) [y1; y2; y3; y4; m1; m2; d1; d2].

(** The start date lies after the end date; the span from the start date
    to the end date exceeds 365 days. *)
Definition starts_after (pf : Platform) (startDate endDate : string) : Prop :=
  ∃ start end_, Date_parse pf startDate = Some start ∧
                Date_parse pf endDate = Some end_ ∧ end_ < start.

Definition span_exceeds_365_days (pf : Platform) (startDate endDate : string) : Prop :=
  ∃ start end_, Date_parse pf startDate = Some start ∧
                Date_parse pf endDate = Some end_ ∧
                365 * Meteostat.msPerDay < end_ - start.

End Notions.

(** Requests and replies of sample calls. *)
Module SampleCalls.
Import JS Effects.

Definition weather_request : Request :=
  GET (String.append VisualCrossing.baseUrl
         "/52.5200,13.4050?unitGroup=metric&include=current%2Cdays%2Calerts&contentType=json&key=demo")
      5000.

(** The request of [fetchWeather] with [units = 'us'], and a reply of the
    provider in the units of that group: 68 °F, 10 mph, 1 inch. *)
Definition weather_request_us : Request :=
  GET (String.append VisualCrossing.baseUrl
         "/52.5200,13.4050?unitGroup=us&include=current%2Cdays%2Calerts&contentType=json&key=demo")
      5000.

Definition weather_payload_us : JsVal :=
  JObj
    [("resolvedUnit", JStr "us");
     ("currentConditions",
      JObj [("temp", JNum 68); ("humidity", JNum 50); ("windspeed", JNum 10);
            ("pressure", JNum 1013); ("conditions", JStr "Rain");
            ("datetimeEpoch", JNum 1700000000)]);
     ("days",
      JArr [JObj [("datetime", JStr "2023-11-14"); ("tempmin", JNum 50);
                  ("tempmax", JNum 68); ("temp", JNum 59); ("precip", JNum 1);
                  ("windspeed", JNum 10); ("conditions", JStr "Rain")]])].

(** A worker at [https://calchas.example], a cache that holds the style
    sheet, and two requests of the shell. *)
Definition worker : ServiceWorker.Worker := {|
  ServiceWorker.URL_new := fun s =>
    Some (ServiceWorker.mkURL "https:" "https://calchas.example" s);
  ServiceWorker.location_origin := "https://calchas.example";
  ServiceWorker.cache_put_ok := fun _ _ => true;
  ServiceWorker.caches_match_rejects := fun _ => None;
|}.

(** The same worker with a cache storage that cannot be read. *)
Definition storage_failure : JsError :=
  mkError "UnknownError" "Internal error opening backing store".

Definition worker_without_storage : ServiceWorker.Worker := {|
  ServiceWorker.URL_new := ServiceWorker.URL_new worker;
  ServiceWorker.location_origin := ServiceWorker.location_origin worker;
  ServiceWorker.cache_put_ok := fun _ _ => false;
  ServiceWorker.caches_match_rejects := fun _ => Some storage_failure;
|}.

Definition style_response : ServiceWorker.Response :=
  ServiceWorker.mkResponse 200 "OK" "basic" "body { margin: 0 }".

Definition shell_caches : ServiceWorker.CacheStorage :=
  [(ServiceWorker.CACHE_NAME,
    {[ "https://calchas.example/src/style.css" := style_response ]})].

Definition style_request : ServiceWorker.FetchRequest :=
  ServiceWorker.mkFetchRequest "https://calchas.example/src/style.css" "GET".

Definition page_request : ServiceWorker.FetchRequest :=
  ServiceWorker.mkFetchRequest "https://calchas.example/src/about.html" "GET".

Definition offline : JsError := mkError "TypeError" "Failed to fetch".

(** An error the provider reports in the payload: an invalid request. *)
Definition invalid_request_payload : JsVal :=
  JObj [("errorCode", JNum 400); ("message", JStr "Invalid request")].

(** A queued request that has been attempted no times yet, the store
    that holds it, and drains during which the network is down, or up. *)
Definition queued : ServiceWorker.QueuedRequest :=
  ServiceWorker.mkQueued 1 "https://calchas.example/api/favorites"
    (JObj [("method", JStr "POST")]) [("attempts", JNum 0)].

Definition queue : ServiceWorker.FailedRequests := {[ 1 := queued ]}.

Definition drain_offline : ServiceWorker.DrainEnv :=
  ServiceWorker.mkDrainEnv true true (fun _ => ServiceWorker.Rejected offline)
    (fun _ => true).

Definition drain_online : ServiceWorker.DrainEnv :=
  ServiceWorker.mkDrainEnv true true
    (fun _ => ServiceWorker.Responded (ServiceWorker.mkResponse 200 "OK" "basic" "{}"))
    (fun _ => true).

(** A drain during which the network is up and the delete requests of
    IndexedDB fail. *)
Definition drain_online_delete_fails : ServiceWorker.DrainEnv :=
  ServiceWorker.mkDrainEnv true true
    (fun _ => ServiceWorker.Responded (ServiceWorker.mkResponse 200 "OK" "basic" "{}"))
    (fun _ => false).

End SampleCalls.

(** ** Further notions *)

Module MoreNotions.
Import JS Regex Effects.

(** The trace of [k + 1] attempts: a fetch, then a wait and a fetch for
    each of the first [k] back-off delays. *)
Definition backoff : list Z := [200; 400].

Definition attempts_trace (req : Request) (k : nat) : list Event :=
  EvFetch req :: flat_map (fun ms => [EvWait ms; EvFetch req]) (take k backoff).

(** The weather codes [_mapWeatherCondition] produces. *)
Definition conditionCodes : list Z := [0; 2; 3; 45; 51; 63; 71; 95].

(** The objects [fetchWeather] and [fetchHistorical] return from what
    the formatter made of the payload. *)
Definition weather_result (env : Env) (formatted : VisualCrossing.Formatted)
  : VisualCrossing.Weather := {|
  VisualCrossing.current := VisualCrossing.fmt_current formatted;
  VisualCrossing.historical := VisualCrossing.fmt_historical formatted;
  VisualCrossing.forecast := VisualCrossing.fmt_forecast formatted;
  VisualCrossing.fromCache := false;
  VisualCrossing.duration := Date_now env 1 - Date_now env 0;
  VisualCrossing.w_source := VisualCrossing.source;
|}.

Definition historical_result (env : Env) (formatted : Meteostat.Formatted)
  : Meteostat.Historical := {|
  Meteostat.daily := Meteostat.fmt_daily formatted;
  Meteostat.fromCache := false;
  Meteostat.duration := Date_now env 1 - Date_now env 0;
  Meteostat.h_source := Meteostat.source;
|}.

(** What the promise of [fetchWeather] and [fetchHistorical] settles to
    once the retry loop has left them the payload [data]: the formatted
    data, or what the outer [catch] makes of the exception of the
    formatter. *)
Definition weather_of (env : Env) (data : JsVal)
  : Completion (Outcome VisualCrossing.Weather) :=
  match VisualCrossing._formatWeatherData (platform env) (Date_now env 2) data with
  | Throw error => failure (read_message (platform env) error) VisualCrossing.source
  | Normal formatted => Normal (Success (weather_result env formatted))
  end.

Definition historical_of (env : Env) (data : JsVal)
  : Completion (Outcome Meteostat.Historical) :=
  match Meteostat._formatHistoricalData (platform env) data with
  | Throw error => failure (read_message (platform env) error) Meteostat.source
  | Normal formatted => Normal (Success (historical_result env formatted))
  end.

(** The codes [_mapPrecipitationToCode] produces. *)
Definition precipitationCodes : list Z := [0; 61; 63; 65].

(** The code points of the regional indicator symbols A to Z. *)
Definition regional_indicator (c : Z) : Prop := 0x1F1E6 ≤ c ≤ 0x1F1FF.

(** The code units of the capital letters A to Z. *)
Definition capital_letter (c : Z) : Prop := 65 ≤ c ≤ 90.

(** [apiKey] is not a string with something other than white space in it. *)
Definition key_missing (pf : Platform) (apiKey : JsVal) : Prop :=
  match apiKey with
  | JStr s => String_trim pf s = EmptyString
  | _ => True
  end.

End MoreNotions.

(** Further sample calls. *)
Module MoreSamples.
Import JS Effects.

Definition aborted : Reply := NetError (mkError "AbortError" "The operation was aborted").

(** A reply of Meteostat with two rows; the second has no wind and no
    precipitation reading. *)
Definition historical_payload : JsVal :=
  JObj
    [("data",
      JArr [JObj [("date", JStr "2024-01-01"); ("tavg", JNum 3); ("tmin", JNum 1);
                  ("tmax", JNum 5); ("prcp", JNum (12 # 10)); ("wspd", JNum 18);
                  ("wdir", JNum 270); ("pres", JNum 1013)];
            JObj [("date", JStr "2024-01-02"); ("tavg", JNum 2); ("tmin", JNull);
                  ("tmax", JNum 4); ("prcp", JNull); ("wspd", JNull);
                  ("wdir", JNull); ("pres", JNull)]])].

Definition historical_request : Request :=
  mkRequest Meteostat.baseUrl (Some "POST")
    [("Content-Type", "application/json"); ("User-Agent", "Calchas/1.0")]
    (Some "{}") 5000.

(** A payload of Visual Crossing with nine days, from 14 to 22 November
    2023. *)
Definition sample_day (datetime : string) (tempmax : Q) : JsVal :=
  JObj [("datetime", JStr datetime); ("tempmin", JNum 2); ("tempmax", JNum tempmax);
        ("temp", JNum 5); ("precip", JNum 0); ("windspeed", JNum 12);
        ("conditions", JStr "Partially cloudy")].

Definition nine_days_payload : JsVal :=
  JObj
    [("resolvedUnit", JStr "metric");
     ("currentConditions",
      JObj [("temp", JNum 7); ("humidity", JNum 80); ("windspeed", JNum 12);
            ("pressure", JNum 1013); ("conditions", JStr "Overcast");
            ("datetimeEpoch", JNum 1700000000)]);
     ("days",
      JArr [sample_day "2023-11-14" 8; sample_day "2023-11-15" 9;
            sample_day "2023-11-16" 10; sample_day "2023-11-17" 11;
            sample_day "2023-11-18" 12; sample_day "2023-11-19" 13;
            sample_day "2023-11-20" 14; sample_day "2023-11-21" 15;
            sample_day "2023-11-22" 16])].

Definition sun_endpoint : Endpoint :=
  mkEndpoint "https://api.sunrise-sunset.org/json" 5000.

Definition sun_payload : JsVal :=
  JObj [("status", JStr "OK");
        ("results",
         JObj [("sunrise", JStr "2024-01-01T07:17:00+00:00");
               ("sunset", JStr "2024-01-01T15:03:00+00:00");
               ("day_length", JNum 27960)])].

Definition sun_request : Request :=
  GET "https://api.sunrise-sunset.org/json?lat=52.5200&lng=13.4050&formatted=0" 5000.

Definition location_payload : JsVal :=
  JObj [("latitude", JNum (5252 # 100)); ("longitude", JNum (13405 # 1000));
        ("city", JStr "Berlin"); ("countryCode", JStr "de");
        ("localityInfo",
         JObj [("administrative",
                JArr [JObj [("name", JStr "Deutschland")];
                      JObj [("name", JStr EmptyString)];
                      JObj [("name", JStr "Berlin")];
                      JObj [("name", JStr "Mitte")];
                      JObj [("name", JStr "Moabit")]])])].

End MoreSamples.

(** ** Display form of the historical data ([MeteostatAPI.formatForDisplay]) *)

Module MeteostatDisplay.
Import JS Effects.

Record DisplayDay : Type := mkDisplayDay {
  date : JsVal;
  temp_min : string;
  temp_max : string;
  temp_avg : string;
  precipitation : string;
  wind_speed : string;
  pressure : string;
  code : Z;
}.

Record Display : Type := mkDisplay { daily : list DisplayDay }.

(** [v !== null ? `${v.toFixed(digits)}suffix` : "N/A"] *)
Definition show (pf : Platform) (v : JsVal) (digits : nat) (suffix : string)
  : Completion string :=
  if not_null v then s ← toFixed pf v digits; Normal (String.append s suffix)
  else Normal "N/A".

(** The callback of [data.daily.map]. *)
Definition display_day (pf : Platform) (d : Meteostat.Day) : Completion DisplayDay :=
  temp_min ← show pf (Meteostat.temp_min d) 1 "°";
  temp_max ← show pf (Meteostat.temp_max d) 1 "°";
  temp_avg ← show pf (Meteostat.temp_avg d) 1 "°";
  precipitation ← show pf (Meteostat.precipitation d) 1 " mm";
  wind_speed ← show pf (Meteostat.wind_speed d) 1 " m/s";
  pressure ← show pf (Meteostat.pressure d) 0 " hPa";
  Normal {|
    date := Meteostat.date d;
    temp_min := temp_min;
    temp_max := temp_max;
    temp_avg := temp_avg;
    precipitation := precipitation;
    wind_speed := wind_speed;
    pressure := pressure;
    code := Meteostat.weather_code d;
  |}.

(** [formatForDisplay(data)] for [data] being [null] ([None]) or what
    [fetchHistorical] resolved to; the value [None] is [null]. A failure
    whose message is the empty string is not recognised by [data.error],
    and the call goes on to [data.daily.map]. *)
Definition formatForDisplay (pf : Platform)
    (data : option (Outcome Meteostat.Historical)) : Completion (option Display) :=
  match data with
  | None => Normal None
  | Some (Failed f) =>
      if truthy (JStr (f_error f)) then Normal None
      else Throw (mkError "TypeError" (TypeError_message pf JUndefined "map"))
  | Some (Success h) =>
      days ← mapC (display_day pf) (Meteostat.daily h);
      Normal (Some (mkDisplay days))
  end.

(** A row of the provider whose readings are numbers or [null]. *)
Definition number_or_null (v : JsVal) : bool :=
  match v with JNum _ | JNull => true | _ => false end.

Definition readings : list string := ["tmin"; "tmax"; "tavg"; "prcp"; "wspd"; "pres"].

Definition well_formed_row (row : JsVal) : bool :=
  match row with
  | JObj fields => forallb (fun k => number_or_null (assoc k fields)) readings
  | _ => false
  end.

(** What [show] yields for a number and for [null]. *)
Definition rendered (pf : Platform) (v : JsVal) (digits : nat) (suffix : string)
  : string :=
  match v with
  | JNum q => String.append (Number_toFixed pf q digits) suffix
  | _ => "N/A"
  end.

End MeteostatDisplay.

(** ** Further parts of the service worker ([src/service-worker.js]) *)

Module Lifecycle.
Import JS Regex ServiceWorker.

(** [caches.keys()] and [caches.delete(name)] *)
Definition caches_keys (caches : CacheStorage) : list string := caches.*1.

Definition caches_delete (name : string) (caches : CacheStorage) : CacheStorage :=
  List.filter (fun entry => negb (String.eqb entry.1 name)) caches.

(** The cache [caches.open(name)] resolves to (empty when it is new). *)
Fixpoint cache_named (caches : CacheStorage) (name : string) : Cache :=
  match caches with
  | [] => ∅
  | (n, cache) :: rest =>
      if String.eqb n name then cache else cache_named rest name
  end.

(** The [activate] listener: every cache whose name is not [CACHE_NAME]
    is deleted. *)
Definition on_activate (caches : CacheStorage) : CacheStorage :=
  foldl (fun remaining cacheName =>
           if negb (String.eqb cacheName CACHE_NAME)
           then caches_delete cacheName remaining
           else remaining)
        caches (caches_keys caches).

(** The caches that are left once the caches [names] have been gone
    through. *)
Definition kept (names : list string) (entry : string * Cache) : bool :=
  String.eqb entry.1 CACHE_NAME || negb (existsb (String.eqb entry.1) names).

(** The [then] callback of [staleWhileRevalidate]: a good same-origin
    response is stored under the request; the caches afterwards. *)
Definition refresh (w : Worker) (caches : CacheStorage) (request : FetchRequest)
    (response : Response) : CacheStorage :=
  if negb (status response =? 200) || String.eqb (type response) "error" then caches
  else
    match URL_new w (r_url request) with
    | Some reqUrl =>
        if (String.eqb (protocol reqUrl) "http:" || String.eqb (protocol reqUrl) "https:")
           && String.eqb (origin reqUrl) (location_origin w)
           && cache_put_ok w (r_url request) response
        then caches_put caches CACHE_NAME (r_url request) response
        else caches
    | None => caches
    end.

(** [staleWhileRevalidate(request)], the fetch it starts settling as
    [net]: the promise it returns and the caches afterwards. When
    [await caches.match(request)] throws, no fetch is started. *)
Definition staleWhileRevalidate (w : Worker) (caches : CacheStorage)
    (request : FetchRequest) (net : NetResult) : Completion Response * CacheStorage :=
  match match_request w caches request with
  | Throw reason => (Throw reason, caches)
  | Normal cached =>
      let fetchPromise :=
        match net with
        | Responded response => (Normal response, refresh w caches request response)
        | Rejected error => (Throw error, caches)
        end in
      (match cached with
       | Some response => Normal response
       | None => fetchPromise.1
       end,
       fetchPromise.2)
  end.

(** *** The periodic sync of the favourites *)

Record SyncEnv : Type := mkSyncEnv {
  s_platform : Platform;
  (** [JSON.parse] *)
  JSON_parse : string -> Completion JsVal;
  (** the strings that iterating over a string yields *)
  String_iterate : string -> list string;
  (** the absolute URL of a path of the worker's origin *)
  absolute : string -> string;
}.

(** [getFromStorage(key)]: the text stored in the current cache under
    [/data/key], or [null]. *)
Definition getFromStorage (env : SyncEnv) (caches : CacheStorage) (key : string)
  : option string :=
  body <$> (cache_named caches CACHE_NAME !! absolute env (String.append "/data/" key)).

(** The values [for (const fav of favorites)] goes through. *)
Definition iterate (env : SyncEnv) (v : JsVal) : Completion (list JsVal) :=
  match v with
  | JArr items => Normal items
  | JStr s => Normal (JStr <$> String_iterate env s)
  | _ => Throw (mkError "TypeError"
                  (TypeError_message (s_platform env) v "Symbol.iterator"))
  end.

Definition favorite_url (pf : Platform) (lat lng : JsVal) : string :=
  String.append "https://api.open-meteo.com/v1/forecast?latitude="
    (String.append (to_string pf lat)
       (String.append "&longitude="
          (String.append (to_string pf lng)
             "&hourly=temperature_2m,precipitation,weathercode&daily=temperature_2m_max,temperature_2m_min,weathercode&timezone=auto"))).

(** The body of the loop for one favourite: the URL it fetches, if any
    (the settlement of that fetch is ignored). The [catch] block reads
    [fav.city], and so throws itself when [fav] is [null]. *)
Definition sync_one (env : SyncEnv) (fav : JsVal) : Completion (option string) :=
  let pf := s_platform env in
  try_catch
    (coords ← get pf fav "coords";
     let lat := get_opt coords "latitude" in
     let lng := get_opt coords "longitude" in
     if truthy lat && truthy lng then Normal (Some (favorite_url pf lat lng))
     else Normal None)
    (fun err => _ ← get pf fav "city"; Normal None).

(** The [for] loop: the URLs fetched, in order; an exception that leaves
    the body ends the loop (the outer [catch] only logs it). *)
Fixpoint sync_all (env : SyncEnv) (favorites : list JsVal) : list string :=
  match favorites with
  | [] => []
  | fav :: rest =>
      match sync_one env fav with
      | Normal (Some url) => url :: sync_all env rest
      | Normal None => sync_all env rest
      | Throw _ => []
      end
  end.

(** [syncFavoritesData()]: the URLs it fetches; its promise always
    resolves. *)
Definition syncFavoritesData (env : SyncEnv) (caches : CacheStorage) : list string :=
  let storage := getFromStorage env caches "wetter_favorites" in
  let favorites :=
    match storage with
    | Some text =>
        if String.eqb text EmptyString then Normal (JArr []) else JSON_parse env text
    | None => Normal (JArr [])
    end in
  match favorites ≫= iterate env with
  | Normal items => sync_all env items
  | Throw _ => []
  end.

(** A worker whose caches hold the shell of two versions, and a list of
    favourites in the current cache. *)
Definition old_style : Response := mkResponse 200 "OK" "basic" "body { margin: 8px }".

Definition two_versions : CacheStorage :=
  [("calchas-v0", {[ "https://calchas.example/src/style.css" := old_style ]});
   (CACHE_NAME, {[ "https://calchas.example/src/app.js" :=
                     mkResponse 200 "OK" "basic" "init()" ]})].

Definition berlin : JsVal :=
  JObj [("city", JStr "Berlin");
        ("coords", JObj [("latitude", JNum 52); ("longitude", JNum 13)])].
Definition quito : JsVal :=
  JObj [("city", JStr "Quito");
        ("coords", JObj [("latitude", JNum 0); ("longitude", JNum (-78))])].
Definition paris : JsVal :=
  JObj [("city", JStr "Paris");
        ("coords", JObj [("latitude", JNum 49); ("longitude", JNum 2)])].

(** Two stored texts, named here by what [JSON.parse] makes of them. *)
Definition favorites_text : string := "[berlin, null, quito, paris]".

Definition sync_env : SyncEnv := {|
  s_platform := Sample.platform;
  JSON_parse := fun text =>
    if String.eqb text favorites_text then Normal (JArr [berlin; JNull; quito; paris])
    else if String.eqb text "[quito, paris]" then Normal (JArr [quito; paris])
    else Throw (mkError "SyntaxError" "Unexpected token");
  String_iterate := fun s => [];
  absolute := fun path => String.append "https://calchas.example" path;
|}.

Definition favorites_cache (text : string) : CacheStorage :=
  [(CACHE_NAME,
    {[ "https://calchas.example/data/wetter_favorites" :=
         mkResponse 200 "OK" "basic" text ]})].

End Lifecycle.

(** ** Notions for the interleaved drains *)

Module Interleaving.
Import JS ServiceWorker.

(** The request a suspended drain is busy with is among the network
    calls made. *)
Definition replayed (t : Task) (log : list QueuedRequest) : Prop :=
  match t with
  | AwaitFetch req _ | AwaitRemove req _ => req ∈ log
  | _ => True
  end.

Definition all_replayed (st : State) : Prop :=
  ∀ j t, tasks st !! j = Some t → replayed t (calls st).

(** Every entry of [store0] that is missing in [st] has been replayed. *)
Definition missing_replayed (store0 : FailedRequests) (st : State) : Prop :=
  ∀ k, is_Some (store0 !! k) → store st !! k = None →
       ∃ req, req ∈ calls st ∧ id req = k.

(** One drain that succeeds, from the [sync] event to the deletion. *)
Definition successful_drain : list WorkerEvent :=
  [Sync retry_tag; DbDone 0 true; DbDone 0 true;
   FetchDone 0 (Responded (mkResponse 200 "OK" "basic" "{}")); DbDone 0 true].

End Interleaving.

(** * Properties *)

(** ** Matching *)

Section RegexFacts.
Import Regex.

(** A literal followed by anything matches, and the continuation sees what
    follows the literal. *)
Lemma rmatch_RLit (p s : string) (k : string → bool) :
  rmatch (RLit p) (String.append p s) k = k s.
Proof.
  induction p as [| c p IH]; simpl; [reflexivity |].
  rewrite Ascii.eqb_refl. apply IH.
Qed.

Lemma test_here (r : regex) (s : string) :
  rmatch r s (λ _, true) = true → test r s = true.
Proof. intros H. destruct s; simpl; rewrite H; reflexivity. Qed.

Lemma test_skip (r : regex) (pre s : string) :
  test r s = true → test r (String.append pre s) = true.
Proof.
  intros H. induction pre as [| c pre IH]; simpl; [exact H |].
  rewrite IH. apply orb_true_r.
Qed.

Lemma rmatch_RAlts (r : regex) (r0 : regex) (rs : list regex) (s : string)
    (k : string → bool) :
  In r (r0 :: rs) → rmatch r s k = true → rmatch (RAlts r0 rs) s k = true.
Proof.
  revert r0. induction rs as [| r1 rs IH]; intros r0 Hin Hm.
  - destruct Hin as [-> | []]. exact Hm.
  - destruct Hin as [-> | Hin]; simpl.
    + rewrite Hm. reflexivity.
    + rewrite (IH r1 Hin Hm). apply orb_true_r.
Qed.

(** A subject that contains one of the literals of an alternation matches it. *)
Lemma test_contains (r0 : regex) (rs : list regex) (p pre post : string) :
  In (RLit p) (r0 :: rs) →
  test (RAlts r0 rs) (String.append pre (String.append p post)) = true.
Proof.
  intros Hin. apply test_skip, test_here.
  apply (rmatch_RAlts (RLit p)); [exact Hin |]. apply rmatch_RLit.
Qed.

End RegexFacts.

(** A message that mentions one of these codes is a client error for
    both clients, whatever surrounds the code. *)
Lemma VisualCrossing_status_is_client_error (code pre post : string) :
  In code Notions.clientStatusCodes →
  VisualCrossing.isClientError (String.append pre (String.append code post)) = true.
Proof.
  intros Hin. apply test_contains.
  unfold Notions.clientStatusCodes in Hin. simpl in Hin.
  destruct Hin as [<- | [<- | [<- | [<- | []]]]]; simpl; auto 10.
Qed.

Lemma Meteostat_status_is_client_error (code pre post : string) :
  In code Notions.clientStatusCodes →
  Meteostat.isClientError (String.append pre (String.append code post)) = true.
Proof.
  intros Hin. apply test_contains.
  unfold Notions.clientStatusCodes in Hin. simpl in Hin.
  destruct Hin as [<- | [<- | [<- | [<- | []]]]]; simpl; auto 10.
Qed.

(** So is a message of the form [HTTP Fehler 4dd]. *)
Lemma http_4xx_is_client_error (d1 d2 : ascii) (pre post : string) :
  Regex.is_digit d1 = true → Regex.is_digit d2 = true →
  let msg := String.append pre
               (String.append "HTTP Fehler 4" (String d1 (String d2 post))) in
  VisualCrossing.isClientError msg = true ∧ Meteostat.isClientError msg = true.
Proof.
  intros H1 H2.
  split; apply test_skip, test_here; simpl; rewrite H1, H2; reflexivity.
Qed.

(** The fixed messages of the two response validators are not client errors. *)
Lemma VisualCrossing_validation_messages_not_client_errors :
  Forall (λ msg, VisualCrossing.isClientError msg = false)
    ["Keine Daten von Visual Crossing erhalten";
     "Ungültige Visual Crossing Antwort: Keine aktuellen Bedingungen";
     "Ungültige Visual Crossing Antwort: Keine Tagesdaten"].
Proof. repeat constructor. Qed.

Lemma Meteostat_validation_messages_not_client_errors :
  Forall (λ msg, Meteostat.isClientError msg = false)
    ["Keine Daten von Meteostat erhalten";
     "Ungültige Meteostat Antwort: Keine Datenarray";
     "Meteostat: Keine Daten für den angegebenen Zeitraum"].
Proof. repeat constructor. Qed.

(** ** The retry loop *)

Section RetryLoop.
Import JS Effects Notions.

Variable env : Env.
Variable req : Request.
Variable validate : JsVal → Validation.
Variable isClientError : string → bool.

(** One turn of the loop, by the outcome of the attempt. *)
Lemma retry_from_S (n : nat) :
  retry_from env req validate isClientError (S n) =
  match attempt_body validate (safeApiFetch env (maxAttempts - S n)) with
  | Normal data => ([EvFetch req], Normal data)
  | Throw err =>
      if isClientError (guarded_message err) || (maxAttempts <=? maxAttempts - S n + 1)%nat
      then ([EvFetch req], Throw err)
      else
        (EvFetch req :: EvWait (waitMs (maxAttempts - S n + 1))
           :: trace (retry_from env req validate isClientError n),
         result (retry_from env req validate isClientError n))
  end.
Proof.
  cbn [retry_from]. unfold try_catch_eff, emit, lift, throw, trace, result.
  cbn [mbind Eff_bind].
  destruct (attempt_body validate (safeApiFetch env (maxAttempts - S n))) as [data | err];
    [reflexivity |].
  destruct (isClientError (guarded_message err) || (maxAttempts <=? maxAttempts - S n + 1)%nat);
    [reflexivity |].
  cbn [mbind Eff_bind].
  destruct (retry_from env req validate isClientError n) as [t c].
  destruct c; reflexivity.
Qed.

(** The loop always comes to an end, after at most [maxAttempts] attempts. *)
Lemma retry_from_attempts (n : nat) :
  (attempts (trace (retry_from env req validate isClientError n)) ≤ n)%nat.
Proof.
  induction n as [| n IH]; [cbn; lia |].
  rewrite retry_from_S.
  destruct (attempt_body _ _) as [data | err]; [cbn; lia |].
  destruct (_ || _); [cbn; lia |].
  cbn [fst attempts]. apply le_n_S, IH.
Qed.

(** A client error ends the loop at once. *)
Lemma retry_loop_client_error (e : JsError) :
  attempt_fails validate (safeApiFetch env 0) e →
  isClientError (err_message e) = true →
  retry_loop env req validate isClientError = ([EvFetch req], Throw e).
Proof.
  intros Hfail Hclient. unfold retry_loop, maxAttempts.
  rewrite retry_from_S. cbn [Nat.sub maxAttempts].
  rewrite Hfail. cbn [guarded_message]. rewrite Hclient. reflexivity.
Qed.

(** Three transient failures: three attempts, with waits of 200 and 400 ms. *)
Lemma retry_loop_transient :
  (∀ k, (k < maxAttempts)%nat →
        fails_transiently validate isClientError (safeApiFetch env k)) →
  ∃ e, attempt_fails validate (safeApiFetch env 2) e ∧
       retry_loop env req validate isClientError =
       ([EvFetch req; EvWait 200; EvFetch req; EvWait 400; EvFetch req], Throw e).
Proof.
  intros Hall. unfold maxAttempts in Hall.
  destruct (Hall 0%nat ltac:(lia)) as (e0 & H0 & T0).
  destruct (Hall 1%nat ltac:(lia)) as (e1 & H1 & T1).
  destruct (Hall 2%nat ltac:(lia)) as (e2 & H2 & T2).
  exists e2. split; [exact H2 |].
  unfold retry_loop, maxAttempts.
  rewrite !retry_from_S. cbn [Nat.sub maxAttempts Nat.add].
  unfold attempt_fails in *.
  rewrite H0, H1, H2. cbn [guarded_message]. rewrite T0, T1, T2. reflexivity.
Qed.

(** Every turn of the loop starts with a network attempt. *)
Lemma retry_from_attempts_pos (n : nat) :
  (1 ≤ attempts (trace (retry_from env req validate isClientError (S n))))%nat.
Proof.
  rewrite retry_from_S.
  destruct (attempt_body _ _) as [data | err]; [cbn; lia |].
  destruct (_ || _); cbn [trace fst attempts]; lia.
Qed.

(** A failure at attempt [k + 1], after [k] transient failures: when the
    error is a client error or the attempt is the third, the loop ends
    there with that error; otherwise at least one more attempt follows. *)
Lemma retry_loop_failure_at (k : nat) (e : JsError) :
  (k < maxAttempts)%nat →
  (∀ j, (j < k)%nat →
        fails_transiently validate isClientError (safeApiFetch env j)) →
  attempt_fails validate (safeApiFetch env k) e →
  let loop := retry_loop env req validate isClientError in
  if isClientError (err_message e) || (k =? 2)%nat
  then result loop = Throw e ∧ attempts (trace loop) = S k
  else (S (S k) ≤ attempts (trace loop))%nat.
Proof.
  unfold maxAttempts, attempt_fails. intros Hk Hbefore Hfail. cbn zeta.
  unfold retry_loop, maxAttempts.
  destruct k as [| [| [| k]]]; [| | | lia].
  - rewrite retry_from_S. cbn [Nat.sub maxAttempts Nat.add Nat.leb Nat.eqb].
    rewrite Hfail. cbn [guarded_message]. rewrite !orb_false_r.
    destruct (isClientError (err_message e)); [split; reflexivity |].
    cbn [trace fst attempts].
    pose proof (retry_from_attempts_pos 1). lia.
  - destruct (Hbefore 0%nat ltac:(lia)) as (e0 & H0 & T0). unfold attempt_fails in H0.
    rewrite retry_from_S. cbn [Nat.sub maxAttempts Nat.add Nat.leb Nat.eqb].
    rewrite H0. cbn [guarded_message]. rewrite T0.
    cbn [orb trace result fst snd attempts].
    rewrite retry_from_S. cbn [Nat.sub maxAttempts Nat.add Nat.leb Nat.eqb].
    rewrite Hfail. cbn [guarded_message]. rewrite !orb_false_r.
    destruct (isClientError (err_message e)); [split; reflexivity |].
    cbn [trace fst attempts].
    pose proof (retry_from_attempts_pos 0). lia.
  - destruct (Hbefore 0%nat ltac:(lia)) as (e0 & H0 & T0). unfold attempt_fails in H0.
    destruct (Hbefore 1%nat ltac:(lia)) as (e1 & H1 & T1). unfold attempt_fails in H1.
    rewrite !retry_from_S. cbn [Nat.sub maxAttempts Nat.add Nat.leb Nat.eqb].
    rewrite H0, H1, Hfail. cbn [guarded_message]. rewrite T0, T1, !orb_true_r.
    cbn [orb trace result fst snd attempts]. split; reflexivity.
Qed.

(** A success at the first attempt makes one attempt and no wait. *)
Lemma retry_loop_success (data : JsVal) :
  attempt_body validate (safeApiFetch env 0) = Normal data →
  retry_loop env req validate isClientError = ([EvFetch req], Normal data).
Proof.
  intros H. unfold retry_loop, maxAttempts. rewrite retry_from_S.
  cbn [Nat.sub maxAttempts]. rewrite H. reflexivity.
Qed.

End RetryLoop.

(** ** The two clients that retry *)

Section RetryingClients.
Import JS Effects Notions.

(** Once the arguments are accepted, [fetchWeather] is its retry loop
    followed by the formatting of the payload; what either throws goes
    through the outer [catch]. *)
Lemma fetchWeather_accepted env latitude longitude apiKey units req :
  VisualCrossing_request env latitude longitude apiKey units = Some req →
  VisualCrossing.fetchWeather env latitude longitude apiKey units =
  let pf := platform env in
  let loop := retry_loop env req (VisualCrossing._validateResponse pf)
                VisualCrossing.isClientError in
  (trace loop,
   match result loop with
   | Throw error => failure (read_message pf error) VisualCrossing.source
   | Normal data =>
       match VisualCrossing._formatWeatherData pf (Date_now env 2) data with
       | Throw error => failure (read_message pf error) VisualCrossing.source
       | Normal formatted =>
           Normal (Success {|
             VisualCrossing.current := VisualCrossing.fmt_current formatted;
             VisualCrossing.historical := VisualCrossing.fmt_historical formatted;
             VisualCrossing.forecast := VisualCrossing.fmt_forecast formatted;
             VisualCrossing.fromCache := false;
             VisualCrossing.duration := Date_now env 1 - Date_now env 0;
             VisualCrossing.w_source := VisualCrossing.source;
           |})
       end
   end).
Proof.
  unfold VisualCrossing_request, VisualCrossing.fetchWeather,
    VisualCrossing.fetchWeather_body.
  destruct (is_nonblank_string (platform env) apiKey); [| discriminate].
  destruct (valid (validateCoordinates env latitude longitude)); [| discriminate].
  cbn [andb negb].
  destruct (VisualCrossing.build_url _ _ _ _ _) as [url | e]; [| discriminate].
  intros [= <-]. cbn [mbind lift Eff_bind app].
  destruct (retry_loop _ _ _ _) as [t [data | e]]; cbn [trace result fst snd].
  - unfold lift. cbn [mbind Eff_bind].
    destruct (VisualCrossing._formatWeatherData _ _ _) as [formatted | e];
      cbn; rewrite ?app_nil_r; reflexivity.
  - cbn. rewrite app_nil_r. reflexivity.
Qed.

Lemma fetchHistorical_accepted env latitude longitude startDate endDate apiKey req :
  Meteostat_request env latitude longitude startDate endDate apiKey = Some req →
  Meteostat.fetchHistorical env latitude longitude startDate endDate apiKey =
  let pf := platform env in
  let loop := retry_loop env req (Meteostat._validateResponse pf)
                Meteostat.isClientError in
  (trace loop,
   match result loop with
   | Throw error => failure (read_message pf error) Meteostat.source
   | Normal data =>
       match Meteostat._formatHistoricalData pf data with
       | Throw error => failure (read_message pf error) Meteostat.source
       | Normal formatted =>
           Normal (Success {|
             Meteostat.daily := Meteostat.fmt_daily formatted;
             Meteostat.fromCache := false;
             Meteostat.duration := Date_now env 1 - Date_now env 0;
             Meteostat.h_source := Meteostat.source;
           |})
       end
   end).
Proof.
  unfold Meteostat_request, Meteostat.fetchHistorical, Meteostat.fetchHistorical_body.
  destruct (valid (validateCoordinates env latitude longitude)); [| discriminate].
  destruct (valid (Meteostat._validateDates _ _ _)); [| discriminate].
  cbn [andb negb].
  destruct (Meteostat.build_request _ _ _ _ _ _) as [req' | e]; [| discriminate].
  intros [= <-]. cbn [mbind lift Eff_bind app].
  destruct (retry_loop _ _ _ _) as [t [data | e]]; cbn [trace result fst snd].
  - unfold lift. cbn [mbind Eff_bind].
    destruct (Meteostat._formatHistoricalData _ _) as [formatted | e];
      cbn; rewrite ?app_nil_r; reflexivity.
  - cbn. rewrite app_nil_r. reflexivity.
Qed.

(** C1. When every attempt of a fetch fails with an error that is not a
    client error, the retry loop of [fetchWeather] and that of
    [fetchHistorical] make exactly three attempts, wait 200 ms before the
    second and 400 ms before the third (so the waits do not decrease), and
    the call resolves to the failure of the third attempt. *)
Theorem C1_transient_failures_three_attempts :
  (∀ env latitude longitude apiKey units req,
     VisualCrossing_request env latitude longitude apiKey units = Some req →
     (∀ k, (k < maxAttempts)%nat →
        fails_transiently (VisualCrossing._validateResponse (platform env))
          VisualCrossing.isClientError (safeApiFetch env k)) →
     let call := VisualCrossing.fetchWeather env latitude longitude apiKey units in
     trace call = three_attempts req ∧
     attempts (trace call) = maxAttempts ∧
     waits (trace call) = [200; 400] ∧
     ∃ e, attempt_fails (VisualCrossing._validateResponse (platform env))
            (safeApiFetch env 2) e ∧
          resolves_to_failure call (err_message e) VisualCrossing.source)
  ∧
  (∀ env latitude longitude startDate endDate apiKey req,
     Meteostat_request env latitude longitude startDate endDate apiKey = Some req →
     (∀ k, (k < maxAttempts)%nat →
        fails_transiently (Meteostat._validateResponse (platform env))
          Meteostat.isClientError (safeApiFetch env k)) →
     let call :=
       Meteostat.fetchHistorical env latitude longitude startDate endDate apiKey in
     trace call = three_attempts req ∧
     attempts (trace call) = maxAttempts ∧
     waits (trace call) = [200; 400] ∧
     ∃ e, attempt_fails (Meteostat._validateResponse (platform env))
            (safeApiFetch env 2) e ∧
          resolves_to_failure call (err_message e) Meteostat.source).
Proof.
  split.
  - intros env latitude longitude apiKey units req Hreq Hall call. subst call.
    rewrite (fetchWeather_accepted _ _ _ _ _ _ Hreq). cbn zeta.
    destruct (retry_loop_transient env req _ _ Hall) as (e & He & ->).
    cbn [trace result fst snd]. repeat split; try reflexivity.
    exists e. split; [exact He | reflexivity].
  - intros env latitude longitude startDate endDate apiKey req Hreq Hall call.
    subst call.
    rewrite (fetchHistorical_accepted _ _ _ _ _ _ _ Hreq). cbn zeta.
    destruct (retry_loop_transient env req _ _ Hall) as (e & He & ->).
    cbn [trace result fst snd]. repeat split; try reflexivity.
    exists e. split; [exact He | reflexivity].
Qed.

(** C2. When the first attempt fails with a client error (a message the
    pattern of the client matches: an HTTP 4xx failure, 401, 403, 404, 429,
    or the invalid-key texts of the provider), [fetchWeather] and
    [fetchHistorical] make that one attempt only: no wait, no second
    attempt, and the call resolves to the failure with that message. *)
Theorem C2_client_error_single_attempt :
  (∀ env latitude longitude apiKey units req e,
     VisualCrossing_request env latitude longitude apiKey units = Some req →
     attempt_fails (VisualCrossing._validateResponse (platform env))
       (safeApiFetch env 0) e →
     VisualCrossing.isClientError (err_message e) = true →
     VisualCrossing.fetchWeather env latitude longitude apiKey units =
     ([EvFetch req],
      Normal (Failed (mkFailure (err_message e) VisualCrossing.source))))
  ∧
  (∀ env latitude longitude startDate endDate apiKey req e,
     Meteostat_request env latitude longitude startDate endDate apiKey = Some req →
     attempt_fails (Meteostat._validateResponse (platform env))
       (safeApiFetch env 0) e →
     Meteostat.isClientError (err_message e) = true →
     Meteostat.fetchHistorical env latitude longitude startDate endDate apiKey =
     ([EvFetch req],
      Normal (Failed (mkFailure (err_message e) Meteostat.source)))).
Proof.
  split.
  - intros env latitude longitude apiKey units req e Hreq Hfail Hclient.
    rewrite (fetchWeather_accepted _ _ _ _ _ _ Hreq). cbn zeta.
    rewrite (retry_loop_client_error env req _ _ e Hfail Hclient). reflexivity.
  - intros env latitude longitude startDate endDate apiKey req e Hreq Hfail Hclient.
    rewrite (fetchHistorical_accepted _ _ _ _ _ _ _ Hreq). cbn zeta.
    rewrite (retry_loop_client_error env req _ _ e Hfail Hclient). reflexivity.
Qed.

(** C2 as stated fails: the provider reports an invalid request in the
    payload, the validator turns it into the error ["Visual Crossing:
    Invalid request"], the pattern of client errors does not match that
    message, and [fetchWeather] makes three attempts with both waits
    before it resolves to the failure. *)
Lemma C2_invalid_request_is_retried :
  let env := Sample.env [Body SampleCalls.invalid_request_payload;
                         Body SampleCalls.invalid_request_payload;
                         Body SampleCalls.invalid_request_payload] in
  let call := VisualCrossing.fetchWeather env Sample.berlin_lat Sample.berlin_lon
                (JStr "demo") JUndefined in
  attempt_fails (VisualCrossing._validateResponse (platform env))
    (safeApiFetch env 0) (Error "Visual Crossing: Invalid request") ∧
  VisualCrossing.isClientError "Visual Crossing: Invalid request" = false ∧
  trace call = three_attempts SampleCalls.weather_request ∧
  attempts (trace call) ≠ 1%nat ∧
  waits (trace call) = [200; 400] ∧
  resolves_to_failure call "Visual Crossing: Invalid request" "visualcrossing".
Proof. vm_compute. repeat split; discriminate. Qed.

End RetryingClients.

Section RetryingClientsOnSample.
Import JS Effects Notions.

(** A sample call during which the network is down. *)
Lemma C1_transient_failures_three_attempts_witness :
  let env := Sample.env [] in
  let call := VisualCrossing.fetchWeather env Sample.berlin_lat Sample.berlin_lon
                (JStr "demo") JUndefined in
  trace call = three_attempts SampleCalls.weather_request ∧
  attempts (trace call) = 3%nat ∧
  waits (trace call) = [200; 400].
Proof.
  intros env call.
  destruct (proj1 C1_transient_failures_three_attempts env
              Sample.berlin_lat Sample.berlin_lon (JStr "demo") JUndefined
              SampleCalls.weather_request) as (Ht & Ha & Hw & _).
  - vm_compute. reflexivity.
  - intros k _. exists (mkError "TypeError" "Failed to fetch").
    split; [destruct k; reflexivity | vm_compute; reflexivity].
  - exact (conj Ht (conj Ha Hw)).
Defined.

(** A sample call that is answered with HTTP 429. *)
Lemma C2_client_error_single_attempt_witness :
  let env := Sample.env [NetError (Error "HTTP Fehler 429: Too Many Requests")] in
  VisualCrossing.fetchWeather env Sample.berlin_lat Sample.berlin_lon
    (JStr "demo") JUndefined =
  ([EvFetch SampleCalls.weather_request],
   Normal (Failed (mkFailure "HTTP Fehler 429: Too Many Requests" "visualcrossing"))).
Proof.
  intros env.
  apply (proj1 C2_client_error_single_attempt env
           Sample.berlin_lat Sample.berlin_lon (JStr "demo") JUndefined
           SampleCalls.weather_request (Error "HTTP Fehler 429: Too Many Requests")).
  - vm_compute. reflexivity.
  - reflexivity.
  - vm_compute. reflexivity.
Defined.

(** Two timeouts and then a good reply: the third attempt succeeds. *)
Example fetchWeather_succeeds_at_third_attempt :
  let timeout := NetError (mkError "AbortError" "The operation was aborted") in
  let env := Sample.env [timeout; timeout; Body SampleCalls.weather_payload_us] in
  let call := VisualCrossing.fetchWeather env Sample.berlin_lat Sample.berlin_lon
                (JStr "demo") (JStr "us") in
  trace call = three_attempts SampleCalls.weather_request_us ∧
  ∃ weather, result call = Normal (Success weather).
Proof. split; [vm_compute; reflexivity | eexists; vm_compute; reflexivity]. Qed.

End RetryingClientsOnSample.

(** ** The two clients that do not retry *)

Section SingleCall.
Import JS Effects Notions.

(** [fetchSunEvents] and [fetchLocationDetails] call [safeApiFetch] at
    most once and never wait. *)
Lemma fetchSunEvents_single_call env ep latitude longitude apiKey :
  let call := SunriseSunset.fetchSunEvents env ep latitude longitude apiKey in
  (attempts (trace call) ≤ 1)%nat ∧ waits (trace call) = [].
Proof.
  cbn zeta. unfold SunriseSunset.fetchSunEvents, SunriseSunset.fetchSunEvents_body.
  destruct (negb (valid _)); [cbn; split; [lia | reflexivity] |].
  destruct (SunriseSunset.build_url _ _ _ _ _) as [url | e];
    [| cbn; split; [lia | reflexivity]].
  cbn [lift mbind Eff_bind emit app].
  destruct (safeApiFetch env 0) as [e | e | payload];
    try (cbn; split; [lia | reflexivity]).
  destruct (_ || _); cbn; split; (lia || reflexivity).
Qed.

Lemma fetchLocationDetails_single_call env ep latitude longitude apiKey language :
  let call :=
    BigDataCloud.fetchLocationDetails env ep latitude longitude apiKey language in
  (attempts (trace call) ≤ 1)%nat ∧ waits (trace call) = [].
Proof.
  cbn zeta.
  unfold BigDataCloud.fetchLocationDetails, BigDataCloud.fetchLocationDetails_body.
  destruct (negb (valid _)); [cbn; split; [lia | reflexivity] |].
  destruct (BigDataCloud.build_url _ _ _ _ _ _) as [url | e];
    [| cbn; split; [lia | reflexivity]].
  cbn [lift mbind Eff_bind emit app].
  destruct (safeApiFetch env 0) as [e | e | payload];
    try (cbn; split; [lia | reflexivity]).
  destruct (_ || _); [cbn; split; (lia || reflexivity) |].
  destruct (BigDataCloud._normalize _ _); cbn; split; (lia || reflexivity).
Qed.

End SingleCall.

(** ** Payloads that fail the validation of the response *)

Section InvalidPayload.
Import JS Effects Notions.

(** A rejected payload makes the attempt fail with the message of the
    validator. *)
Lemma invalid_payload_fails (validate : JsVal → Validation) (r : Reply) (data : JsVal) :
  r = Body data → valid (validate data) = false →
  attempt_fails validate r (validation_error validate data).
Proof.
  intros -> Hinvalid. unfold attempt_fails, attempt_body, validation_error.
  rewrite Hinvalid. reflexivity.
Qed.

(** C5 (as the code has it). A payload that fails [_validateResponse]
    makes its attempt fail with the message of the validator, and the retry
    loop of [fetchWeather] and of [fetchHistorical] treats this failure as
    any other failure of an attempt: no further network attempt is made
    only when the message matches the pattern of client errors or the
    attempt was the third (the call then resolves to the failure with that
    message); otherwise the loop waits and makes a further attempt. Here
    the payload arrives at attempt [k + 1], after [k] transient failures. *)
Theorem C5_invalid_payload_classified_by_message :
  (∀ env latitude longitude apiKey units req k data,
     VisualCrossing_request env latitude longitude apiKey units = Some req →
     (k < maxAttempts)%nat →
     (∀ j, (j < k)%nat →
        fails_transiently (VisualCrossing._validateResponse (platform env))
          VisualCrossing.isClientError (safeApiFetch env j)) →
     safeApiFetch env k = Body data →
     valid (VisualCrossing._validateResponse (platform env) data) = false →
     let call := VisualCrossing.fetchWeather env latitude longitude apiKey units in
     let msg := err_message
                  (validation_error (VisualCrossing._validateResponse (platform env)) data) in
     if VisualCrossing.isClientError msg || (k =? 2)%nat
     then attempts (trace call) = S k ∧
          resolves_to_failure call msg VisualCrossing.source
     else (S (S k) ≤ attempts (trace call))%nat)
  ∧
  (∀ env latitude longitude startDate endDate apiKey req k data,
     Meteostat_request env latitude longitude startDate endDate apiKey = Some req →
     (k < maxAttempts)%nat →
     (∀ j, (j < k)%nat →
        fails_transiently (Meteostat._validateResponse (platform env))
          Meteostat.isClientError (safeApiFetch env j)) →
     safeApiFetch env k = Body data →
     valid (Meteostat._validateResponse (platform env) data) = false →
     let call :=
       Meteostat.fetchHistorical env latitude longitude startDate endDate apiKey in
     let msg := err_message
                  (validation_error (Meteostat._validateResponse (platform env)) data) in
     if Meteostat.isClientError msg || (k =? 2)%nat
     then attempts (trace call) = S k ∧
          resolves_to_failure call msg Meteostat.source
     else (S (S k) ≤ attempts (trace call))%nat).
Proof.
  split.
  - intros env latitude longitude apiKey units req k data Hreq Hk Hbefore Hbody
      Hinvalid call msg.
    subst call msg.
    pose proof (invalid_payload_fails _ _ _ Hbody Hinvalid) as Hfail.
    pose proof (retry_loop_failure_at env req _ _ k _ Hk Hbefore Hfail) as Hloop.
    cbn zeta in Hloop. unfold resolves_to_failure.
    rewrite (fetchWeather_accepted _ _ _ _ _ _ Hreq). cbn zeta.
    cbn [trace result fst snd].
    destruct (_ || _); [| exact Hloop].
    destruct Hloop as [-> ->]. split; reflexivity.
  - intros env latitude longitude startDate endDate apiKey req k data Hreq Hk
      Hbefore Hbody Hinvalid call msg.
    subst call msg.
    pose proof (invalid_payload_fails _ _ _ Hbody Hinvalid) as Hfail.
    pose proof (retry_loop_failure_at env req _ _ k _ Hk Hbefore Hfail) as Hloop.
    cbn zeta in Hloop. unfold resolves_to_failure.
    rewrite (fetchHistorical_accepted _ _ _ _ _ _ _ Hreq). cbn zeta.
    cbn [trace result fst snd].
    destruct (_ || _); [| exact Hloop].
    destruct Hloop as [-> ->]. split; reflexivity.
Qed.

(** The payload [null] at the first attempt of a sample call: a second
    attempt follows. *)
Lemma C5_invalid_payload_classified_by_message_witness :
  let env := Sample.env [Body JNull] in
  safeApiFetch env 0 = Body JNull ∧
  valid (VisualCrossing._validateResponse (platform env) JNull) = false ∧
  (2 ≤ attempts (trace (VisualCrossing.fetchWeather env Sample.berlin_lat
                          Sample.berlin_lon (JStr "demo") JUndefined)))%nat.
Proof.
  intros env. split; [reflexivity |]. split; [reflexivity |].
  refine (proj1 C5_invalid_payload_classified_by_message env
            Sample.berlin_lat Sample.berlin_lon (JStr "demo") JUndefined
            SampleCalls.weather_request 0%nat JNull _ _ _ _ _).
  - vm_compute. reflexivity.
  - unfold maxAttempts. lia.
  - intros j Hj. lia.
  - reflexivity.
  - reflexivity.
Defined.

(** C5 as stated fails: the payload [null] does not pass
    [_validateResponse], and yet [fetchWeather] goes on to a second and a
    third network attempt. *)
Lemma C5_invalid_payload_is_retried :
  let env := Sample.env [Body JNull] in
  let call := VisualCrossing.fetchWeather env Sample.berlin_lat Sample.berlin_lon
                (JStr "demo") JUndefined in
  safeApiFetch env 0 = Body JNull ∧
  valid (VisualCrossing._validateResponse (platform env) JNull) = false ∧
  trace call = three_attempts SampleCalls.weather_request ∧
  attempts (trace call) ≠ 1%nat.
Proof. vm_compute. repeat split; discriminate. Qed.

End InvalidPayload.

(** ** What the outer [catch] of a client lets through *)

Section NeverRejects.
Import JS Effects Notions.

(** The outer [try]/[catch] of a client hands what its body throws to the
    [catch] block, which reads the message of the value caught. *)
Lemma caught_result {S} (body : Eff (Outcome S)) (src : string)
    (message : Thrown → Completion string) :
  result (try_catch_eff body (λ error, failure_of (message error) src)) =
  match result body with
  | Normal o => Normal o
  | Throw error => failure (message error) src
  end.
Proof. destruct body as [t [o | e]]; reflexivity. Qed.

Lemma caught_by_message {S} pf (body : Eff (Outcome S)) (src : string) :
  (∀ f, result body = Normal (Failed f) → f_source f = src) →
  caught_unless_nullish pf body
    (try_catch_eff body (λ error, failure_of (read_message pf error) src))
    src err_message.
Proof.
  intros Hsrc. unfold caught_unless_nullish. rewrite caught_result.
  destruct (result body) as [o | [e | |]] eqn:Hbody; (split; [reflexivity |]).
  - intros f [= ->]. apply Hsrc. reflexivity.
  - intros f [= <-]. reflexivity.
  - discriminate.
  - discriminate.
Qed.

Lemma caught_by_message_or_string {S} pf (body : Eff (Outcome S)) (src : string) :
  (∀ f, result body = Normal (Failed f) → f_source f = src) →
  caught_unless_nullish pf body
    (try_catch_eff body (λ error, failure_of (read_message_or_string pf error) src))
    src message_or_string.
Proof.
  intros Hsrc. unfold caught_unless_nullish. rewrite caught_result.
  destruct (result body) as [o | [e | |]] eqn:Hbody; (split; [reflexivity |]).
  - intros f [= ->]. apply Hsrc. reflexivity.
  - intros f [= <-]. reflexivity.
  - discriminate.
  - discriminate.
Qed.

(** The result of a bind is a failure only if its continuation yields one. *)
Lemma bind_result {A B} (m : Eff A) (k : A → Eff B) :
  result (m ≫= k) =
  match result m with
  | Normal a => result (k a)
  | Throw e => Throw e
  end.
Proof.
  destruct m as [t [a | e]]; cbn; [| reflexivity].
  destruct (k a); reflexivity.
Qed.

Lemma fetchWeather_body_failure env latitude longitude apiKey units f :
  result (VisualCrossing.fetchWeather_body env latitude longitude apiKey units)
  = Normal (Failed f) →
  f_source f = VisualCrossing.source.
Proof.
  unfold VisualCrossing.fetchWeather_body.
  destruct (negb (is_nonblank_string _ _)); [intros [= <-]; reflexivity |].
  destruct (negb (valid _)); [discriminate |].
  rewrite !bind_result.
  repeat (match goal with
          | |- context [result (lift ?c)] => destruct c; cbn [result lift snd]
          | |- context [result (retry_loop ?a ?b ?c ?d)] =>
              destruct (result (retry_loop a b c d))
          end; try discriminate; rewrite ?bind_result).
Qed.

Lemma fetchHistorical_body_failure env latitude longitude startDate endDate apiKey f :
  result (Meteostat.fetchHistorical_body env latitude longitude startDate endDate apiKey)
  = Normal (Failed f) →
  f_source f = Meteostat.source.
Proof.
  unfold Meteostat.fetchHistorical_body.
  destruct (negb (valid (validateCoordinates _ _ _))); [discriminate |].
  destruct (negb (valid (Meteostat._validateDates _ _ _))); [discriminate |].
  rewrite !bind_result.
  repeat (match goal with
          | |- context [result (lift ?c)] => destruct c; cbn [result lift snd]
          | |- context [result (retry_loop ?a ?b ?c ?d)] =>
              destruct (result (retry_loop a b c d))
          end; try discriminate; rewrite ?bind_result).
Qed.

Lemma fetchSunEvents_body_failure env ep latitude longitude apiKey f :
  result (SunriseSunset.fetchSunEvents_body env ep latitude longitude apiKey)
  = Normal (Failed f) →
  f_source f = SunriseSunset.source.
Proof.
  unfold SunriseSunset.fetchSunEvents_body.
  destruct (negb (valid _)); [discriminate |].
  rewrite !bind_result.
  destruct (SunriseSunset.build_url _ _ _ _ _); cbn [result lift snd]; [| discriminate].
  rewrite bind_result. cbn [result emit snd].
  destruct (safeApiFetch env 0) as [e | e | payload]; try discriminate.
  destruct (_ || _); discriminate.
Qed.

Lemma fetchLocationDetails_body_failure env ep latitude longitude apiKey language f :
  result (BigDataCloud.fetchLocationDetails_body env ep latitude longitude apiKey language)
  = Normal (Failed f) →
  f_source f = BigDataCloud.source.
Proof.
  unfold BigDataCloud.fetchLocationDetails_body.
  destruct (negb (valid _)); [discriminate |].
  rewrite !bind_result.
  destruct (BigDataCloud.build_url _ _ _ _ _ _); cbn [result lift snd]; [| discriminate].
  rewrite bind_result. cbn [result emit snd].
  destruct (safeApiFetch env 0) as [e | e | payload]; try discriminate.
  destruct (_ || _); [discriminate |].
  rewrite bind_result.
  destruct (BigDataCloud._normalize _ _); cbn [result lift snd]; discriminate.
Qed.

(** What a rejection of [safeApiFetch] with an [Error] becomes: the
    clients resolve to the failure that carries its message. With errors
    only, no promise of a client is rejected. *)
Lemma fetch_resolves_on_errors {S} pf (body call : Eff (Outcome S)) src describe :
  caught_unless_nullish pf body call src describe →
  result body ≠ Throw ThrownNull → result body ≠ Throw ThrownUndefined →
  ∃ o, result call = Normal o.
Proof.
  intros [H _] Hnull Hundef.
  destruct (result body) as [o | [e | |]]; try congruence; eexists; exact H.
Qed.

(** C3 at the failing input. In each client the outer [catch] turns an
    outcome or an [Error] of the body into the result of the call, but it
    reads [error.message] without the guard the [catch] of the retry loop
    has, and throws when the value caught is [null] or [undefined]. So
    when [safeApiFetch] rejects with [undefined] three times,
    [fetchWeather(52.52, 13.405, 'demo')] makes its three attempts and its
    promise is rejected with a TypeError, and so is the promise of
    [fetchSunEvents(52.52, 13.405)] after one rejection with [null]: the
    exception escapes to the caller. *)
Theorem C3_null_rejection_escapes :
  (∀ env ep latitude longitude apiKey units startDate endDate language,
    caught_unless_nullish (platform env)
      (VisualCrossing.fetchWeather_body env latitude longitude apiKey units)
      (VisualCrossing.fetchWeather env latitude longitude apiKey units)
      "visualcrossing" err_message
    ∧ caught_unless_nullish (platform env)
      (Meteostat.fetchHistorical_body env latitude longitude startDate endDate apiKey)
      (Meteostat.fetchHistorical env latitude longitude startDate endDate apiKey)
      "meteostat" err_message
    ∧ caught_unless_nullish (platform env)
      (SunriseSunset.fetchSunEvents_body env ep latitude longitude apiKey)
      (SunriseSunset.fetchSunEvents env ep latitude longitude apiKey)
      "sunrisesunset" message_or_string
    ∧ caught_unless_nullish (platform env)
      (BigDataCloud.fetchLocationDetails_body env ep latitude longitude apiKey language)
      (BigDataCloud.fetchLocationDetails env ep latitude longitude apiKey language)
      "bigdatacloud" message_or_string)
  ∧
  (let env := Sample.env [NetError ThrownUndefined; NetError ThrownUndefined;
                          NetError ThrownUndefined] in
   let call := VisualCrossing.fetchWeather env Sample.berlin_lat Sample.berlin_lon
                 (JStr "demo") JUndefined in
   trace call = three_attempts SampleCalls.weather_request ∧
   result call = Throw (no_property (platform env) JUndefined "message") ∧
   rejected call)
  ∧
  (let env := Sample.env [NetError ThrownNull] in
   let call := SunriseSunset.fetchSunEvents env MoreSamples.sun_endpoint
                 Sample.berlin_lat Sample.berlin_lon JNull in
   attempts (trace call) = 1%nat ∧
   result call = Throw (no_property (platform env) JNull "message") ∧
   rejected call).
Proof.
  split; [| split].
  - intros. repeat split_and.
    + apply (caught_by_message _ _ VisualCrossing.source).
      intros f. apply fetchWeather_body_failure.
    + apply (caught_by_message _ _ Meteostat.source).
      intros f. apply fetchHistorical_body_failure.
    + apply (caught_by_message_or_string _ _ SunriseSunset.source).
      intros f. apply fetchSunEvents_body_failure.
    + apply (caught_by_message_or_string _ _ BigDataCloud.source).
      intros f. apply fetchLocationDetails_body_failure.
  - cbn zeta. split; [vm_compute; reflexivity |].
    split; [vm_compute; reflexivity | eexists; vm_compute; reflexivity].
  - cbn zeta. split; [vm_compute; reflexivity |].
    split; [vm_compute; reflexivity | eexists; vm_compute; reflexivity].
Qed.

End NeverRejects.

(** ** Units of the normalised data *)

Section Units.
Import JS Effects Notions.

(** [_formatWeatherData] hands on the temperature, the wind speed and the
    precipitation of the payload as they are, whatever [resolvedUnit] says. *)
Lemma formatWeatherData_copies_current pf today data formatted :
  VisualCrossing._formatWeatherData pf today data = Normal formatted →
  let cc := prop data "currentConditions" in
  VisualCrossing.temp (VisualCrossing.fmt_current formatted) = prop cc "temp" ∧
  VisualCrossing.wind_speed (VisualCrossing.fmt_current formatted) = prop cc "windspeed".
Proof.
  unfold VisualCrossing._formatWeatherData. intros H.
  repeat match type of H with
         | (?m ≫= _) = Normal _ =>
             destruct m; cbn [mbind Completion_bind] in H; [| discriminate]
         end.
  injection H as <-. split; reflexivity.
Qed.

Lemma format_day_copies pf day formatted :
  VisualCrossing.format_day pf day = Normal formatted →
  VisualCrossing.temp_min formatted = prop day "tempmin" ∧
  VisualCrossing.temp_max formatted = prop day "tempmax" ∧
  VisualCrossing.temp_avg formatted = prop day "temp" ∧
  VisualCrossing.day_wind_speed formatted = prop day "windspeed" ∧
  VisualCrossing.precipitation formatted = js_or (prop day "precip") (JNum 0).
Proof.
  unfold VisualCrossing.format_day. intros H.
  repeat match type of H with
         | (?m ≫= _) = Normal _ =>
             destruct m; cbn [mbind Completion_bind] in H; [| discriminate]
         end.
  injection H as <-. repeat split.
Qed.

(** [_formatHistoricalData] of Meteostat converts the wind speed from km/h
    to m/s and hands on temperature (°C) and precipitation (mm). *)
Lemma Meteostat_format_day_units pf day formatted (w : Q) :
  Meteostat.format_day pf day = Normal formatted →
  prop day "wspd" = JNum w →
  Meteostat.wind_speed formatted = JNum (w / (36 # 10)) ∧
  Meteostat.temp_min formatted = Meteostat.keep (prop day "tmin") ∧
  Meteostat.temp_max formatted = Meteostat.keep (prop day "tmax") ∧
  Meteostat.temp_avg formatted = Meteostat.keep (prop day "tavg") ∧
  Meteostat.precipitation formatted =
    (if not_null (prop day "prcp") then prop day "prcp" else JNum 0).
Proof.
  unfold Meteostat.format_day. intros H Hw.
  destruct (get pf day "date"); cbn [mbind Completion_bind] in H; [| discriminate].
  injection H as <-. cbn. rewrite Hw. repeat split.
Qed.

(** C4 at the failing input: [fetchWeather(52.52, 13.405, key, 'us')]
    asks the provider for the unit group [us], and the reply in the units
    of that group (68 °F, 10 mph, 1 inch) comes back unconverted: the
    temperature of the result is 68 where 68 °F is 20 °C, the wind speed 10
    where 10 mph is 4.4704 m/s, and the precipitation 1 where 1 inch is
    25.4 mm. *)
Theorem C4_visualcrossing_keeps_native_units :
  let env := Sample.env [Body SampleCalls.weather_payload_us] in
  ∃ w day,
    VisualCrossing.fetchWeather env Sample.berlin_lat Sample.berlin_lon
      (JStr "demo") (JStr "us")
    = ([EvFetch SampleCalls.weather_request_us], Normal (Success w)) ∧
    VisualCrossing.historical w = [day] ∧
    VisualCrossing.temp (VisualCrossing.current w) = JNum 68 ∧
    VisualCrossing.wind_speed (VisualCrossing.current w) = JNum 10 ∧
    VisualCrossing.temp_max day = JNum 68 ∧
    VisualCrossing.day_wind_speed day = JNum 10 ∧
    VisualCrossing.precipitation day = JNum 1 ∧
    (celsius_of_fahrenheit 68 == 20)%Q ∧
    (ms_of_mph 10 == 44704 # 10000)%Q ∧
    (mm_of_inch 1 == 254 # 10)%Q.
Proof.
  eexists _, _. vm_compute. repeat split; discriminate.
Qed.

End Units.

(** ** The shell cache when the network fails *)

Section ShellCache.
Import JS ServiceWorker.

(** Every request but those to the APIs is taken charge of. *)
Lemma on_fetch_handled w caches request net :
  is_api_request (r_url request) = false →
  ∃ promise, (on_fetch w caches request net).1 = RespondWith promise.
Proof.
  intros Hapi. unfold on_fetch. rewrite Hapi.
  destruct net; eexists; reflexivity.
Qed.

(** When the network fails and the cache storage can be read, the handler
    responds with the cached entry for the request when there is one, and
    otherwise with the synthetic response of status 503. *)
Lemma on_fetch_offline w caches request error :
  is_api_request (r_url request) = false →
  caches_match_rejects w request = None →
  on_fetch w caches request (Rejected error) =
  (RespondWith
     (Normal match caches_match caches request with
             | Some cached => cached
             | None => offline_response
             end),
   caches).
Proof.
  intros Hapi Hmatch. unfold on_fetch, on_network_failure, match_request.
  rewrite Hapi, Hmatch. reflexivity.
Qed.

(** Offline with a working cache storage: the cached style sheet is served,
    a page that is not cached gets the offline response. *)
Lemma on_fetch_offline_sample :
  on_fetch SampleCalls.worker SampleCalls.shell_caches SampleCalls.style_request
    (Rejected SampleCalls.offline)
  = (RespondWith (Normal SampleCalls.style_response), SampleCalls.shell_caches) ∧
  on_fetch SampleCalls.worker SampleCalls.shell_caches SampleCalls.page_request
    (Rejected SampleCalls.offline)
  = (RespondWith (Normal offline_response), SampleCalls.shell_caches).
Proof.
  split.
  - exact (on_fetch_offline SampleCalls.worker SampleCalls.shell_caches
             SampleCalls.style_request SampleCalls.offline eq_refl eq_refl).
  - exact (on_fetch_offline SampleCalls.worker SampleCalls.shell_caches
             SampleCalls.page_request SampleCalls.offline eq_refl eq_refl).
Qed.

(** C6 at the failing input. For a request whose network fetch fails, the
    handler gives [respondWith] the promise
    [caches.match(request).then(...)]: the cached entry when there is one,
    otherwise the synthetic response of status 503 with the offline
    message. That chain has no rejection handler, so when
    [caches.match] itself is rejected (the cache storage cannot be read)
    the promise given to [respondWith] is rejected with the same reason:
    for the style sheet of the shell, requested while the network is down
    and the storage fails, the request is answered neither from the cache
    nor with the offline response. *)
Theorem C6_cache_lookup_failure_is_not_caught :
  (∀ w caches request error,
     on_fetch w caches request (Rejected error) =
     if is_api_request (r_url request) then (NotHandled, caches)
     else
       (RespondWith
          match caches_match_rejects w request with
          | Some reason => Throw reason
          | None =>
              Normal match caches_match caches request with
                     | Some cached => cached
                     | None => offline_response
                     end
          end,
        caches))
  ∧ status offline_response = 503
  ∧ body offline_response =
    "Offline - Diese Seite ist im Offline-Modus nicht verfügbar"
  ∧ is_api_request (r_url SampleCalls.style_request) = false
  ∧ caches_match SampleCalls.shell_caches SampleCalls.style_request
    = Some SampleCalls.style_response
  ∧ on_fetch SampleCalls.worker_without_storage SampleCalls.shell_caches
      SampleCalls.style_request (Rejected SampleCalls.offline)
    = (RespondWith (Throw SampleCalls.storage_failure), SampleCalls.shell_caches).
Proof.
  split.
  - intros w caches request error. unfold on_fetch, on_network_failure, match_request.
    destruct (is_api_request (r_url request)); [reflexivity |].
    destruct (caches_match_rejects w request); reflexivity.
  - repeat split.
Qed.

End ShellCache.

(** ** The drain of the failed requests *)

Section Drain.
Import JS ServiceWorker Notions.

Lemma retry_one_removed env (store : FailedRequests) req :
  retry_one env store req = if removed env req then delete (id req) store else store.
Proof. unfold retry_one, removed, store_delete. destruct (replay env req); reflexivity. Qed.

(** The loop replays each request of the snapshot once, in order. *)
Lemma retry_all_calls env (l : list QueuedRequest) : ∀ store : FailedRequests,
  (retry_all env store l).1 = l.
Proof.
  induction l as [| req rest IH]; intros store; cbn [retry_all]; [reflexivity |].
  specialize (IH (retry_one env store req)).
  destruct (retry_all env (retry_one env store req) rest) as [calls store'].
  cbn in *. congruence.
Qed.

(** The store after the loop: the removed requests are gone, the others
    are as before. *)
Lemma retry_all_lookup env (l : list QueuedRequest) : ∀ (store : FailedRequests) (k : Z),
  (retry_all env store l).2 !! k =
  if existsb (λ req, (id req =? k) && removed env req) l then None else store !! k.
Proof.
  induction l as [| req rest IH]; intros store k; cbn [retry_all existsb];
    [reflexivity |].
  specialize (IH (retry_one env store req) k).
  destruct (retry_all env (retry_one env store req) rest) as [calls store'].
  cbn [snd] in *. rewrite IH, retry_one_removed.
  destruct (existsb _ rest); [rewrite orb_true_r; reflexivity |].
  rewrite orb_false_r.
  destruct (removed env req); [| rewrite andb_false_r; reflexivity].
  rewrite andb_true_r.
  destruct (Z.eqb_spec (id req) k) as [-> | Hne].
  - apply lookup_delete_eq.
  - apply lookup_delete_ne, Hne.
Qed.

Lemma getAll_Permutation (store : FailedRequests) :
  getAll store ≡ₚ (map_to_list store).*2.
Proof. unfold getAll. rewrite merge_sort_Permutation. reflexivity. Qed.

Lemma elem_of_getAll (store : FailedRequests) (r : QueuedRequest) :
  r ∈ getAll store ↔ ∃ k, store !! k = Some r.
Proof.
  rewrite getAll_Permutation, list_elem_of_fmap. split.
  - intros [[k r'] [-> Hin]]. exists k. apply elem_of_map_to_list, Hin.
  - intros [k Hk]. exists (k, r). split; [reflexivity |].
    apply elem_of_map_to_list, Hk.
Qed.

Lemma getAll_ids (store : FailedRequests) :
  well_keyed store → NoDup (id <$> getAll store).
Proof.
  intros Hkeys. rewrite getAll_Permutation.
  assert (id <$> (map_to_list store).*2 = (map_to_list store).*1) as ->.
  { rewrite <- list_fmap_compose. apply Forall_fmap_ext_1, Forall_forall.
    intros [k r] Hin%elem_of_map_to_list. cbn. apply Hkeys, Hin. }
  apply NoDup_fst_map_to_list.
Qed.

(** Whether a request filed under [k] is removed depends on that request only. *)
Lemma removed_in_getAll env (store : FailedRequests) (k : Z) (r : QueuedRequest) :
  well_keyed store → store !! k = Some r →
  existsb (λ req, (id req =? k) && removed env req) (getAll store) = removed env r.
Proof.
  intros Hkeys Hk. destruct (removed env r) eqn:Hr.
  - apply existsb_exists. exists r. split.
    + apply list_elem_of_In, elem_of_getAll. eauto.
    + rewrite (Hkeys _ _ Hk), Z.eqb_refl, Hr. reflexivity.
  - apply not_true_is_false. intros (r' & Hin & Hb)%existsb_exists.
    apply andb_true_iff in Hb as [Hid%Z.eqb_eq Hrem].
    apply list_elem_of_In, elem_of_getAll in Hin as [k' Hk'].
    pose proof (Hkeys _ _ Hk') as Hid'. rewrite Hid in Hid'. subst k'.
    rewrite Hk in Hk'. injection Hk' as <-. congruence.
Qed.

Lemma absent_in_getAll env (store : FailedRequests) (k : Z) :
  well_keyed store → store !! k = None →
  existsb (λ req, (id req =? k) && removed env req) (getAll store) = false.
Proof.
  intros Hkeys Hk. apply not_true_is_false. intros (r' & Hin & Hb)%existsb_exists.
  apply andb_true_iff in Hb as [Hid%Z.eqb_eq _].
  apply list_elem_of_In, elem_of_getAll in Hin as [k' Hk'].
  pose proof (Hkeys _ _ Hk') as Hid'. rewrite Hid in Hid'. subst k'. congruence.
Qed.

(** The store after a drain during which IndexedDB can be opened and read. *)
Lemma drain_lookup env (store : FailedRequests) (k : Z) :
  well_keyed store → open_ok env = true → getAll_ok env = true →
  (retryFailedRequests env store).2 !! k =
  match store !! k with
  | Some r => if removed env r then None else Some r
  | None => None
  end.
Proof.
  intros Hkeys Hopen Hread. unfold retryFailedRequests.
  rewrite Hopen, Hread. cbn [andb]. rewrite retry_all_lookup.
  destruct (store !! k) as [r |] eqn:Hk.
  - rewrite (removed_in_getAll env store k r Hkeys Hk). reflexivity.
  - rewrite (absent_in_getAll env store k Hkeys Hk). reflexivity.
Qed.

Lemma drain_calls env (store : FailedRequests) :
  open_ok env = true → getAll_ok env = true →
  (retryFailedRequests env store).1 = getAll store.
Proof.
  intros Hopen Hread. unfold retryFailedRequests. rewrite Hopen, Hread.
  apply retry_all_calls.
Qed.

End Drain.

Section DrainClaims.
Import JS ServiceWorker Notions.

Lemma removed_of_success env r :
  store_works env → replay_succeeds env r → removed env r = true.
Proof.
  intros (_ & _ & Hdel) (response & Hreply & Hok).
  unfold removed. rewrite Hreply, Hok, Hdel. reflexivity.
Qed.

Lemma removed_of_failure env r : replay_fails env r → removed env r = false.
Proof.
  unfold replay_fails, removed. destruct (replay env r); [| reflexivity].
  intros ->. reflexivity.
Qed.

Lemma removed_of_reply env r :
  replay_succeeds env r → removed env r = delete_ok env (id r).
Proof.
  intros (response & Hreply & Hok). unfold removed. rewrite Hreply, Hok. reflexivity.
Qed.

(** C7 (as the code has it). A drain that can open and read the store
    replays each queued entry exactly once. An entry whose replay gets an
    [ok] response is deleted from the store; it stays, as it was, only if
    that delete request fails. An entry whose replay fails (the fetch is
    rejected, or the response is not [ok]) stays in the store as it was:
    nothing is written back, no counter is kept. *)
Theorem C7_drain_deletes_successes_keeps_failures env (store : FailedRequests) :
  well_keyed store → store_readable env →
  let calls := (retryFailedRequests env store).1 in
  let store' := (retryFailedRequests env store).2 in
  calls ≡ₚ (map_to_list store).*2 ∧
  NoDup (id <$> calls) ∧
  (∀ k r, store !! k = Some r →
     (replay_succeeds env r → delete_ok env k = true → store' !! k = None) ∧
     (replay_succeeds env r → delete_ok env k = false → store' !! k = Some r) ∧
     (replay_fails env r → store' !! k = Some r)) ∧
  (∀ k, store !! k = None → store' !! k = None).
Proof.
  intros Hkeys [Hopen Hread] calls store'. subst calls store'.
  rewrite (drain_calls env store Hopen Hread).
  split; [apply getAll_Permutation |].
  split; [apply getAll_ids, Hkeys |].
  split.
  - intros k r Hk. rewrite (drain_lookup env store k Hkeys Hopen Hread), Hk.
    pose proof (Hkeys _ _ Hk) as Hid.
    split; [| split].
    + intros Hr Hdel. rewrite (removed_of_reply env r Hr), Hid, Hdel. reflexivity.
    + intros Hr Hdel. rewrite (removed_of_reply env r Hr), Hid, Hdel. reflexivity.
    + intros Hr. rewrite (removed_of_failure env r Hr). reflexivity.
  - intros k Hk. rewrite (drain_lookup env store k Hkeys Hopen Hread), Hk.
    reflexivity.
Qed.

(** The sample queue is filed by [id]. *)
Lemma queue_well_keyed : well_keyed SampleCalls.queue.
Proof.
  intros k r Hk. unfold SampleCalls.queue in Hk.
  apply lookup_singleton_Some in Hk as [<- <-]. reflexivity.
Defined.

(** The sample queue, drained online, drained online while the delete
    requests fail, and drained offline. *)
Lemma C7_drain_deletes_successes_keeps_failures_witness :
  (retryFailedRequests SampleCalls.drain_online SampleCalls.queue).2 !! 1 = None ∧
  (retryFailedRequests SampleCalls.drain_online_delete_fails SampleCalls.queue).2 !! 1
  = Some SampleCalls.queued ∧
  (retryFailedRequests SampleCalls.drain_offline SampleCalls.queue).2 !! 1
  = Some SampleCalls.queued.
Proof.
  split; [| split].
  - refine (proj1 (proj1 (proj2 (proj2
      (C7_drain_deletes_successes_keeps_failures SampleCalls.drain_online
         SampleCalls.queue queue_well_keyed _))) 1 SampleCalls.queued _) _ _).
    + split; reflexivity.
    + reflexivity.
    + eexists. split; reflexivity.
    + reflexivity.
  - refine (proj1 (proj2 (proj1 (proj2 (proj2
      (C7_drain_deletes_successes_keeps_failures SampleCalls.drain_online_delete_fails
         SampleCalls.queue queue_well_keyed _))) 1 SampleCalls.queued _)) _ _).
    + split; reflexivity.
    + reflexivity.
    + eexists. split; reflexivity.
    + reflexivity.
  - refine (proj2 (proj2 (proj1 (proj2 (proj2
      (C7_drain_deletes_successes_keeps_failures SampleCalls.drain_offline
         SampleCalls.queue queue_well_keyed _))) 1 SampleCalls.queued _)) _).
    + split; reflexivity.
    + reflexivity.
    + exact I.
Defined.

(** C7 as stated fails: the replay of the queued request fails, and after
    the drain the request is in the store with the counter it had before
    (0), not with the counter incremented (1). *)
Lemma C7_failed_replay_leaves_counter :
  let store' := (retryFailedRequests SampleCalls.drain_offline SampleCalls.queue).2 in
  replay_fails SampleCalls.drain_offline SampleCalls.queued ∧
  store' !! 1 = Some SampleCalls.queued ∧
  attempts_of SampleCalls.queued = JNum 0 ∧
  ¬ ∃ r, store' !! 1 = Some r ∧ attempts_of r = JNum 1.
Proof.
  cbn zeta.
  assert ((retryFailedRequests SampleCalls.drain_offline SampleCalls.queue).2 !! 1
          = Some SampleCalls.queued) as Hkept by (vm_compute; reflexivity).
  split; [exact I |]. split; [exact Hkept |]. split; [reflexivity |].
  intros (r & Hr & Hcount). rewrite Hkept in Hr. injection Hr as <-.
  discriminate Hcount.
Qed.

(** C8. When a drain succeeds for every queued entry (each replay gets an
    [ok] response and IndexedDB works), the store is empty afterwards, and
    a second drain, whatever the network and IndexedDB do then, makes no
    network call and leaves the store empty. *)
Theorem C8_second_drain_makes_no_call env (store : FailedRequests) :
  well_keyed store → store_works env →
  (∀ k r, store !! k = Some r → replay_succeeds env r) →
  let store' := (retryFailedRequests env store).2 in
  store' = ∅ ∧ ∀ env', retryFailedRequests env' store' = ([], ∅).
Proof.
  intros Hkeys Hworks Hall store'.
  assert (store' = ∅) as ->.
  { subst store'. pose proof Hworks as (Hopen & Hread & _).
    apply map_eq. intros k.
    rewrite (drain_lookup env store k Hkeys Hopen Hread), lookup_empty.
    destruct (store !! k) as [r |] eqn:Hk; [| reflexivity].
    rewrite (removed_of_success env r Hworks (Hall k r Hk)). reflexivity. }
  split; [reflexivity |]. intros env'. unfold retryFailedRequests.
  destruct (open_ok env' && getAll_ok env'); reflexivity.
Qed.

(** The sample queue, drained online and then once more. *)
Lemma C8_second_drain_makes_no_call_witness :
  let store' := (retryFailedRequests SampleCalls.drain_online SampleCalls.queue).2 in
  store' = ∅ ∧ retryFailedRequests SampleCalls.drain_offline store' = ([], ∅).
Proof.
  intros store'.
  destruct (C8_second_drain_makes_no_call SampleCalls.drain_online SampleCalls.queue
              queue_well_keyed) as [Hempty Hsecond].
  - repeat split.
  - intros k r Hk. unfold SampleCalls.queue in Hk.
    apply lookup_singleton_Some in Hk as [<- <-]. eexists. split; reflexivity.
  - split; [exact Hempty | apply Hsecond].
Defined.

End DrainClaims.

(** ** Drains as tasks *)

Section DrainTasks.
Import JS ServiceWorker Notions.

Lemma drive_open env fuel (store : FailedRequests) log :
  drive env (S fuel) (mkState store [AwaitOpen] log) =
  drive env fuel (mkState store [if open_ok env then AwaitGetAll else Finished] log).
Proof. reflexivity. Qed.

Lemma drive_getAll env fuel (store : FailedRequests) log :
  drive env (S fuel) (mkState store [AwaitGetAll] log) =
  drive env fuel
    (if getAll_ok env then proceed store (getAll store) log
     else mkState store [Finished] log).
Proof.
  cbn [drive tasks lookup list_lookup settle step].
  destruct (getAll_ok env); [| reflexivity].
  unfold proceed. destruct (next_request _ _). reflexivity.
Qed.

Lemma drive_fetch env fuel (store : FailedRequests) req rest log :
  drive env (S fuel) (mkState store [AwaitFetch req rest] log) =
  drive env fuel
    match replay env req with
    | Responded response =>
        if ok response then mkState store [AwaitRemove req rest] log
        else proceed store rest log
    | Rejected _ => proceed store rest log
    end.
Proof.
  cbn [drive tasks lookup list_lookup settle step]. unfold proceed.
  destruct (replay env req) as [response | err]; [destruct (ok response) |];
    try reflexivity; destruct (next_request _ _); reflexivity.
Qed.

Lemma drive_remove env fuel (store : FailedRequests) req rest log :
  drive env (S fuel) (mkState store [AwaitRemove req rest] log) =
  drive env fuel
    (proceed (if delete_ok env (id req) then store_delete (id req) store else store)
       rest log).
Proof.
  cbn [drive tasks lookup list_lookup settle step]. unfold proceed.
  destruct (next_request _ _). reflexivity.
Qed.

Lemma drive_finished env fuel (store : FailedRequests) log :
  drive env fuel (mkState store [Finished] log) = mkState store [Finished] log.
Proof. destruct fuel; reflexivity. Qed.

Lemma retry_all_cons env (store : FailedRequests) req rest :
  (retry_all env store (req :: rest)).2 = (retry_all env (retry_one env store req) rest).2.
Proof.
  cbn [retry_all]. destruct (retry_all env (retry_one env store req) rest).
  reflexivity.
Qed.

(** A lone drain that goes on to the requests [rest] does what
    [retry_all] does. *)
Lemma drive_proceed env (rest : list QueuedRequest) :
  ∀ (store : FailedRequests) (log : list QueuedRequest) (fuel : nat),
    (2 * length rest ≤ fuel)%nat →
    drive env fuel (proceed store rest log) =
    mkState (retry_all env store rest).2 [Finished] (log ++ rest).
Proof.
  induction rest as [| req rest IH]; intros store log fuel Hfuel.
  - unfold proceed. cbn [next_request fst snd retry_all].
    rewrite drive_finished, app_nil_r. reflexivity.
  - destruct fuel as [| [| fuel]]; [cbn in Hfuel; lia | cbn in Hfuel; lia |].
    assert (2 * length rest ≤ fuel)%nat as Hfuel' by (cbn in *; lia).
    assert (2 * length rest ≤ S fuel)%nat as Hfuel'' by lia.
    rewrite retry_all_cons. unfold retry_one.
    unfold proceed at 1. cbn [next_request fst snd].
    rewrite drive_fetch.
    destruct (replay env req) as [response | err]; [destruct (ok response) |];
      cbn [andb].
    + rewrite drive_remove, (IH _ _ fuel Hfuel'), <- app_assoc. reflexivity.
    + rewrite (IH _ _ (S fuel) Hfuel''), <- app_assoc. reflexivity.
    + rewrite (IH _ _ (S fuel) Hfuel''), <- app_assoc. reflexivity.
Qed.

(** A drain that runs on its own makes the calls and leaves the store of
    [retryFailedRequests]. *)
Lemma lone_drain env (store : FailedRequests) (fuel : nat) :
  (2 + 2 * length (getAll store) ≤ fuel)%nat →
  drive env fuel (step (Sync retry_tag) (mkState store [] [])) =
  mkState (retryFailedRequests env store).2 [Finished]
          (retryFailedRequests env store).1.
Proof.
  intros Hfuel. unfold retryFailedRequests.
  destruct fuel as [| [| fuel]]; [lia | lia |].
  change (step (Sync retry_tag) (mkState store [] []))
    with (mkState store [AwaitOpen] []).
  rewrite drive_open.
  destruct (open_ok env); [| rewrite drive_finished; reflexivity].
  rewrite drive_getAll. cbn [andb].
  destruct (getAll_ok env); [| rewrite drive_finished; reflexivity].
  rewrite retry_all_calls.
  apply (drive_proceed env (getAll store) store [] fuel). lia.
Qed.

(** C9 (as the code has it). The [sync] listener keeps no record of a
    drain in progress: every [sync] event tagged [retry-failed-requests]
    starts a drain of its own, whatever the other drains are doing, so the
    number of drains in progress grows by one; an event with another tag
    starts none. *)
Theorem C9_every_sync_starts_a_drain (st : State) :
  let st' := step (Sync retry_tag) st in
  tasks st' = tasks st ++ [AwaitOpen] ∧
  drains_in_progress st' = S (drains_in_progress st) ∧
  store st' = store st ∧ calls st' = calls st ∧
  ∀ tag, tag ≠ retry_tag → step (Sync tag) st = st.
Proof.
  cbn zeta. cbn [step retry_tag String.eqb Ascii.eqb Bool.eqb tasks ServiceWorker.store ServiceWorker.calls].
  repeat split.
  - unfold drains_in_progress. cbn [tasks].
    rewrite filter_app, length_app.
    change (filter (λ t, running t = true) [AwaitOpen]) with [AwaitOpen].
    cbn [length]. lia.
  - intros tag Hne. cbn [step].
    destruct (String.eqb_spec tag "retry-failed-requests") as [-> | _];
      [contradiction | reflexivity].
Qed.

(** C9 as stated fails: a second [sync] event that arrives while the
    first drain waits for the replay of entry 1 is not ignored; it starts a
    second drain, which replays the same entry while the first replay is
    still in flight. *)
Lemma C9_two_drains_overlap :
  let st1 := run [Sync retry_tag; DbDone 0 true; DbDone 0 true]
               (mkState SampleCalls.queue [] []) in
  let st2 := run [Sync retry_tag; DbDone 1 true; DbDone 1 true] st1 in
  drains_in_progress st1 = 1%nat ∧ in_flight 1 st1 = 1%nat ∧
  drains_in_progress st2 = 2%nat ∧ in_flight 1 st2 = 2%nat ∧
  calls st2 = [SampleCalls.queued; SampleCalls.queued].
Proof. vm_compute. repeat split. Qed.

End DrainTasks.

(** ** The dates of a historical request *)

Section Dates.
Import JS Regex Effects Notions.

(** The pattern of [_validateDates] accepts exactly the strings of the
    form [YYYY-MM-DD]. *)
Lemma dateRegex_shape (s : string) :
  test_whole Meteostat.dateRegex s = true ↔ date_shaped s.
Proof.
  unfold test_whole, Meteostat.dateRegex, date_shaped. split.
  - intros H.
    cbn [RRepeat rmatch] in H.
    repeat match type of H with
           | match ?s with EmptyString => false | String _ _ => _ end = true =>
               destruct s; [discriminate H |]
           | (if is_digit ?c then _ else false) = true =>
               destruct (is_digit c) eqn:?; [| discriminate H]
           | (if Ascii.eqb "-" ?c then _ else false) = true =>
               destruct (Ascii.eqb_spec "-" c) as [<- |]; [| discriminate H]
           | _ => progress cbn [rmatch] in H
           end.
    match type of H with
    | String.eqb ?s _ = true => destruct s; [| discriminate H]
    end.
    do 8 eexists. split; [reflexivity |]. repeat constructor; assumption.
  - intros (y1 & y2 & y3 & y4 & m1 & m2 & d1 & d2 & -> & Hd).
    repeat match goal with
           | H : Forall _ (_ :: _) |- _ => apply Forall_cons_1 in H as [? H]
           end.
    cbn [RRepeat rmatch].
    repeat match goal with H : is_digit _ = true |- _ => rewrite H; clear H end.
    reflexivity.
Qed.

Lemma ceil_div_exceeds (span : Z) :
  365 * Meteostat.msPerDay < span →
  (365 <? Meteostat.ceil_div (Z.abs span) Meteostat.msPerDay) = true.
Proof.
  unfold Meteostat.ceil_div, Meteostat.msPerDay. intros H.
  apply Z.ltb_lt. rewrite Z.abs_eq by lia.
  assert ((- span) / (1000 * 60 * 60 * 24) < -365); [| lia].
  apply Z.div_lt_upper_bound; lia.
Qed.

(** [_validateDates] rejects malformed dates, a start after the end, and
    a span of more than 365 days. *)
Lemma validateDates_rejects pf (startDate endDate : string) :
  ¬ date_shaped startDate ∨ ¬ date_shaped endDate
  ∨ starts_after pf startDate endDate
  ∨ span_exceeds_365_days pf startDate endDate →
  valid (Meteostat._validateDates pf (JStr startDate) (JStr endDate)) = false.
Proof.
  intros H. unfold Meteostat._validateDates.
  destruct (Meteostat.missing_string (JStr startDate)); [reflexivity |].
  destruct (Meteostat.missing_string (JStr endDate)); [reflexivity |].
  cbn [to_string Date_new].
  destruct (test_whole Meteostat.dateRegex startDate) eqn:Hs;
    [| reflexivity].
  destruct (test_whole Meteostat.dateRegex endDate) eqn:He;
    [| reflexivity].
  cbn [negb orb].
  apply dateRegex_shape in Hs, He.
  destruct H as [H | [H | [H | H]]]; [contradiction | contradiction | |].
  - destruct H as (start & end_ & -> & -> & Hlt).
    apply Z.ltb_lt in Hlt. rewrite Hlt. reflexivity.
  - destruct H as (start & end_ & -> & -> & Hspan).
    destruct (end_ <? start); [reflexivity |].
    rewrite (ceil_div_exceeds _ Hspan). reflexivity.
Qed.

(** Dates that are rejected end the call before any request is built. *)
Lemma fetchHistorical_rejected_dates env latitude longitude startDate endDate apiKey :
  valid (Meteostat._validateDates (platform env) startDate endDate) = false →
  ∃ msg,
    Meteostat.fetchHistorical env latitude longitude startDate endDate apiKey =
    ([], Normal (Failed (mkFailure msg Meteostat.source))).
Proof.
  intros Hdates. unfold Meteostat.fetchHistorical, Meteostat.fetchHistorical_body.
  destruct (valid (validateCoordinates env latitude longitude)).
  - rewrite Hdates. eexists. reflexivity.
  - eexists. reflexivity.
Qed.

(** C10. For date strings of which one is not of the form [YYYY-MM-DD],
    or of which the start lies after the end, or which span more than 365
    days, [fetchHistorical] resolves to an error result of the provider
    [meteostat], and its trace is empty: no network call is made. *)
Theorem C10_bad_dates_no_network_call
    env latitude longitude (startDate endDate : string) apiKey :
  ¬ date_shaped startDate ∨ ¬ date_shaped endDate
  ∨ starts_after (platform env) startDate endDate
  ∨ span_exceeds_365_days (platform env) startDate endDate →
  ∃ msg,
    Meteostat.fetchHistorical env latitude longitude
      (JStr startDate) (JStr endDate) apiKey =
    ([], Normal (Failed (mkFailure msg "meteostat"))).
Proof.
  intros H. apply fetchHistorical_rejected_dates, validateDates_rejects, H.
Qed.

(** The leap year 2024 spans 366 days. *)
Lemma C10_bad_dates_no_network_call_witness :
  span_exceeds_365_days Sample.platform "2024-01-01" "2025-01-01" ∧
  ∃ msg,
    Meteostat.fetchHistorical (Sample.env []) Sample.berlin_lat Sample.berlin_lon
      (JStr "2024-01-01") (JStr "2025-01-01") JNull =
    ([], Normal (Failed (mkFailure msg "meteostat"))).
Proof.
  assert (span_exceeds_365_days Sample.platform "2024-01-01" "2025-01-01") as Hspan.
  { exists 1704067200000, 1735689600000.
    split; [vm_compute; reflexivity |]. split; [vm_compute; reflexivity |].
    vm_compute. reflexivity. }
  split; [exact Hspan |].
  apply (C10_bad_dates_no_network_call (Sample.env []) Sample.berlin_lat
           Sample.berlin_lon "2024-01-01" "2025-01-01" JNull).
  right. right. right. exact Hspan.
Defined.

(** Dates that pass let the call reach the network: a span of exactly 365
    days is accepted. *)
Example fetchHistorical_accepts_a_year :
  attempts (trace (Meteostat.fetchHistorical (Sample.env []) Sample.berlin_lat
                     Sample.berlin_lon (JStr "2023-01-01") (JStr "2024-01-01") JNull))
  = 3%nat.
Proof. vm_compute. reflexivity. Qed.

End Dates.

(** * Further properties *)

(** ** Searching for a literal *)

Section Substrings.
Import Regex.

Lemma rmatch_RLit_inv (p : string) : ∀ (s : string) (k : string → bool),
  rmatch (RLit p) s k = true → ∃ post, s = String.append p post ∧ k post = true.
Proof.
  induction p as [| c p IH]; intros s k H; simpl in H.
  - exists s. split; [reflexivity | exact H].
  - destruct s as [| c' s]; [discriminate |].
    destruct (Ascii.eqb_spec c c') as [<- |]; [| discriminate].
    destruct (IH s k H) as (post & -> & Hk).
    exists post. split; [reflexivity | exact Hk].
Qed.

Lemma test_inv (r : regex) (s : string) :
  test r s = true →
  ∃ pre rest, s = String.append pre rest ∧ rmatch r rest (λ _, true) = true.
Proof.
  induction s as [| c s IH]; simpl; intros H.
  - rewrite orb_false_r in H. exists EmptyString, EmptyString. split; [reflexivity | exact H].
  - apply orb_true_iff in H as [H | H].
    + exists EmptyString, (String c s). split; [reflexivity | exact H].
    + destruct (IH H) as (pre & rest & -> & Hm).
      exists (String c pre), rest. split; [reflexivity | exact Hm].
Qed.

(** [s.includes(p)] holds exactly when [p] occurs in [s]. *)
Lemma includes_occurs (s p : string) :
  includes s p = true ↔ ∃ pre post, s = String.append pre (String.append p post).
Proof.
  unfold includes. split.
  - intros H. destruct (test_inv _ _ H) as (pre & rest & -> & Hm).
    destruct (rmatch_RLit_inv _ _ _ Hm) as (post & -> & _).
    exists pre, post. reflexivity.
  - intros (pre & post & ->). apply test_skip, test_here, rmatch_RLit.
Qed.

Lemma append_assoc (a b c : string) :
  String.append (String.append a b) c = String.append a (String.append b c).
Proof.
  induction a as [| x a IH]; [reflexivity |].
  change (String x (String.append (String.append a b) c)
          = String x (String.append a (String.append b c))).
  f_equal. exact IH.
Qed.

(** A text that includes [a ++ p ++ b] includes [p]. *)
Lemma includes_part (s a p b : string) :
  includes s (String.append a (String.append p b)) = true → includes s p = true.
Proof.
  intros (pre & post & ->)%includes_occurs. apply includes_occurs.
  exists (String.append pre a), (String.append b post).
  rewrite !append_assoc. reflexivity.
Qed.

End Substrings.

(** ** Weather codes of Visual Crossing *)

Section ConditionCodes.
Import JS Regex Effects MoreNotions.

Lemma heavy_rain_is_rain (cond : string) :
  includes cond "heavy rain" || includes cond "intense rain" = true →
  includes cond "rain" = true.
Proof.
  intros [H | H]%orb_true_iff.
  - apply (includes_part cond "heavy " "rain" EmptyString), H.
  - apply (includes_part cond "intense " "rain" EmptyString), H.
Qed.

Lemma mapWeatherCondition_string pf (s : string) :
  ∃ code, VisualCrossing._mapWeatherCondition pf (JStr s) = Normal code ∧
          In code conditionCodes.
Proof.
  unfold VisualCrossing._mapWeatherCondition, conditionCodes.
  destruct (negb (truthy (JStr s))); [eexists; split; [reflexivity | cbn; tauto] |].
  repeat match goal with
         | |- ∃ code, (if ?b then _ else _) = _ ∧ _ => destruct b eqn:?
         end;
    try (eexists; split; [reflexivity | cbn; tauto]).
  exfalso.
  match goal with
  | Hh : _ || _ = true, Hr : includes _ "rain" = false |- _ =>
      rewrite (heavy_rain_is_rain _ Hh) in Hr; discriminate Hr
  end.
Qed.

(** X1. For every text of conditions, [_mapWeatherCondition] returns one
    of the codes 0, 2, 3, 45, 51, 63, 71 and 95, and for no value at all
    does it return 65: a text with "heavy rain" or "intense rain" also
    contains "rain", which is tested first and gives 63. *)
Theorem X1_condition_codes pf :
  (∀ s : string,
     ∃ code, VisualCrossing._mapWeatherCondition pf (JStr s) = Normal code ∧
             In code conditionCodes) ∧
  (∀ conditions : JsVal,
     VisualCrossing._mapWeatherCondition pf conditions ≠ Normal 65).
Proof.
  split; [apply mapWeatherCondition_string |].
  intros conditions H.
  destruct conditions as [| | b | q | | s | items | fields];
    try (unfold VisualCrossing._mapWeatherCondition in H; cbn [truthy negb] in H;
         repeat match type of H with
                | (if ?b then _ else _) = _ => destruct b
                end; discriminate H).
  destruct (mapWeatherCondition_string pf s) as (code & Hcode & Hin).
  rewrite Hcode in H. injection H as ->.
  unfold conditionCodes in Hin. cbn in Hin.
  repeat destruct Hin as [Hin | Hin]; try discriminate Hin. exact Hin.
Qed.

End ConditionCodes.

(** ** The budget of the retry loop *)

Section RetryBudget.
Import JS Effects Notions MoreNotions.


(** The loop hands on a payload only if the validator accepted it. *)
Lemma retry_loop_validated env req validate isClientError data :
  result (retry_loop env req validate isClientError) = Normal data →
  valid (validate data) = true.
Proof.
  assert (∀ r, attempt_body validate r = Normal data → valid (validate data) = true)
    as Hbody.
  { intros [e | e | d]; cbn; try discriminate.
    destruct (valid (validate d)) eqn:Hv; cbn; [| discriminate].
    intros [= <-]. exact Hv. }
  unfold retry_loop, maxAttempts.
  rewrite retry_from_S. cbn [Nat.sub maxAttempts Nat.add Nat.leb].
  destruct (attempt_body validate (safeApiFetch env 0)) as [d0 | e0] eqn:H0;
    [intros [= <-]; apply (Hbody _ H0) |].
  rewrite orb_false_r.
  destruct (isClientError (guarded_message e0)); [discriminate |].
  rewrite retry_from_S. cbn [Nat.sub maxAttempts Nat.add Nat.leb result snd].
  destruct (attempt_body validate (safeApiFetch env 1)) as [d1 | e1] eqn:H1;
    [intros [= <-]; apply (Hbody _ H1) |].
  rewrite orb_false_r.
  destruct (isClientError (guarded_message e1)); [discriminate |].
  rewrite retry_from_S. cbn [Nat.sub maxAttempts Nat.add Nat.leb result snd].
  destruct (attempt_body validate (safeApiFetch env 2)) as [d2 | e2] eqn:H2;
    [intros [= <-]; apply (Hbody _ H2) |].
  rewrite orb_true_r. discriminate.
Qed.

(** A success at attempt [k + 1] after [k] transient failures. *)
Lemma retry_loop_success_at env req validate isClientError (k : nat) (data : JsVal) :
  (k < maxAttempts)%nat →
  (∀ j, (j < k)%nat →
        fails_transiently validate isClientError (safeApiFetch env j)) →
  attempt_body validate (safeApiFetch env k) = Normal data →
  retry_loop env req validate isClientError = (attempts_trace req k, Normal data).
Proof.
  unfold maxAttempts. intros Hk Hbefore Hok. unfold retry_loop, maxAttempts.
  destruct k as [| [| [| k]]]; [| | | lia].
  - rewrite retry_from_S. cbn [Nat.sub maxAttempts]. rewrite Hok. reflexivity.
  - destruct (Hbefore 0%nat ltac:(lia)) as (e0 & H0 & T0). unfold attempt_fails in H0.
    rewrite !retry_from_S. cbn [Nat.sub maxAttempts Nat.add Nat.leb].
    rewrite H0. cbn [guarded_message]. rewrite T0, Hok. reflexivity.
  - destruct (Hbefore 0%nat ltac:(lia)) as (e0 & H0 & T0). unfold attempt_fails in H0.
    destruct (Hbefore 1%nat ltac:(lia)) as (e1 & H1 & T1). unfold attempt_fails in H1.
    rewrite !retry_from_S. cbn [Nat.sub maxAttempts Nat.add Nat.leb].
    rewrite H0, H1. cbn [guarded_message]. rewrite T0, T1, Hok. reflexivity.
Qed.



Lemma attempts_trace_count req (k : nat) :
  (k < maxAttempts)%nat →
  attempts (attempts_trace req k) = S k ∧ waits (attempts_trace req k) = take k backoff.
Proof.
  unfold maxAttempts. intros Hk.
  destruct k as [| [| [| k]]]; [| | | lia]; split; reflexivity.
Qed.


(** X3. When the first [k] attempts of a call fail with transient errors,
    attempt [k + 1] (the first, second or third) brings a payload that
    passes the validation, and the formatter returns for that payload,
    [fetchWeather] and [fetchHistorical] make exactly these [k + 1]
    attempts, separated by the first [k] back-off waits, and resolve to the
    data the formatter returned. *)
Theorem X3_success_after_transient_failures :
  (∀ env latitude longitude apiKey units req k data formatted,
     VisualCrossing_request env latitude longitude apiKey units = Some req →
     (k < maxAttempts)%nat →
     (∀ j, (j < k)%nat →
        fails_transiently (VisualCrossing._validateResponse (platform env))
          VisualCrossing.isClientError (safeApiFetch env j)) →
     safeApiFetch env k = Body data →
     valid (VisualCrossing._validateResponse (platform env) data) = true →
     VisualCrossing._formatWeatherData (platform env) (Date_now env 2) data
     = Normal formatted →
     VisualCrossing.fetchWeather env latitude longitude apiKey units =
     (attempts_trace req k, Normal (Success (weather_result env formatted))))
  ∧
  (∀ env latitude longitude startDate endDate apiKey req k data formatted,
     Meteostat_request env latitude longitude startDate endDate apiKey = Some req →
     (k < maxAttempts)%nat →
     (∀ j, (j < k)%nat →
        fails_transiently (Meteostat._validateResponse (platform env))
          Meteostat.isClientError (safeApiFetch env j)) →
     safeApiFetch env k = Body data →
     valid (Meteostat._validateResponse (platform env) data) = true →
     Meteostat._formatHistoricalData (platform env) data = Normal formatted →
     Meteostat.fetchHistorical env latitude longitude startDate endDate apiKey =
     (attempts_trace req k, Normal (Success (historical_result env formatted)))).
Proof.
  assert (∀ validate r data, r = Body data → valid (validate data) = true →
            attempt_body validate r = Normal data) as Hbody.
  { intros validate r data -> Hv. cbn. rewrite Hv. reflexivity. }
  split.
  - intros env latitude longitude apiKey units req k data formatted Hreq Hk Hbefore
      Hreply Hvalid Hformat.
    rewrite (fetchWeather_accepted _ _ _ _ _ _ Hreq). cbn zeta.
    rewrite (retry_loop_success_at env req _ _ k data Hk Hbefore
               (Hbody _ _ _ Hreply Hvalid)).
    cbn [trace result fst snd]. rewrite Hformat. reflexivity.
  - intros env latitude longitude startDate endDate apiKey req k data formatted Hreq Hk
      Hbefore Hreply Hvalid Hformat.
    rewrite (fetchHistorical_accepted _ _ _ _ _ _ _ Hreq). cbn zeta.
    rewrite (retry_loop_success_at env req _ _ k data Hk Hbefore
               (Hbody _ _ _ Hreply Hvalid)).
    cbn [trace result fst snd]. rewrite Hformat. reflexivity.
Qed.

(** Two aborted attempts and then a good reply: three attempts, both
    waits, and the temperature of the payload in the result. *)
Lemma X3_success_after_transient_failures_witness :
  let env := Sample.env [MoreSamples.aborted; MoreSamples.aborted;
                         Body SampleCalls.weather_payload_us] in
  ∃ w,
    VisualCrossing.fetchWeather env Sample.berlin_lat Sample.berlin_lon
      (JStr "demo") (JStr "us") =
    (attempts_trace SampleCalls.weather_request_us 2, Normal (Success w)) ∧
    VisualCrossing.temp (VisualCrossing.current w) = JNum 68.
Proof.
  intros env.
  destruct (VisualCrossing._formatWeatherData (platform env) (Date_now env 2)
              SampleCalls.weather_payload_us) as [formatted | e] eqn:Hformat;
    [| vm_compute in Hformat; discriminate Hformat].
  exists (weather_result env formatted). split.
  - apply (proj1 X3_success_after_transient_failures env Sample.berlin_lat
             Sample.berlin_lon (JStr "demo") (JStr "us")
             SampleCalls.weather_request_us 2%nat SampleCalls.weather_payload_us
             formatted).
    + vm_compute. reflexivity.
    + unfold maxAttempts. lia.
    + intros j Hj. exists (mkError "AbortError" "The operation was aborted").
      split; [| vm_compute; reflexivity].
      destruct j as [| [| j]]; [reflexivity | reflexivity | lia].
    + reflexivity.
    + vm_compute. reflexivity.
    + exact Hformat.
  - vm_compute in Hformat. injection Hformat as <-. reflexivity.
Defined.

End RetryBudget.

(** ** Formatting of the payloads *)

Section Formatting.
Import JS Regex Effects Notions MoreNotions.

Lemma get_Normal pf v k x : get pf v k = Normal x → x = prop v k.
Proof. destruct v; cbn; congruence. Qed.

Lemma mapC_Forall2 {A B} (f : A → Completion B) (l : list A) : ∀ l',
  mapC f l = Normal l' → Forall2 (λ x y, f x = Normal y) l l'.
Proof.
  induction l as [| x l IH]; intros l' H; cbn in H.
  - injection H as <-. constructor.
  - destruct (f x) as [y | e] eqn:Hx; cbn in H; [| discriminate].
    destruct (mapC f l) as [rest | e]; cbn in H; [| discriminate].
    injection H as <-. constructor; [exact Hx | apply IH; reflexivity].
Qed.

Lemma mapC_length {A B} (f : A → Completion B) (l : list A) l' :
  mapC f l = Normal l' → length l' = length l.
Proof. intros H%mapC_Forall2. symmetry. eapply Forall2_length, H. Qed.

Lemma filterM_length {A} (f : A → Completion bool) (l : list A) : ∀ l',
  filterM f l = Normal l' → (length l' ≤ length l)%nat.
Proof.
  induction l as [| x l IH]; intros l' H; cbn in H.
  - injection H as <-. cbn. lia.
  - destruct (f x) as [b | e]; cbn in H; [| discriminate].
    destruct (filterM f l) as [rest | e]; cbn in H; [| discriminate].
    injection H as <-. specialize (IH rest eq_refl).
    destruct b; cbn; lia.
Qed.

Lemma format_day_date pf day formatted :
  VisualCrossing.format_day pf day = Normal formatted →
  VisualCrossing.date formatted = prop day "datetime".
Proof.
  unfold VisualCrossing.format_day. intros H.
  destruct (get pf day "datetime") as [d | e] eqn:Hd; cbn in H; [| discriminate].
  destruct (VisualCrossing._mapWeatherCondition _ _); cbn in H; [| discriminate].
  injection H as <-. cbn. apply (get_Normal _ _ _ _ Hd).
Qed.

Lemma format_days_dates pf (days : list JsVal) formatted :
  mapC (VisualCrossing.format_day pf) days = Normal formatted →
  VisualCrossing.date <$> formatted = (λ day, prop day "datetime") <$> days.
Proof.
  intros H%mapC_Forall2. induction H as [| day f days fs Hday _ IH]; [reflexivity |].
  cbn. rewrite (format_day_date _ _ _ Hday), IH. reflexivity.
Qed.

(** X4. When [_formatWeatherData] succeeds, the payload has an array
    [days]; the forecast consists of the second to the eighth day of it, in
    order (so it has at most seven days and never the first), and the
    historical list has no more entries than there are days. *)
Theorem X4_forecast_is_days_two_to_eight pf today data formatted :
  VisualCrossing._formatWeatherData pf today data = Normal formatted →
  ∃ days,
    prop data "days" = JArr days ∧
    VisualCrossing.date <$> VisualCrossing.fmt_forecast formatted
    = (λ day, prop day "datetime") <$> take 7 (drop 1 days) ∧
    (length (VisualCrossing.fmt_forecast formatted) ≤ 7)%nat ∧
    (length (VisualCrossing.fmt_historical formatted) ≤ length days)%nat.
Proof.
  unfold VisualCrossing._formatWeatherData. intros H.
  destruct (get pf data "resolvedUnit"); cbn [mbind Completion_bind] in H;
    [| discriminate].
  destruct (get pf (prop data "currentConditions") "temp");
    cbn [mbind Completion_bind] in H; [| discriminate].
  destruct (VisualCrossing._mapWeatherCondition _ _);
    cbn [mbind Completion_bind] in H; [| discriminate].
  destruct (prop data "days") as [| | | | | | days |];
    cbn [mbind Completion_bind] in H; try discriminate.
  destruct (filterM _ days) as [recent | e] eqn:Hrecent;
    cbn [mbind Completion_bind] in H; [| discriminate].
  destruct (mapC _ (rev recent)) as [historical | e] eqn:Hhist;
    cbn [mbind Completion_bind] in H; [| discriminate].
  destruct (mapC _ (VisualCrossing.slice_1_8 days)) as [forecast | e] eqn:Hfore;
    cbn [mbind Completion_bind] in H; [| discriminate].
  injection H as <-. cbn [VisualCrossing.fmt_forecast VisualCrossing.fmt_historical].
  exists days. split; [reflexivity |]. split; [| split].
  - apply (format_days_dates _ _ _ Hfore).
  - rewrite (mapC_length _ _ _ Hfore). unfold VisualCrossing.slice_1_8.
    rewrite length_take. lia.
  - rewrite (mapC_length _ _ _ Hhist), length_rev.
    apply (filterM_length _ _ _ Hrecent).
Qed.

(** A payload with nine days: the forecast has the second to the eighth,
    and neither the first nor the ninth. *)
Lemma X4_forecast_is_days_two_to_eight_witness :
  ∃ formatted,
    VisualCrossing._formatWeatherData Sample.platform 1700000002000
      MoreSamples.nine_days_payload = Normal formatted ∧
    VisualCrossing.date <$> VisualCrossing.fmt_forecast formatted
    = [JStr "2023-11-15"; JStr "2023-11-16"; JStr "2023-11-17"; JStr "2023-11-18";
       JStr "2023-11-19"; JStr "2023-11-20"; JStr "2023-11-21"] ∧
    VisualCrossing.temp_max <$> VisualCrossing.fmt_forecast formatted
    = [JNum 9; JNum 10; JNum 11; JNum 12; JNum 13; JNum 14; JNum 15].
Proof.
  destruct (VisualCrossing._formatWeatherData Sample.platform 1700000002000
              MoreSamples.nine_days_payload) as [formatted | e] eqn:H;
    [| vm_compute in H; discriminate H].
  exists formatted. split; [reflexivity |].
  destruct (X4_forecast_is_days_two_to_eight _ _ _ _ H) as (days & Hdays & Hf & _ & _).
  vm_compute in Hdays. injection Hdays as <-.
  split; [exact Hf |].
  vm_compute in H. injection H as <-. reflexivity.
Defined.

(** X5. A call of [fetchWeather] without a usable API key ([null],
    [undefined], not a string, empty or only white space) resolves to the
    failure that asks for the key, whatever the coordinates are, and calls
    neither the network nor the clock. *)
Theorem X5_fetchWeather_needs_a_key env latitude longitude apiKey units :
  key_missing (platform env) apiKey →
  VisualCrossing.fetchWeather env latitude longitude apiKey units =
  ([], Normal (Failed (mkFailure "Visual Crossing API key erforderlich"
                         "visualcrossing"))).
Proof.
  intros Hkey. unfold VisualCrossing.fetchWeather, VisualCrossing.fetchWeather_body.
  assert (is_nonblank_string (platform env) apiKey = false) as ->; [| reflexivity].
  unfold is_nonblank_string, key_missing in *.
  destruct apiKey; try apply andb_false_r.
  rewrite Hkey. apply andb_false_r.
Qed.

Lemma X5_fetchWeather_needs_a_key_witness :
  VisualCrossing.fetchWeather (Sample.env []) (JStr "north") JNull (JStr "   ") JUndefined =
  ([], Normal (Failed (mkFailure "Visual Crossing API key erforderlich"
                         "visualcrossing"))).
Proof.
  apply (X5_fetchWeather_needs_a_key (Sample.env []) (JStr "north") JNull
           (JStr "   ") JUndefined).
  vm_compute. reflexivity.
Defined.




End Formatting.

(** ** Historical data of Meteostat *)

Section Historical.
Import JS Regex Effects Notions MoreNotions.

(** The payload the loop hands on is the reply to one of its attempts,
    and the validator accepted it. *)
Lemma retry_loop_reply env req validate isClientError data :
  result (retry_loop env req validate isClientError) = Normal data →
  ∃ k, (k < maxAttempts)%nat ∧
       safeApiFetch env k = Body data ∧
       valid (validate data) = true ∧
       trace (retry_loop env req validate isClientError) = attempts_trace req k.
Proof.
  assert (∀ r, attempt_body validate r = Normal data →
               r = Body data ∧ valid (validate data) = true) as Hbody.
  { intros [e | e | d]; cbn; try discriminate.
    destruct (valid (validate d)) eqn:Hv; cbn; [| discriminate].
    intros [= <-]. split; [reflexivity | exact Hv]. }
  unfold retry_loop, maxAttempts.
  rewrite retry_from_S. cbn [Nat.sub maxAttempts Nat.add Nat.leb].
  destruct (attempt_body validate (safeApiFetch env 0)) as [d0 | e0] eqn:H0.
  { intros [= <-]. destruct (Hbody _ H0) as [Hr Hv]. exists 0%nat. auto with lia. }
  rewrite orb_false_r.
  destruct (isClientError (guarded_message e0)); [discriminate |].
  rewrite retry_from_S. cbn [Nat.sub maxAttempts Nat.add Nat.leb result trace fst snd].
  destruct (attempt_body validate (safeApiFetch env 1)) as [d1 | e1] eqn:H1.
  { intros [= <-]. destruct (Hbody _ H1) as [Hr Hv]. exists 1%nat. auto with lia. }
  rewrite orb_false_r.
  destruct (isClientError (guarded_message e1)); [discriminate |].
  rewrite retry_from_S. cbn [Nat.sub maxAttempts Nat.add Nat.leb result trace fst snd].
  destruct (attempt_body validate (safeApiFetch env 2)) as [d2 | e2] eqn:H2.
  { intros [= <-]. destruct (Hbody _ H2) as [Hr Hv]. exists 2%nat. auto with lia. }
  rewrite orb_true_r. discriminate.
Qed.

(** A successful call went through the retry loop and the formatter. *)
Lemma fetchHistorical_success env latitude longitude startDate endDate apiKey h :
  result (Meteostat.fetchHistorical env latitude longitude startDate endDate apiKey)
  = Normal (Success h) →
  ∃ req data formatted,
    Meteostat_request env latitude longitude startDate endDate apiKey = Some req ∧
    result (retry_loop env req (Meteostat._validateResponse (platform env))
              Meteostat.isClientError) = Normal data ∧
    trace (Meteostat.fetchHistorical env latitude longitude startDate endDate apiKey)
    = trace (retry_loop env req (Meteostat._validateResponse (platform env))
               Meteostat.isClientError) ∧
    Meteostat._formatHistoricalData (platform env) data = Normal formatted ∧
    h = historical_result env formatted.
Proof.
  destruct (Meteostat_request env latitude longitude startDate endDate apiKey)
    as [req |] eqn:Hreq.
  - rewrite (fetchHistorical_accepted _ _ _ _ _ _ _ Hreq). cbn zeta.
    cbn [result trace fst snd].
    intros H. exists req.
    destruct (retry_loop env req _ _) as [t [data | e]]; cbn [result trace fst snd] in *.
    + destruct (Meteostat._formatHistoricalData (platform env) data)
        as [formatted | e] eqn:Hf.
      * injection H as <-. exists data, formatted. auto.
      * destruct e; discriminate H.
    + destruct e; discriminate H.
  - unfold Meteostat_request in Hreq.
    unfold Meteostat.fetchHistorical, Meteostat.fetchHistorical_body.
    destruct (valid (validateCoordinates env latitude longitude)); [| discriminate].
    destruct (valid (Meteostat._validateDates _ _ _)); [| discriminate].
    cbn [andb negb] in *.
    destruct (Meteostat.build_request _ _ _ _ _ _) as [req | e]; [discriminate |].
    destruct e; discriminate.
Qed.

(** A payload that passed [_validateResponse] has a non-empty array [data]. *)
Lemma validated_rows pf data :
  valid (Meteostat._validateResponse pf data) = true →
  truthy data = true ∧ ∃ rows, prop data "data" = JArr rows ∧ rows ≠ [].
Proof.
  unfold Meteostat._validateResponse.
  destruct (truthy data); cbn [negb]; [| discriminate].
  destruct (truthy (prop data "error")); [discriminate |].
  destruct (prop data "data") as [| | | | | | rows |]; try discriminate.
  destruct rows; [discriminate |]. intros _. split; [reflexivity |].
  eexists. split; [reflexivity | discriminate].
Qed.

Lemma formatHistoricalData_rows pf data rows formatted :
  prop data "data" = JArr rows →
  Meteostat._formatHistoricalData pf data = Normal formatted →
  mapC (Meteostat.format_day pf) rows = Normal (Meteostat.fmt_daily formatted).
Proof.
  unfold Meteostat._formatHistoricalData. intros Hrows H.
  destruct (get pf data "data") as [r | e] eqn:Hget; cbn [mbind Completion_bind] in H;
    [| discriminate].
  apply get_Normal in Hget. rewrite Hrows in Hget. subst r.
  cbn [js_or truthy mbind Completion_bind] in H.
  destruct (mapC (Meteostat.format_day pf) rows); cbn [mbind Completion_bind] in H;
    [| discriminate].
  injection H as <-. reflexivity.
Qed.

(** X7. A call of [fetchHistorical] that resolves to data received its
    payload from the network: one of its at most three attempts, the last
    one it made, was answered with a payload that passes
    [_validateResponse], and its [daily] list has one entry for each row of
    that payload, in order, so at least one; the result is marked as coming
    from [meteostat] and not from a cache. *)
Theorem X7_historical_success_has_a_day_per_row
    env latitude longitude startDate endDate apiKey h :
  result (Meteostat.fetchHistorical env latitude longitude startDate endDate apiKey)
  = Normal (Success h) →
  ∃ k data rows,
    (k < maxAttempts)%nat ∧
    safeApiFetch env k = Body data ∧
    attempts (trace (Meteostat.fetchHistorical env latitude longitude
                       startDate endDate apiKey)) = S k ∧
    valid (Meteostat._validateResponse (platform env) data) = true ∧
    prop data "data" = JArr rows ∧
    Forall2 (λ row day, Meteostat.format_day (platform env) row = Normal day)
      rows (Meteostat.daily h) ∧
    Meteostat.daily h ≠ [] ∧
    Meteostat.h_source h = "meteostat" ∧ Meteostat.fromCache h = false.
Proof.
  intros (req & data & f & _ & Hloop & Htrace & Hf & ->)%fetchHistorical_success.
  destruct (retry_loop_reply _ _ _ _ _ Hloop) as (k & Hk & Hreply & Hvalid & Hk_trace).
  destruct (validated_rows _ _ Hvalid) as (_ & rows & Hrows & Hne).
  cbn [historical_result Meteostat.daily Meteostat.h_source Meteostat.fromCache].
  pose proof (formatHistoricalData_rows _ _ _ _ Hrows Hf) as Hmap.
  exists k, data, rows. rewrite Htrace, Hk_trace.
  repeat split; try assumption.
  - apply (attempts_trace_count req k Hk).
  - apply mapC_Forall2, Hmap.
  - apply mapC_length in Hmap. destruct (Meteostat.fmt_daily f); [| discriminate].
    destruct rows; [contradiction | discriminate Hmap].
Qed.

(** A sample call that is answered at the second attempt. *)
Lemma X7_historical_success_has_a_day_per_row_witness :
  ∃ h,
    result (Meteostat.fetchHistorical
              (Sample.env [MoreSamples.aborted; Body MoreSamples.historical_payload])
              Sample.berlin_lat Sample.berlin_lon
              (JStr "2024-01-01") (JStr "2024-01-02") JNull)
    = Normal (Success h) ∧
    length (Meteostat.daily h) = 2%nat.
Proof.
  destruct (result (Meteostat.fetchHistorical
                      (Sample.env [MoreSamples.aborted;
                                   Body MoreSamples.historical_payload])
                      Sample.berlin_lat Sample.berlin_lon
                      (JStr "2024-01-01") (JStr "2024-01-02") JNull))
    as [[h | f] | e] eqn:H; try (vm_compute in H; discriminate H).
  exists h. split; [reflexivity |].
  destruct (X7_historical_success_has_a_day_per_row _ _ _ _ _ _ _ H)
    as (k & data & rows & _ & Hreply & _ & _ & Hrows & Hdays & _).
  destruct k as [| [| k]]; [discriminate Hreply | | ].
  - injection Hreply as <-. vm_compute in Hrows. injection Hrows as <-.
    apply Forall2_length in Hdays. symmetry. exact Hdays.
  - destruct k; discriminate Hreply.
Defined.

Lemma ceil_div_within (span : Z) :
  0 ≤ span → span ≤ 365 * Meteostat.msPerDay →
  (365 <? Meteostat.ceil_div (Z.abs span) Meteostat.msPerDay) = false.
Proof.
  unfold Meteostat.ceil_div, Meteostat.msPerDay. intros H0 H.
  apply Z.ltb_ge. rewrite Z.abs_eq by lia.
  assert (-365 ≤ (- span) / (1000 * 60 * 60 * 24)); [| lia].
  apply Z.div_le_lower_bound; lia.
Qed.

(** X8. [_validateDates] accepts two strings exactly when both have the
    form [YYYY-MM-DD], both are dates for the host, the start is not after
    the end, and the end is at most 365 days after the start. *)
Theorem X8_validateDates_accepts_exactly pf (startDate endDate : string) :
  valid (Meteostat._validateDates pf (JStr startDate) (JStr endDate)) = true ↔
  date_shaped startDate ∧ date_shaped endDate ∧
  ∃ start end_,
    Date_parse pf startDate = Some start ∧ Date_parse pf endDate = Some end_ ∧
    start ≤ end_ ∧ end_ - start ≤ 365 * Meteostat.msPerDay.
Proof.
  split.
  - intros H.
    destruct (test_whole Meteostat.dateRegex startDate) eqn:Hs.
    2:{ unfold Meteostat._validateDates in H.
        destruct (Meteostat.missing_string (JStr startDate)); [discriminate H |].
        destruct (Meteostat.missing_string (JStr endDate)); [discriminate H |].
        cbn [to_string] in H. rewrite Hs in H. cbn [negb orb] in H. discriminate H. }
    destruct (test_whole Meteostat.dateRegex endDate) eqn:He.
    2:{ unfold Meteostat._validateDates in H.
        destruct (Meteostat.missing_string (JStr startDate)); [discriminate H |].
        destruct (Meteostat.missing_string (JStr endDate)); [discriminate H |].
        cbn [to_string] in H. rewrite Hs, He in H. cbn [negb orb] in H.
        discriminate H. }
    split; [apply dateRegex_shape, Hs |]. split; [apply dateRegex_shape, He |].
    unfold Meteostat._validateDates in H.
    destruct (Meteostat.missing_string (JStr startDate)); [discriminate H |].
    destruct (Meteostat.missing_string (JStr endDate)); [discriminate H |].
    cbn [to_string Date_new] in H. rewrite Hs, He in H. cbn [negb orb] in H.
    destruct (Date_parse pf startDate) as [start |]; [| discriminate H].
    destruct (Date_parse pf endDate) as [end_ |]; [| discriminate H].
    exists start, end_. split; [reflexivity |]. split; [reflexivity |].
    destruct (Z.ltb_spec end_ start) as [| Hle]; [discriminate H |].
    split; [exact Hle |].
    destruct (Z_lt_le_dec (365 * Meteostat.msPerDay) (end_ - start)) as [Hlong | Hok];
      [| exact Hok].
    rewrite (ceil_div_exceeds _ Hlong) in H. discriminate H.
  - intros (Hs & He & start & end_ & Hps & Hpe & Hle & Hspan).
    unfold Meteostat._validateDates.
    assert (Meteostat.missing_string (JStr startDate) = false) as ->.
    { destruct Hs as (? & ? & ? & ? & ? & ? & ? & ? & -> & _). reflexivity. }
    assert (Meteostat.missing_string (JStr endDate) = false) as ->.
    { destruct He as (? & ? & ? & ? & ? & ? & ? & ? & -> & _). reflexivity. }
    cbn [to_string Date_new].
    apply dateRegex_shape in Hs, He. rewrite Hs, He, Hps, Hpe. cbn [negb orb].
    destruct (Z.ltb_spec end_ start) as [Hlt | _]; [lia |].
    rewrite ceil_div_within by lia. reflexivity.
Qed.

End Historical.

(** ** From the rows of Meteostat to their display *)

Section HistoricalDisplay.
Import JS Regex Effects Notions MoreNotions MeteostatDisplay.

Lemma show_number_or_null pf v digits suffix :
  number_or_null v = true →
  show pf v digits suffix = Normal (rendered pf v digits suffix).
Proof. destruct v; try discriminate; reflexivity. Qed.

(** A day whose readings are numbers or [null] is displayed. *)
Lemma display_day_total pf (d : Meteostat.Day) :
  number_or_null (Meteostat.temp_min d) = true →
  number_or_null (Meteostat.temp_max d) = true →
  number_or_null (Meteostat.temp_avg d) = true →
  number_or_null (Meteostat.precipitation d) = true →
  number_or_null (Meteostat.wind_speed d) = true →
  number_or_null (Meteostat.pressure d) = true →
  display_day pf d =
  Normal {|
    date := Meteostat.date d;
    temp_min := rendered pf (Meteostat.temp_min d) 1 "°";
    temp_max := rendered pf (Meteostat.temp_max d) 1 "°";
    temp_avg := rendered pf (Meteostat.temp_avg d) 1 "°";
    precipitation := rendered pf (Meteostat.precipitation d) 1 " mm";
    wind_speed := rendered pf (Meteostat.wind_speed d) 1 " m/s";
    pressure := rendered pf (Meteostat.pressure d) 0 " hPa";
    code := Meteostat.weather_code d;
  |}.
Proof.
  intros H1 H2 H3 H4 H5 H6. unfold display_day.
  rewrite !show_number_or_null by assumption. reflexivity.
Qed.

(** A well-formed row is formatted and displayed without an exception. *)
Lemma well_formed_row_displayed pf row :
  well_formed_row row = true →
  ∃ day shown,
    Meteostat.format_day pf row = Normal day ∧
    display_day pf day = Normal shown ∧
    (prop row "tmin" = JNull → temp_min shown = "N/A") ∧
    (prop row "wspd" = JNull → wind_speed shown = "N/A") ∧
    (prop row "prcp" = JNull →
       precipitation shown = String.append (Number_toFixed pf 0 1) " mm").
Proof.
  destruct row as [| | | | | | | fields]; try discriminate.
  unfold well_formed_row, readings. cbn [forallb].
  intros H. repeat (apply andb_true_iff in H as [? H]).
  assert (∀ v, number_or_null v = true → number_or_null (Meteostat.keep v) = true)
    as Hkeep by (intros [| | | | | | |]; try discriminate; reflexivity).
  eexists. eexists. split; [reflexivity |]. split.
  - apply display_day_total;
      cbn [Meteostat.temp_min Meteostat.temp_max Meteostat.temp_avg
           Meteostat.precipitation Meteostat.wind_speed Meteostat.pressure prop];
      try (apply Hkeep; assumption).
    + destruct (assoc "prcp" fields); try discriminate; reflexivity.
    + destruct (assoc "wspd" fields); try discriminate; reflexivity.
  - cbn [temp_min wind_speed precipitation Meteostat.temp_min Meteostat.wind_speed
         Meteostat.precipitation prop].
    repeat split; intros ->; reflexivity.
Qed.

Lemma well_formed_rows_displayed pf (rows : list JsVal) :
  Forall (λ row, well_formed_row row = true) rows →
  ∃ days shown,
    mapC (Meteostat.format_day pf) rows = Normal days ∧
    mapC (display_day pf) days = Normal shown ∧
    Forall2 (λ row s,
               (prop row "tmin" = JNull → temp_min s = "N/A") ∧
               (prop row "wspd" = JNull → wind_speed s = "N/A") ∧
               (prop row "prcp" = JNull →
                  precipitation s = String.append (Number_toFixed pf 0 1) " mm"))
      rows shown.
Proof.
  induction 1 as [| row rows Hrow _ (days & shown & Hd & Hs & Hall)].
  - exists [], []. repeat split. constructor.
  - destruct (well_formed_row_displayed pf row Hrow) as (day & s & Hday & Hshow & Hprops).
    exists (day :: days), (s :: shown). cbn [mapC].
    rewrite Hday, Hshow. cbn [mbind Completion_bind]. rewrite Hd, Hs.
    repeat split. constructor; assumption.
Qed.

(** X9. For a payload of Meteostat whose rows are objects with readings
    that are numbers or [null], the data [fetchHistorical] resolves to can
    be given to [formatForDisplay] without an exception: there is one
    displayed day per row, a [null] temperature or wind speed is shown as
    ["N/A"], and a [null] precipitation is shown as zero millimetres. *)
Theorem X9_well_formed_rows_are_displayed env data (rows : list JsVal) :
  prop data "data" = JArr rows →
  Forall (λ row, well_formed_row row = true) rows →
  ∃ h shown,
    historical_of env data = Normal (Success h) ∧
    formatForDisplay (platform env) (Some (Success h)) = Normal (Some (mkDisplay shown)) ∧
    Forall2 (λ row s,
               (prop row "tmin" = JNull → temp_min s = "N/A") ∧
               (prop row "wspd" = JNull → wind_speed s = "N/A") ∧
               (prop row "prcp" = JNull →
                  precipitation s
                  = String.append (Number_toFixed (platform env) 0 1) " mm"))
      rows shown.
Proof.
  intros Hrows Hall.
  destruct (well_formed_rows_displayed (platform env) rows Hall)
    as (days & shown & Hd & Hs & Hprops).
  unfold historical_of, Meteostat._formatHistoricalData.
  assert (get (platform env) data "data" = Normal (JArr rows)) as ->.
  { destruct data; try discriminate Hrows; cbn; rewrite <- Hrows; reflexivity. }
  cbn [mbind Completion_bind js_or truthy]. rewrite Hd. cbn [mbind Completion_bind].
  eexists. exists shown. split; [reflexivity |]. split; [| exact Hprops].
  cbn [formatForDisplay historical_result Meteostat.daily Meteostat.fmt_daily].
  rewrite Hs. reflexivity.
Qed.

(** The sample payload: the second row has no reading but temperatures. *)
Lemma X9_well_formed_rows_are_displayed_witness :
  ∃ h shown,
    historical_of (Sample.env []) MoreSamples.historical_payload = Normal (Success h) ∧
    formatForDisplay Sample.platform (Some (Success h)) = Normal (Some (mkDisplay shown)) ∧
    (wind_speed <$> shown) = ["5.0 m/s"; "N/A"] ∧
    (precipitation <$> shown) = ["1.2 mm"; "0.0 mm"].
Proof.
  destruct (X9_well_formed_rows_are_displayed (Sample.env [])
              MoreSamples.historical_payload
              [JObj [("date", JStr "2024-01-01"); ("tavg", JNum 3); ("tmin", JNum 1);
                     ("tmax", JNum 5); ("prcp", JNum (12 # 10)); ("wspd", JNum 18);
                     ("wdir", JNum 270); ("pres", JNum 1013)];
               JObj [("date", JStr "2024-01-02"); ("tavg", JNum 2); ("tmin", JNull);
                     ("tmax", JNum 4); ("prcp", JNull); ("wspd", JNull);
                     ("wdir", JNull); ("pres", JNull)]])
    as (h & shown & Hh & Hshown & _).
  - reflexivity.
  - repeat constructor.
  - exists h, shown. split; [exact Hh |]. split; [exact Hshown |].
    vm_compute in Hh. injection Hh as <-.
    vm_compute in Hshown. injection Hshown as <-. split; reflexivity.
Defined.

(** X10. A row that lacks the reading [tmin] (the key is absent, not
    [null]) is formatted to a day whose [temp_min] is [undefined], and a
    result that starts with such a day makes [formatForDisplay] throw a
    TypeError instead of showing ["N/A"]; a row that lacks [wspd] gets the
    wind speed NaN. *)
Theorem X10_absent_reading_is_not_normalised pf (fields : list (string * JsVal)) :
  assoc "tmin" fields = JUndefined →
  ∃ day,
    Meteostat.format_day pf (JObj fields) = Normal day ∧
    Meteostat.temp_min day = JUndefined ∧
    (assoc "wspd" fields = JUndefined → Meteostat.wind_speed day = JNaN) ∧
    ∀ rest duration,
      ∃ e : JsError, formatForDisplay pf
             (Some (Success (Meteostat.mkHistorical (day :: rest) false duration
                               Meteostat.source)))
           = Throw e ∧ err_name e = "TypeError".
Proof.
  intros Htmin. eexists. split; [reflexivity |].
  cbn [Meteostat.temp_min Meteostat.wind_speed prop]. rewrite Htmin.
  split; [reflexivity |]. split; [intros ->; reflexivity |].
  intros rest duration. eexists.
  cbn [formatForDisplay Meteostat.daily mapC display_day show Meteostat.temp_min
       Meteostat.keep not_null toFixed mbind Completion_bind].
  split; reflexivity.
Qed.

Lemma X10_absent_reading_is_not_normalised_witness :
  ∃ day,
    Meteostat.format_day Sample.platform (JObj [("date", JStr "2024-01-03")])
    = Normal day ∧
    Meteostat.temp_min day = JUndefined.
Proof.
  destruct (X10_absent_reading_is_not_normalised Sample.platform
              [("date", JStr "2024-01-03")] eq_refl) as (day & Hday & Hmin & _).
  exists day. split; assumption.
Defined.

End HistoricalDisplay.

(** ** Sun events and location details *)

Section SunAndLocation.
Import JS Regex Effects Notions MoreNotions.

(** A call resolves to data only if its body does, and is its body then. *)
Lemma caught_success {S} (body : Eff (Outcome S)) (src : string)
    (message : Thrown → Completion string) (s : S) :
  result (try_catch_eff body (λ error, failure_of (message error) src))
  = Normal (Success s) →
  try_catch_eff body (λ error, failure_of (message error) src) = body ∧
  result body = Normal (Success s).
Proof.
  destruct body as [t [o | e]]; cbn.
  - intros H. split; [reflexivity | exact H].
  - unfold failure. destruct (message e); cbn; discriminate.
Qed.

(** X11. A call of [fetchSunEvents] resolves to data only if the network
    was called once and answered with a payload whose [status] is the
    string ["OK"]; the day length of the result is then [null] or a number
    other than zero, never zero and never NaN. *)
Theorem X11_sun_events_success env ep latitude longitude apiKey r :
  result (SunriseSunset.fetchSunEvents env ep latitude longitude apiKey)
  = Normal (Success r) →
  attempts (trace (SunriseSunset.fetchSunEvents env ep latitude longitude apiKey))
  = 1%nat ∧
  (∃ payload, safeApiFetch env 0 = Body payload ∧ prop payload "status" = JStr "OK") ∧
  (SunriseSunset.dayLengthSeconds (SunriseSunset.data r) = JNull ∨
   ∃ q, SunriseSunset.dayLengthSeconds (SunriseSunset.data r) = JNum q ∧ ¬ (q == 0)%Q).
Proof.
  unfold SunriseSunset.fetchSunEvents. intros [-> H]%caught_success. revert H.
  unfold SunriseSunset.fetchSunEvents_body.
  destruct (negb (valid _)); [discriminate |].
  destruct (SunriseSunset.build_url _ _ _ _ _) as [url | e]; [| discriminate].
  cbn [lift mbind Eff_bind emit app].
  destruct (safeApiFetch env 0) as [e | e | payload]; try discriminate.
  destruct (negb (truthy payload)) eqn:Ht; [discriminate |].
  destruct (strict_eq_str (prop payload "status") "OK") eqn:Hs; [| discriminate].
  cbn. intros [= <-]. split; [reflexivity |]. split.
  - exists payload. split; [reflexivity |].
    destruct (prop payload "status"); try discriminate Hs.
    cbn in Hs. apply String.eqb_eq in Hs. subst. reflexivity.
  - cbn [SunriseSunset.data SunriseSunset._normalize SunriseSunset.dayLengthSeconds].
    unfold js_or.
    destruct (to_number (platform env) _) as [q |]; cbn [of_number truthy];
      [| left; reflexivity].
    unfold Qis_zero. destruct (Qeq_bool q 0) eqn:Hq; cbn [negb]; [left; reflexivity |].
    right. exists q. split; [reflexivity |].
    intros E. apply Qeq_bool_iff in E. congruence.
Qed.

Lemma X11_sun_events_success_witness :
  ∃ r,
    result (SunriseSunset.fetchSunEvents (Sample.env [Body MoreSamples.sun_payload])
              MoreSamples.sun_endpoint Sample.berlin_lat Sample.berlin_lon JNull)
    = Normal (Success r) ∧
    SunriseSunset.dayLengthSeconds (SunriseSunset.data r) = JNum 27960.
Proof.
  destruct (result (SunriseSunset.fetchSunEvents
                      (Sample.env [Body MoreSamples.sun_payload])
                      MoreSamples.sun_endpoint Sample.berlin_lat Sample.berlin_lon JNull))
    as [[r | f] | e] eqn:H; try (vm_compute in H; discriminate H).
  exists r. split; [reflexivity |].
  destruct (X11_sun_events_success _ _ _ _ _ _ H) as (_ & _ & [Hnull | (q & Hq & _)]);
    vm_compute in H; injection H as <-; [discriminate Hnull | reflexivity].
Defined.

(** X12. When the provider answers with a [status] other than ["OK"]
    (a non-empty string such as ["INVALID_REQUEST"]), [fetchSunEvents]
    resolves, after this one call and without a retry, to the failure whose
    error is that status. *)
Theorem X12_sun_events_status_is_the_error
    env ep latitude longitude apiKey url payload (status : string) :
  valid (validateCoordinates env latitude longitude) = true →
  SunriseSunset.build_url (platform env) ep latitude longitude apiKey = Normal url →
  safeApiFetch env 0 = Body payload →
  prop payload "status" = JStr status →
  status ≠ "OK" → status ≠ EmptyString →
  SunriseSunset.fetchSunEvents env ep latitude longitude apiKey =
  ([EvFetch (GET url (TIMEOUT ep))],
   Normal (Failed (mkFailure status "sunrisesunset"))).
Proof.
  intros Hcoords Hurl Hreply Hstatus Hok Hempty.
  unfold SunriseSunset.fetchSunEvents, SunriseSunset.fetchSunEvents_body.
  rewrite Hcoords, Hurl. cbn [negb lift mbind Eff_bind emit app]. rewrite Hreply.
  assert (get_opt payload "status" = JStr status) as Hopt.
  { destruct payload; try discriminate Hstatus; exact Hstatus. }
  rewrite Hstatus, Hopt. cbn [strict_eq_str].
  apply String.eqb_neq in Hok, Hempty. rewrite Hok. rewrite orb_true_r.
  unfold js_or. cbn [truthy]. rewrite Hempty. cbn [negb to_string].
  unfold throw, try_catch_eff, failure_of, failure, lift.
  cbn [read_message_or_string mbind Completion_bind].
  unfold message_or_string, Error. cbn [err_message].
  rewrite Hempty. reflexivity.
Qed.

Lemma X12_sun_events_status_is_the_error_witness :
  SunriseSunset.fetchSunEvents
    (Sample.env [Body (JObj [("status", JStr "INVALID_REQUEST"); ("results", JStr EmptyString)])])
    MoreSamples.sun_endpoint Sample.berlin_lat Sample.berlin_lon JNull =
  ([EvFetch MoreSamples.sun_request],
   Normal (Failed (mkFailure "INVALID_REQUEST" "sunrisesunset"))).
Proof.
  apply (X12_sun_events_status_is_the_error _ MoreSamples.sun_endpoint _ _ _
           "https://api.sunrise-sunset.org/json?lat=52.5200&lng=13.4050&formatted=0"
           (JObj [("status", JStr "INVALID_REQUEST"); ("results", JStr EmptyString)])
           "INVALID_REQUEST").
  - vm_compute. reflexivity.
  - vm_compute. reflexivity.
  - reflexivity.
  - reflexivity.
  - discriminate.
  - discriminate.
Defined.

Lemma mapC_get_names pf (entries : list JsVal) names :
  mapC (λ entry, get pf entry "name") entries = Normal names →
  names = (λ entry, prop entry "name") <$> entries.
Proof.
  intros H%mapC_Forall2. induction H as [| e n es ns He _ IH]; [reflexivity |].
  cbn. rewrite (get_Normal _ _ _ _ He), IH. reflexivity.
Qed.

(** X13. When [_normalize] of BigDataCloud succeeds, the subdivisions of
    the result are at most three, none of them is falsy (empty, [null],
    missing), and they are names of the administrative entries of the
    payload, in the order of these entries. *)
Theorem X13_subdivisions pf payload location :
  BigDataCloud._normalize pf payload = Normal location →
  (length (BigDataCloud.subdivisions location) ≤ 3)%nat ∧
  Forall (λ v, truthy v = true) (BigDataCloud.subdivisions location) ∧
  ∃ entries,
    (get_opt (get_opt payload "localityInfo") "administrative" = JArr entries
     ∨ entries = []) ∧
    BigDataCloud.subdivisions location
    `sublist_of` ((λ entry, prop entry "name") <$> entries).
Proof.
  unfold BigDataCloud._normalize. intros H.
  set (entries := match get_opt (get_opt payload "localityInfo") "administrative" with
                  | JArr items => items
                  | _ => []
                  end) in *.
  destruct (mapC _ entries) as [names | e] eqn:Hnames;
    cbn [mbind Completion_bind] in H; [| discriminate].
  destruct (get pf payload "city"); cbn [mbind Completion_bind] in H; [| discriminate].
  injection H as <-. cbn [BigDataCloud.subdivisions].
  apply mapC_get_names in Hnames. subst names.
  split; [rewrite length_take; lia |]. split.
  - apply Forall_take. apply Forall_forall. intros v Hv.
    apply list_elem_of_filter in Hv as [Hv _]. exact Hv.
  - exists entries. split.
    + subst entries.
      destruct (get_opt (get_opt payload "localityInfo") "administrative");
        auto.
    + etransitivity; [apply sublist_take | apply sublist_filter].
Qed.

Lemma X13_subdivisions_witness :
  ∃ location,
    BigDataCloud._normalize Sample.platform MoreSamples.location_payload
    = Normal location ∧
    BigDataCloud.subdivisions location
    = [JStr "Deutschland"; JStr "Berlin"; JStr "Mitte"].
Proof.
  destruct (BigDataCloud._normalize Sample.platform MoreSamples.location_payload)
    as [location | e] eqn:H; [| vm_compute in H; discriminate H].
  exists location. split; [reflexivity |].
  destruct (X13_subdivisions _ _ _ H) as (_ & _ & entries & _ & _).
  vm_compute in H. injection H as <-. reflexivity.
Defined.

(** X14. For a country code of two code units whose upper-case form
    consists of two capital letters, [_countryFlag] is a pair of regional
    indicator symbols, the first for the first letter and the second for
    the second one. *)
Theorem X14_country_flag pf (code : string) (a b : Z) :
  length (String_codeUnits pf code) = 2%nat →
  code ≠ EmptyString →
  String_codeUnits pf (String_toUpperCase pf code) = [a; b] →
  capital_letter a → capital_letter b →
  ∃ x y, BigDataCloud._countryFlag pf (JStr code) = Some [x; y] ∧
         regional_indicator x ∧ regional_indicator y ∧
         x - 0x1F1E6 = a - 65 ∧ y - 0x1F1E6 = b - 65.
Proof.
  intros Hlen Hne Hup Ha Hb. unfold BigDataCloud._countryFlag.
  cbn [truthy]. apply String.eqb_neq in Hne. rewrite Hne, Hlen, Hup.
  cbn [negb orb Nat.eqb map]. eexists _, _. split; [reflexivity |].
  unfold regional_indicator, capital_letter in *. lia.
Qed.

Lemma X14_country_flag_witness :
  BigDataCloud._countryFlag Sample.platform (JStr "de") = Some [0x1F1E9; 0x1F1EA].
Proof.
  destruct (X14_country_flag Sample.platform "de" 68 69)
    as (x & y & Hflag & _ & _ & Hx & Hy).
  - reflexivity.
  - discriminate.
  - reflexivity.
  - unfold capital_letter. lia.
  - unfold capital_letter. lia.
  - rewrite Hflag. f_equal. f_equal; [lia | f_equal; lia].
Defined.

End SunAndLocation.

(** ** The caches of the service worker *)

Section Caches.
Import JS Regex ServiceWorker Lifecycle.

Lemma filter_and {A} (f g : A → bool) (l : list A) :
  List.filter f (List.filter g l) = List.filter (fun x => g x && f x) l.
Proof.
  induction l as [| x l IH]; [reflexivity |]. cbn.
  destruct (g x); cbn; [destruct (f x) |]; rewrite ?IH; reflexivity.
Qed.

Lemma activate_fold (names : list string) (caches : CacheStorage) :
  foldl (fun remaining cacheName =>
           if negb (String.eqb cacheName CACHE_NAME)
           then caches_delete cacheName remaining
           else remaining)
        caches names
  = List.filter (kept names) caches.
Proof.
  revert caches. induction names as [| n names IH]; intros caches.
  - cbn. induction caches as [| e caches IHc]; [reflexivity |].
    cbn. unfold kept at 1. cbn. rewrite orb_true_r. f_equal. exact IHc.
  - cbn [foldl]. rewrite IH. destruct (String.eqb n CACHE_NAME) eqn:Hn; cbn [negb].
    + apply String.eqb_eq in Hn. subst n. apply List.filter_ext. intros e.
      unfold kept. cbn [existsb]. destruct (String.eqb e.1 CACHE_NAME); reflexivity.
    + unfold caches_delete. rewrite filter_and. apply List.filter_ext. intros e.
      unfold kept. cbn [existsb].
      destruct (String.eqb e.1 CACHE_NAME) eqn:He.
      * apply String.eqb_eq in He. rewrite He, String.eqb_sym, Hn. reflexivity.
      * destruct (String.eqb e.1 n); reflexivity.
Qed.

(** Activation leaves the caches named [CACHE_NAME], in their order. *)
Lemma on_activate_filter (caches : CacheStorage) :
  on_activate caches = List.filter (fun entry => String.eqb entry.1 CACHE_NAME) caches.
Proof.
  unfold on_activate. rewrite activate_fold. apply List.filter_ext_in.
  intros e He. unfold kept.
  destruct (String.eqb e.1 CACHE_NAME); [reflexivity |]. cbn.
  assert (existsb (String.eqb e.1) (caches_keys caches) = true) as ->; [| reflexivity].
  apply existsb_exists. exists e.1. split; [| apply String.eqb_refl].
  unfold caches_keys. apply in_map. exact He.
Qed.

Lemma on_activate_names (caches : CacheStorage) :
  Forall (fun entry => entry.1 = CACHE_NAME) (on_activate caches).
Proof.
  rewrite on_activate_filter. apply Forall_forall. intros e He.
  apply list_elem_of_In, List.filter_In in He as [_ He]. apply String.eqb_eq, He.
Qed.





Lemma match_after_put (caches : CacheStorage) (url : string) (r : Response) :
  Forall (fun entry => entry.1 = CACHE_NAME) caches →
  match_url (caches_put caches CACHE_NAME url r) url = Some r.
Proof.
  intros Hall. destruct Hall as [| [n c] rest Hn _]; cbn.
  - rewrite lookup_singleton_eq. reflexivity.
  - cbn in Hn. subst n. rewrite String.eqb_refl. cbn.
    rewrite lookup_insert_eq. reflexivity.
Qed.

(** X16. Round trip through the cache: once the worker is activated, a
    same-origin GET request answered with status 200 while online is
    answered with that very response when the network fails later on and
    the cache storage can be read. *)
Theorem X16_online_response_served_offline
    w caches request response reqUrl error :
  is_api_request (r_url request) = false →
  r_method request = "GET" →
  status response = 200 → type response ≠ "error" →
  URL_new w (r_url request) = Some reqUrl →
  protocol reqUrl = "http:" ∨ protocol reqUrl = "https:" →
  origin reqUrl = location_origin w →
  href reqUrl = r_url request →
  cache_put_ok w (href reqUrl) response = true →
  caches_match_rejects w request = None →
  let online := on_fetch w (on_activate caches) request (Responded response) in
  online.1 = RespondWith (Normal response) ∧
  (on_fetch w online.2 request (Rejected error)).1 = RespondWith (Normal response).
Proof.
  intros Hapi Hget Hstatus Htype Hurl Hproto Horigin Hhref Hput Hmatch.
  unfold on_fetch, on_network_failure, match_request. rewrite Hapi, Hmatch.
  cbn [fst snd mbind Completion_bind]. split; [reflexivity |].
  unfold on_response. rewrite Hstatus, Hurl, Horigin, Hput, String.eqb_refl.
  apply String.eqb_neq in Htype. rewrite Htype.
  assert (String.eqb (protocol reqUrl) "http:" || String.eqb (protocol reqUrl) "https:"
          = true) as ->.
  { destruct Hproto as [-> | ->]; reflexivity. }
  cbn [Z.eqb Pos.eqb negb andb]. unfold caches_match. rewrite Hget, Hhref.
  cbn [String.eqb Ascii.eqb Bool.eqb].
  rewrite (match_after_put _ _ _ (on_activate_names caches)). reflexivity.
Qed.

Lemma X16_online_response_served_offline_witness :
  (on_fetch SampleCalls.worker
     (on_fetch SampleCalls.worker (on_activate two_versions) SampleCalls.style_request
        (Responded SampleCalls.style_response)).2
     SampleCalls.style_request (Rejected SampleCalls.offline)).1
  = RespondWith (Normal SampleCalls.style_response).
Proof.
  apply (X16_online_response_served_offline SampleCalls.worker two_versions
           SampleCalls.style_request SampleCalls.style_response
           (mkURL "https:" "https://calchas.example"
              "https://calchas.example/src/style.css") SampleCalls.offline).
  - reflexivity.
  - reflexivity.
  - reflexivity.
  - discriminate.
  - reflexivity.
  - right. reflexivity.
  - reflexivity.
  - reflexivity.
  - reflexivity.
  - reflexivity.
Defined.

(** X17. Without activation the round trip can fail: while a cache of
    another name that was created first holds an entry for the URL, the
    offline answer (given that the cache storage can be read) is that
    entry, whatever the network answered last. *)
Theorem X17_older_cache_shadows_fresh_response
    w name (old : Cache) rest request response stale error :
  is_api_request (r_url request) = false →
  r_method request = "GET" →
  name ≠ CACHE_NAME →
  old !! r_url request = Some stale →
  caches_match_rejects w request = None →
  let online := on_fetch w ((name, old) :: rest) request (Responded response) in
  (on_fetch w online.2 request (Rejected error)).1 = RespondWith (Normal stale).
Proof.
  intros Hapi Hget Hname Hold Hmatch.
  unfold on_fetch, on_network_failure, match_request. rewrite Hapi, Hmatch.
  cbn [fst snd mbind Completion_bind].
  unfold caches_match. rewrite Hget. cbn [String.eqb Ascii.eqb Bool.eqb].
  assert (∃ rest', on_response w ((name, old) :: rest) (r_url request) response
                   = (name, old) :: rest') as [rest' ->].
  { unfold on_response.
    destruct (_ && _); [| eexists; reflexivity].
    destruct (URL_new w _); [| eexists; reflexivity].
    destruct (_ && _); [| eexists; reflexivity].
    cbn [caches_put]. apply String.eqb_neq in Hname. rewrite Hname.
    eexists; reflexivity. }
  cbn [match_url]. rewrite Hold. reflexivity.
Qed.

Lemma X17_older_cache_shadows_fresh_response_witness :
  (on_fetch SampleCalls.worker
     (on_fetch SampleCalls.worker two_versions SampleCalls.style_request
        (Responded SampleCalls.style_response)).2
     SampleCalls.style_request (Rejected SampleCalls.offline)).1
  = RespondWith (Normal old_style).
Proof.
  apply (X17_older_cache_shadows_fresh_response SampleCalls.worker "calchas-v0").
  - reflexivity.
  - reflexivity.
  - discriminate.
  - reflexivity.
  - reflexivity.
Defined.

(** X18. [staleWhileRevalidate] on an activated worker whose cache
    storage can be read: a GET request that is cached gets the cached
    response whatever the network does, and once the network has answered
    it with a same-origin response of status 200, the next call gets that
    response. *)
Theorem X18_stale_then_fresh
    w caches request stale net response reqUrl net' :
  r_method request = "GET" →
  caches_match (on_activate caches) request = Some stale →
  status response = 200 → type response ≠ "error" →
  URL_new w (r_url request) = Some reqUrl →
  protocol reqUrl = "http:" ∨ protocol reqUrl = "https:" →
  origin reqUrl = location_origin w →
  cache_put_ok w (r_url request) response = true →
  caches_match_rejects w request = None →
  (staleWhileRevalidate w (on_activate caches) request net).1 = Normal stale ∧
  let refreshed :=
    (staleWhileRevalidate w (on_activate caches) request (Responded response)).2 in
  (staleWhileRevalidate w refreshed request net').1 = Normal response.
Proof.
  intros Hget Hstale Hstatus Htype Hurl Hproto Horigin Hput Hmatch.
  unfold staleWhileRevalidate, match_request. rewrite Hmatch, Hstale.
  cbn [fst snd]. split; [reflexivity |].
  unfold refresh. rewrite Hstatus, Hurl, Horigin, Hput, String.eqb_refl.
  apply String.eqb_neq in Htype. rewrite Htype.
  assert (String.eqb (protocol reqUrl) "http:" || String.eqb (protocol reqUrl) "https:"
          = true) as ->.
  { destruct Hproto as [-> | ->]; reflexivity. }
  cbn [Z.eqb Pos.eqb negb andb orb]. unfold caches_match. rewrite Hget.
  cbn [String.eqb Ascii.eqb Bool.eqb].
  rewrite (match_after_put _ _ _ (on_activate_names caches)). reflexivity.
Qed.

Lemma X18_stale_then_fresh_witness :
  (staleWhileRevalidate SampleCalls.worker
     (staleWhileRevalidate SampleCalls.worker
        (on_activate (favorites_cache "old")) 
        (mkFetchRequest "https://calchas.example/data/wetter_favorites" "GET")
        (Responded (mkResponse 200 "OK" "basic" "new"))).2
     (mkFetchRequest "https://calchas.example/data/wetter_favorites" "GET")
     (Rejected SampleCalls.offline)).1
  = Normal (mkResponse 200 "OK" "basic" "new").
Proof.
  apply (X18_stale_then_fresh SampleCalls.worker (favorites_cache "old")
           (mkFetchRequest "https://calchas.example/data/wetter_favorites" "GET")
           (mkResponse 200 "OK" "basic" "old") (Rejected SampleCalls.offline)
           (mkResponse 200 "OK" "basic" "new")
           (mkURL "https:" "https://calchas.example"
              "https://calchas.example/data/wetter_favorites")).
  - reflexivity.
  - reflexivity.
  - reflexivity.
  - discriminate.
  - reflexivity.
  - right. reflexivity.
  - reflexivity.
  - reflexivity.
  - reflexivity.
Defined.

End Caches.

(** ** The periodic sync of the favourites *)

Section Favorites.
Import JS Regex ServiceWorker Lifecycle.

Lemma favorite_url_is_api pf lat lng :
  is_api_request (favorite_url pf lat lng) = true.
Proof.
  unfold is_api_request.
  assert (includes (favorite_url pf lat lng) "api.open-meteo.com" = true) as ->;
    [| reflexivity].
  apply includes_occurs. exists "https://". eexists. unfold favorite_url.
  cbn. reflexivity.
Qed.

Lemma sync_one_url env fav url :
  sync_one env fav = Normal (Some url) →
  ∃ coords, prop fav "coords" = coords ∧ fav ≠ JNull ∧ fav ≠ JUndefined ∧
    url = favorite_url (s_platform env) (get_opt coords "latitude")
            (get_opt coords "longitude") ∧
    truthy (get_opt coords "latitude") = true ∧
    truthy (get_opt coords "longitude") = true.
Proof.
  unfold sync_one. intros H. exists (prop fav "coords").
  assert (fav ≠ JNull ∧ fav ≠ JUndefined) as [Hn Hu].
  { split; intros ->; discriminate H. }
  assert (get (s_platform env) fav "coords" = Normal (prop fav "coords")) as Hget.
  { destruct fav; try reflexivity; congruence. }
  rewrite Hget in H. cbn [mbind Completion_bind try_catch] in H.
  destruct (truthy (get_opt (prop fav "coords") "latitude")) eqn:Hlat;
    destruct (truthy (get_opt (prop fav "coords") "longitude")) eqn:Hlng;
    cbn [andb try_catch] in H; try discriminate H.
  injection H as <-. repeat split; assumption.
Qed.

Lemma sync_all_from env favorites url :
  url ∈ sync_all env favorites →
  ∃ fav, fav ∈ favorites ∧ sync_one env fav = Normal (Some url).
Proof.
  induction favorites as [| fav rest IH]; cbn; [intros H; inversion H |].
  destruct (sync_one env fav) as [[u |] | e] eqn:Hone.
  - intros [-> | Hin]%elem_of_cons.
    + exists fav. split; [left | exact Hone].
    + destruct (IH Hin) as (f & Hf & Hu). exists f. split; [right; exact Hf | exact Hu].
  - intros Hin. destruct (IH Hin) as (f & Hf & Hu).
    exists f. split; [right; exact Hf | exact Hu].
  - intros H. inversion H.
Qed.

(** X19. Every URL that [syncFavoritesData] fetches is the forecast URL
    of Open-Meteo for a latitude and a longitude that are both truthy (so
    never for a coordinate that is the number 0), and it is one of the API
    URLs that the [fetch] listener of the worker does not handle. *)
Theorem X19_sync_fetches_only_forecasts env caches url :
  url ∈ syncFavoritesData env caches →
  is_api_request url = true ∧
  ∃ lat lng, url = favorite_url (s_platform env) lat lng ∧
             truthy lat = true ∧ truthy lng = true ∧
             lat ≠ JNum 0 ∧ lng ≠ JNum 0.
Proof.
  unfold syncFavoritesData.
  destruct (_ ≫= iterate env) as [items | e]; [| intros H; inversion H].
  intros (fav & _ & Hone)%sync_all_from.
  destruct (sync_one_url _ _ _ Hone) as (coords & _ & _ & _ & -> & Hlat & Hlng).
  split; [apply favorite_url_is_api |].
  eexists _, _. split; [reflexivity |]. repeat split; try assumption.
  - intros E. rewrite E in Hlat. discriminate Hlat.
  - intros E. rewrite E in Hlng. discriminate Hlng.
Qed.

Lemma X19_sync_fetches_only_forecasts_witness :
  syncFavoritesData sync_env (favorites_cache "[quito, paris]")
  = ["https://api.open-meteo.com/v1/forecast?latitude=49&longitude=2&hourly=temperature_2m,precipitation,weathercode&daily=temperature_2m_max,temperature_2m_min,weathercode&timezone=auto"]
  ∧ is_api_request
      "https://api.open-meteo.com/v1/forecast?latitude=49&longitude=2&hourly=temperature_2m,precipitation,weathercode&daily=temperature_2m_max,temperature_2m_min,weathercode&timezone=auto"
    = true.
Proof.
  assert (syncFavoritesData sync_env (favorites_cache "[quito, paris]")
  = ["https://api.open-meteo.com/v1/forecast?latitude=49&longitude=2&hourly=temperature_2m,precipitation,weathercode&daily=temperature_2m_max,temperature_2m_min,weathercode&timezone=auto"])
    as Hsync by (vm_compute; reflexivity).
  split; [exact Hsync |].
  apply (X19_sync_fetches_only_forecasts sync_env (favorites_cache "[quito, paris]")).
  rewrite Hsync. left.
Defined.

Lemma sync_all_stops env pre fav post :
  fav = JNull ∨ fav = JUndefined →
  sync_all env (pre ++ fav :: post) = sync_all env pre.
Proof.
  intros Hfav. induction pre as [| p pre IH]; cbn.
  - destruct Hfav as [-> | ->]; reflexivity.
  - destruct (sync_one env p) as [[u |] | e]; [f_equal |..]; auto.
Qed.

(** X20. A [null] among the stored favourites ends the sync: the [catch]
    block of the loop throws itself, so what is fetched is what the loop
    fetches for the favourites before the [null]; those after it are not
    looked at. *)
Theorem X20_null_favourite_ends_the_sync env caches text pre post :
  getFromStorage env caches "wetter_favorites" = Some text →
  text ≠ EmptyString →
  JSON_parse env text = Normal (JArr (pre ++ JNull :: post)) →
  syncFavoritesData env caches = sync_all env pre ∧
  ∀ url, url ∈ syncFavoritesData env caches →
         ∃ fav, fav ∈ pre ∧ sync_one env fav = Normal (Some url).
Proof.
  intros Hstored Htext Hparse.
  assert (syncFavoritesData env caches = sync_all env pre) as Heq.
  { unfold syncFavoritesData. rewrite Hstored.
    apply String.eqb_neq in Htext. rewrite Htext, Hparse.
    cbn [mbind Completion_bind iterate]. apply sync_all_stops. left. reflexivity. }
  split; [exact Heq |]. rewrite Heq. apply sync_all_from.
Qed.

Lemma X20_null_favourite_ends_the_sync_witness :
  syncFavoritesData sync_env (favorites_cache favorites_text)
  = ["https://api.open-meteo.com/v1/forecast?latitude=52&longitude=13&hourly=temperature_2m,precipitation,weathercode&daily=temperature_2m_max,temperature_2m_min,weathercode&timezone=auto"].
Proof.
  destruct (X20_null_favourite_ends_the_sync sync_env (favorites_cache favorites_text)
              favorites_text [berlin] [quito; paris]) as [-> _].
  - reflexivity.
  - discriminate.
  - reflexivity.
  - vm_compute. reflexivity.
Defined.

End Favorites.

(** ** The days behind today *)

Section HistoricalWindow.
Import JS Regex Effects.

Lemma filterM_elem {A} (f : A → Completion bool) (l : list A) : ∀ l' x,
  filterM f l = Normal l' → x ∈ l' → x ∈ l ∧ f x = Normal true.
Proof.
  induction l as [| y l IH]; intros l' x H Hx; cbn in H.
  - injection H as <-. inversion Hx.
  - destruct (f y) as [b | e] eqn:Hy; cbn in H; [| discriminate].
    destruct (filterM f l) as [rest | e]; cbn in H; [| discriminate].
    injection H as <-. destruct b.
    + apply elem_of_cons in Hx as [-> | Hx].
      * split; [left | exact Hy].
      * destruct (IH rest x eq_refl Hx) as [Hin Hf]. split; [right; exact Hin | exact Hf].
    + destruct (IH rest x eq_refl Hx) as [Hin Hf]. split; [right; exact Hin | exact Hf].
Qed.

Lemma recent_day_window pf today day :
  VisualCrossing.recent_day pf today day = Normal true →
  ∃ t, Date_new pf (prop day "datetime") = Some t ∧
       t ≤ today < t + 7 * VisualCrossing.msPerDay.
Proof.
  unfold VisualCrossing.recent_day. intros H.
  destruct (get pf day "datetime") as [d | e] eqn:Hd; cbn in H; [| discriminate].
  apply get_Normal in Hd. subst d.
  destruct (Date_new pf (prop day "datetime")) as [t |]; [| discriminate].
  exists t. split; [reflexivity |].
  injection H as H. apply andb_true_iff in H as [Hlo Hhi].
  apply Z.leb_le in Hlo, Hhi. unfold VisualCrossing.msPerDay in *.
  assert (today - t = 86400000 * ((today - t) / (1000 * 60 * 60 * 24))
                      + (today - t) mod 86400000) as Hdiv
    by (apply Z.div_mod; lia).
  pose proof (Z.mod_pos_bound (today - t) 86400000 ltac:(lia)).
  change (1000 * 60 * 60 * 24) with 86400000 in *. lia.
Qed.

(** X21. When [_formatWeatherData] succeeds, every entry of [historical]
    is a day of the payload whose [datetime] is the date of the entry and
    denotes an instant not after the clock reading [today] and less than
    seven days before it; the payload has at least as many days as there
    are such entries. *)
Theorem X21_historical_is_the_last_seven_days pf today data formatted :
  VisualCrossing._formatWeatherData pf today data = Normal formatted →
  ∃ days,
    prop data "days" = JArr days ∧
    (length (VisualCrossing.fmt_historical formatted) ≤ length days)%nat ∧
    ∀ entry, entry ∈ VisualCrossing.fmt_historical formatted →
      ∃ day t, day ∈ days ∧
               VisualCrossing.date entry = prop day "datetime" ∧
               Date_new pf (VisualCrossing.date entry) = Some t ∧
               t ≤ today < t + 7 * VisualCrossing.msPerDay.
Proof.
  unfold VisualCrossing._formatWeatherData. intros H.
  destruct (get pf data "resolvedUnit"); cbn [mbind Completion_bind] in H; [| discriminate].
  destruct (get pf (prop data "currentConditions") "temp");
    cbn [mbind Completion_bind] in H; [| discriminate].
  destruct (VisualCrossing._mapWeatherCondition pf _);
    cbn [mbind Completion_bind] in H; [| discriminate].
  destruct (prop data "days") as [| | | | | | days |];
    cbn [mbind Completion_bind] in H; try discriminate.
  destruct (filterM _ days) as [recent | e] eqn:Hrecent;
    cbn [mbind Completion_bind] in H; [| discriminate].
  destruct (mapC _ (rev recent)) as [historical | e] eqn:Hhist;
    cbn [mbind Completion_bind] in H; [| discriminate].
  destruct (mapC _ (VisualCrossing.slice_1_8 days));
    cbn [mbind Completion_bind] in H; [| discriminate].
  injection H as <-. cbn [VisualCrossing.fmt_historical].
  exists days. split; [reflexivity |]. split.
  - rewrite (mapC_length _ _ _ Hhist), length_rev.
    apply (filterM_length _ _ _ Hrecent).
  - intros entry Hentry. apply mapC_Forall2 in Hhist.
    apply list_elem_of_lookup in Hentry as [i Hi].
    destruct (Forall2_lookup_r _ _ _ i entry Hhist Hi) as (day & Hday & Hfmt).
    apply list_elem_of_lookup_2, list_elem_of_In, in_rev, list_elem_of_In in Hday.
    destruct (filterM_elem _ _ _ _ Hrecent Hday) as [Hin Hrec].
    destruct (recent_day_window _ _ _ Hrec) as (t & Ht & Hwin).
    apply format_day_date in Hfmt.
    exists day, t. rewrite Hfmt. auto.
Qed.

Lemma X21_historical_is_the_last_seven_days_witness :
  ∃ formatted,
    VisualCrossing._formatWeatherData Sample.platform 1700000002000
      SampleCalls.weather_payload_us = Normal formatted ∧
    VisualCrossing.date <$> VisualCrossing.fmt_historical formatted
    = [JStr "2023-11-14"].
Proof.
  destruct (VisualCrossing._formatWeatherData Sample.platform 1700000002000
              SampleCalls.weather_payload_us) as [formatted | e] eqn:H;
    [| vm_compute in H; discriminate H].
  exists formatted. split; [reflexivity |].
  destruct (X21_historical_is_the_last_seven_days _ _ _ _ H) as (days & _ & _ & _).
  vm_compute in H. injection H as <-. reflexivity.
Defined.

End HistoricalWindow.

(** ** Invariants of the interleaved drains *)

Section Interleavings.
Import JS ServiceWorker Interleaving.

Lemma run_cons ev evs st : run (ev :: evs) st = run evs (step ev st).
Proof. reflexivity. Qed.

(** A step leaves the store as it is or deletes the entry of a drain that
    waits for this deletion. *)
Lemma step_store ev st :
  store (step ev st) = store st ∨
  ∃ i req rest, tasks st !! i = Some (AwaitRemove req rest) ∧
                store (step ev st) = store_delete (id req) (store st).
Proof.
  destruct ev as [tag | i success | i net]; cbn [step].
  - destruct (String.eqb tag _); left; reflexivity.
  - destruct (tasks st !! i) as [[| | req rest | req rest |] |] eqn:Ht;
      try (left; reflexivity).
    + destruct success; [| left; reflexivity].
      destruct (next_request _ _); left; reflexivity.
    + destruct (next_request rest (calls st)) eqn:Hnext. cbn [set_task store].
      destruct success; [| left; reflexivity].
      right. exists i, req, rest. split; [exact Ht | reflexivity].
  - destruct (tasks st !! i) as [[| | req rest | req rest |] |];
      try (left; reflexivity).
    destruct net as [response | err]; [destruct (ok response) |];
      try destruct (next_request _ _); left; reflexivity.
Qed.

Lemma next_request_log rest log :
  replayed (next_request rest log).1 (next_request rest log).2 ∧
  ∃ extra, (next_request rest log).2 = log ++ extra.
Proof.
  destruct rest as [| req rest]; cbn.
  - split; [exact I | exists []; symmetry; apply app_nil_r].
  - split; [apply elem_of_app; right; left | exists [req]; reflexivity].
Qed.

Lemma replayed_mono t log extra : replayed t log → replayed t (log ++ extra).
Proof. destruct t; cbn; auto; intros H; apply elem_of_app; left; exact H. Qed.

Lemma set_task_replayed i t st store' log extra :
  all_replayed st → replayed t (calls st ++ extra) → log = calls st ++ extra →
  all_replayed (set_task i t st store' log).
Proof.
  intros Hall Ht -> j t'. unfold set_task. cbn [tasks calls].
  intros [(_ & <- & _) | (_ & Hold)]%list_lookup_insert_Some; [exact Ht |].
  apply replayed_mono, (Hall _ _ Hold).
Qed.

(** The network calls only grow, and the drains stay busy with requests
    that have been called. *)
Lemma step_replayed ev st :
  all_replayed st →
  all_replayed (step ev st) ∧ ∃ extra, calls (step ev st) = calls st ++ extra.
Proof.
  intros Hall.
  assert (∀ i t store', replayed t (calls st) →
            all_replayed (set_task i t st store' (calls st))) as Hsame.
  { intros i t store' Ht. apply (set_task_replayed _ _ _ _ _ []); rewrite ?app_nil_r; auto. }
  assert (∀ i rest store',
            all_replayed (set_task i (next_request rest (calls st)).1 st store'
                            (next_request rest (calls st)).2)
            ∧ ∃ extra, (next_request rest (calls st)).2 = calls st ++ extra) as Hnext.
  { intros i rest store'.
    destruct (next_request_log rest (calls st)) as [Ht [extra Hextra]].
    split; [| exists extra; exact Hextra].
    apply (set_task_replayed _ _ _ _ _ extra); [exact Hall | | exact Hextra].
    rewrite <- Hextra. exact Ht. }
  assert (∃ extra, calls st = calls st ++ extra) as Hnil
    by (exists []; symmetry; apply app_nil_r).
  destruct ev as [tag | i success | i net]; cbn [step].
  - destruct (String.eqb tag _); [| split; [exact Hall | exact Hnil]].
    split; [| exact Hnil]. intros j t. cbn [tasks calls].
    intros [Hold | [_ Hnew]]%lookup_app_Some; [apply (Hall _ _ Hold) |].
    destruct (j - length (tasks st))%nat; [| discriminate Hnew].
    injection Hnew as <-. exact I.
  - destruct (tasks st !! i) as [[| | req rest | req rest |] |] eqn:Ht;
      try (split; [exact Hall | exact Hnil]).
    + split; [| exact Hnil]. apply Hsame. destruct success; exact I.
    + destruct success.
      * destruct (next_request (getAll (store st)) (calls st)) as [t log] eqn:E.
        specialize (Hnext i (getAll (store st)) (store st)).
        rewrite E in Hnext. exact Hnext.
      * split; [| exact Hnil]. apply Hsame. exact I.
    + destruct (next_request rest (calls st)) as [t log] eqn:E.
      specialize (Hnext i rest
                    (if success then store_delete (id req) (store st) else store st)).
      rewrite E in Hnext. exact Hnext.
  - destruct (tasks st !! i) as [[| | req rest | req rest |] |] eqn:Ht;
      try (split; [exact Hall | exact Hnil]).
    assert (all_replayed (let '(t, calls') := next_request rest (calls st) in
                          set_task i t st (store st) calls')
            ∧ ∃ extra, calls (let '(t, calls') := next_request rest (calls st) in
                              set_task i t st (store st) calls') = calls st ++ extra)
      as Hgo.
    { destruct (next_request rest (calls st)) as [t log] eqn:E.
      specialize (Hnext i rest (store st)). rewrite E in Hnext. exact Hnext. }
    destruct net as [response | err]; [destruct (ok response) |]; try exact Hgo.
    split; [| exact Hnil]. apply Hsame. exact (Hall _ _ Ht).
Qed.

Lemma step_store_sub ev st k r :
  store (step ev st) !! k = Some r → store st !! k = Some r.
Proof.
  destruct (step_store ev st) as [-> | (i & req & rest & _ & ->)]; [auto |].
  unfold store_delete. intros [_ H]%lookup_delete_Some. exact H.
Qed.

(** X22. Whatever events occur in whatever order (any number of [sync]
    events, drains interleaved at will, any settlement of their fetches and
    database requests), the store of failed requests only loses entries:
    an object that is in the store afterwards was there before, under the
    same key and unchanged. *)
Theorem X22_drains_only_delete (evs : list WorkerEvent) (st : State) k r :
  store (run evs st) !! k = Some r → store st !! k = Some r.
Proof.
  revert st. induction evs as [| ev evs IH]; intros st; [auto |].
  rewrite run_cons. intros H. apply (step_store_sub ev), IH, H.
Qed.

Lemma X22_drains_only_delete_witness :
  store (run [Sync retry_tag; DbDone 0 true; DbDone 0 true;
              FetchDone 0 (Rejected SampleCalls.offline)]
           (mkState SampleCalls.queue [] [])) !! 1
  = Some SampleCalls.queued
  ∧ store (mkState SampleCalls.queue [] []) !! 1 = Some SampleCalls.queued.
Proof.
  assert (store (run [Sync retry_tag; DbDone 0 true; DbDone 0 true;
                      FetchDone 0 (Rejected SampleCalls.offline)]
                   (mkState SampleCalls.queue [] [])) !! 1
          = Some SampleCalls.queued) as H by (vm_compute; reflexivity).
  split; [exact H |].
  apply (X22_drains_only_delete _ _ _ _ H).
Defined.

Lemma step_missing store0 ev st :
  all_replayed st → missing_replayed store0 st →
  missing_replayed store0 (step ev st).
Proof.
  intros Hall Hmiss k Hk Hnone.
  destruct (step_replayed ev st Hall) as [_ [extra Hcalls]]. rewrite Hcalls.
  assert (∀ req, req ∈ calls st → req ∈ calls st ++ extra) as Hgrow
    by (intros req H; apply elem_of_app; left; exact H).
  destruct (step_store ev st) as [E | (i & req & rest & Ht & E)]; rewrite E in Hnone.
  - destruct (Hmiss k Hk Hnone) as (req & Hreq & Hid). exists req. auto.
  - unfold store_delete in Hnone. apply lookup_delete_None in Hnone as [<- | Hnone].
    + exists req. split; [| reflexivity]. apply Hgrow. exact (Hall _ _ Ht).
    + destruct (Hmiss k Hk Hnone) as (req' & Hreq & Hid). exists req'. auto.
Qed.

Lemma run_missing store0 (evs : list WorkerEvent) : ∀ st,
  all_replayed st → missing_replayed store0 st →
  missing_replayed store0 (run evs st).
Proof.
  induction evs as [| ev evs IH]; intros st Hall Hmiss; [exact Hmiss |].
  rewrite run_cons. apply IH.
  - apply step_replayed, Hall.
  - apply step_missing; assumption.
Qed.

(** X23. From a worker with no drain in progress, whatever events occur
    in whatever order: an entry that was stored and is no longer is the
    entry of a request that a drain has replayed over the network; nothing
    is deleted unseen. *)
Theorem X23_deleted_entries_were_replayed (evs : list WorkerEvent) (st : State) k :
  tasks st = [] →
  is_Some (store st !! k) →
  store (run evs st) !! k = None →
  ∃ req, req ∈ calls (run evs st) ∧ id req = k.
Proof.
  intros Htasks Hk Hnone.
  apply (run_missing (store st) evs st); try assumption.
  - intros j t. rewrite Htasks. intros H. discriminate H.
  - intros k' [r Hr] Hnone'. congruence.
Qed.

Lemma X23_deleted_entries_were_replayed_witness :
  ∃ req, req ∈ calls (run successful_drain (mkState SampleCalls.queue [] []))
         ∧ id req = 1.
Proof.
  apply (X23_deleted_entries_were_replayed successful_drain
           (mkState SampleCalls.queue [] []) 1).
  - reflexivity.
  - exists SampleCalls.queued. vm_compute. reflexivity.
  - vm_compute. reflexivity.
Defined.

End Interleavings.
